(** * geodata_tool: the retrieval pipeline of [src/geodata_retrieval.py]

    A shallow embedding of [transform_bbox], [get_capabilities_layers],
    [get_supported_crs] and [fetch_geodata], followed by the properties
    of the pipeline that are established on it.

    The Python code talks to the outside through libraries: [requests]
    (HTTP), [xml.etree.ElementTree] (XML), [pyproj]/[shapely]
    (reprojection), [gzip], [geopandas]/[pandas] (feature tables and
    files).  What those libraries answer is collected in a record
    [World]; what the code does to the outside (requests sent,
    transform calls, files written) is recorded in a [State] that is
    threaded through the code by a small state-and-exception monad.
    Diagnostic [print] calls are left out. *)

From stdpp Require Import base option list strings pretty gmap.
From Stdlib Require Import ZArith Lia Ascii String.

Set Warnings "-register-all".

Local Open Scope string_scope.
Local Open Scope list_scope.
Local Open Scope Z_scope.

(** ** Python string methods used by the code *)

Module Py.

(** [str.isspace] on one character, for code points below 256. *)
Definition isspace (c : ascii) : bool :=
  let n := N_of_ascii c in
  ((9 <=? n) && (n <=? 13) || (28 <=? n) && (n <=? 32)
   || (n =? 133) || (n =? 160))%N.

Fixpoint lstrip (s : string) : string :=
  match s with
  | String c s' => if isspace c then lstrip s' else s
  | EmptyString => EmptyString
  end.

(** [s.strip()] *)
Definition strip (s : string) : string :=
  String.rev (lstrip (String.rev (lstrip s))).

(** [s.startswith(p)] *)
Fixpoint startswith (s p : string) : bool :=
  match p, s with
  | EmptyString, _ => true
  | String a p', String b s' => if decide (a = b) then startswith s' p' else false
  | String _ _, EmptyString => false
  end.

(** [s.endswith(p)] *)
Definition endswith (s p : string) : bool :=
  startswith (String.rev s) (String.rev p).

Definition upper_char (c : ascii) : ascii :=
  let n := N_of_ascii c in
  if ((97 <=? n) && (n <=? 122))%N then ascii_of_N (n - 32) else c.

Definition lower_char (c : ascii) : ascii :=
  let n := N_of_ascii c in
  if ((65 <=? n) && (n <=? 90))%N then ascii_of_N (n + 32) else c.

Fixpoint map_chars (f : ascii → ascii) (s : string) : string :=
  match s with
  | EmptyString => EmptyString
  | String c s' => String (f c) (map_chars f s')
  end.

(** [s.upper()] and [s.lower()] on ASCII letters. *)
Definition upper : string → string := map_chars upper_char.
Definition lower : string → string := map_chars lower_char.

(** [s.replace(a, b)] for one-character [a] and [b]. *)
Definition replace_char (a b : ascii) : string → string :=
  map_chars (λ c, if decide (c = a) then b else c).

(** [s[:n]] *)
Fixpoint take (n : nat) (s : string) : string :=
  match n, s with
  | S n', String c s' => String c (take n' s')
  | _, _ => EmptyString
  end.

(** [needle in haystack] on strings. *)
Fixpoint contains (haystack needle : string) : bool :=
  startswith haystack needle ||
  match haystack with
  | EmptyString => false
  | String _ h' => contains h' needle
  end.

End Py.

(** ** Coordinates

    The four numbers of a bounding box are Python numbers.  The code only
    compares them (inside [shapely]'s [bounds]) and formats them into
    request strings, so the embedding is generic in the number type. *)

Class Coord (C : Type) := {
  coord_leb : C → C → bool;      (* [a <= b] *)
  coord_str : C → string         (* [f"{a}"] *)
}.

(** The comparison is a total preorder (no NaN among the coordinates). *)
Class CoordOrder (C : Type) `{Coord C} : Prop := {
  coord_leb_total : ∀ a b : C, coord_leb a b = true ∨ coord_leb b a = true;
  coord_leb_trans : ∀ a b c : C,
    coord_leb a b = true → coord_leb b c = true → coord_leb a c = true
}.

Definition coord_min {C} `{Coord C} (a b : C) : C := if coord_leb a b then a else b.
Definition coord_max {C} `{Coord C} (a b : C) : C := if coord_leb a b then b else a.

#[global] Instance Z_Coord : Coord Z := {|
  coord_leb := Z.leb;
  coord_str := pretty
|}.

#[global] Instance Z_CoordOrder : CoordOrder Z.
Proof.
  split; simpl.
  - intros a b. rewrite !Z.leb_le. lia.
  - intros a b c. rewrite !Z.leb_le. lia.
Qed.

(** ** Data model *)

(** A bounding box [(minx, miny, maxx, maxy)]. *)
Definition BBox (C : Type) : Type := (C * C * C * C)%type.

(** An element of an [xml.etree.ElementTree] tree: its tag (with the
    namespace in braces in front, as ElementTree writes it), its [text]
    ([None] for an element without text) and its children. *)
Inductive Element : Type :=
  | Elem (tag : string) (text : option string) (children : list Element).

Definition tag (e : Element) : string := let 'Elem t _ _ := e in t.
Definition text (e : Element) : option string := let 'Elem _ x _ := e in x.
Definition children (e : Element) : list Element := let 'Elem _ _ c := e in c.

(** [e.iter()]: the element and all its descendants, in document order. *)
Fixpoint iter (e : Element) : list Element :=
  match e with
  | Elem _ _ cs => e :: flat_map iter cs
  end.

(** [root.findall(".//A/B")]: the children tagged [B] of the elements
    tagged [A] strictly below [root], in document order. *)
Definition findall_desc_child (root : Element) (a b : string) : list Element :=
  flat_map
    (λ e, if decide (tag e = a)
          then filter (λ c, tag c = b) (children e) else [])
    (flat_map iter (children root)).

(** A value of a [params] dictionary handed to [requests.get]. *)
Inductive ParamValue : Type :=
  | PStr (s : string)
  | PInt (n : Z).

#[global] Instance ParamValue_eq_dec : EqDecision ParamValue.
Proof. solve_decision. Defined.

(** One call of [requests.get]. *)
Record Request : Type := mkRequest {
  req_url : string;
  req_params : list (string * ParamValue);
  req_headers : list (string * string);
  req_timeout : option Z
}.

Record Response : Type := mkResponse {
  status_code : Z;
  resp_headers : list (string * string);
  content : string
}.

(** [response.text]: the body, decoded. Bodies are kept as strings here. *)
Definition resp_text (r : Response) : string := content r.

(** [response.headers.get(key, default)]; the header names are compared
    without regard to case, as [requests] does. *)
Fixpoint headers_get (hs : list (string * string)) (key default : string) : string :=
  match hs with
  | [] => default
  | (k, v) :: hs' =>
      if decide (Py.lower k = Py.lower key) then v else headers_get hs' key default
  end.

Inductive RequestFailure : Type := Timeout | ConnectionError.

(** What [requests.get] does: a response, or one of its exceptions. *)
Inductive HttpOutcome : Type :=
  | Responded (r : Response)
  | Failed (f : RequestFailure).

(** A row of a GeoDataFrame: its geometry ([None] for a null geometry,
    otherwise the geometry in a textual form) and its other columns. *)
Record Feature : Type := mkFeature {
  geometry : option string;
  properties : string
}.

Record GeoDataFrame : Type := mkGdf {
  gdf_crs : string;
  gdf_rows : list Feature
}.

(** [len(gdf)] *)
Definition gdf_len (g : GeoDataFrame) : Z := Z.of_nat (List.length (gdf_rows g)).

(** The values of the dictionary that [fetch_geodata] returns. *)
Inductive LayerResult : Type :=
  | WFSResult (geojson filename : string)
  | WMSResult (url : string).

(** An entry of the [datasets] list. *)
Record Dataset : Type := mkDataset {
  ds_name : string;
  ds_url : string;
  ds_type : string
}.

(** The exceptions that occur. [HTTPError] is a subclass of
    [RequestException] in [requests]. *)
Inductive Exn : Type :=
  | RequestException (f : RequestFailure)
  | HTTPError (status : Z)
  | ParseError
  | AttributeError
  | CRSError
  | BadGzipFile
  | DriverError.

Definition is_RequestException (e : Exn) : bool :=
  match e with
  | RequestException _ | HTTPError _ => true
  | _ => false
  end.

Definition is_ParseError (e : Exn) : bool :=
  match e with ParseError => true | _ => false end.

(** ** The outside world and the state of a run *)

Record World (C : Type) : Type := mkWorld {
  (** the answer to a [requests.get], given the requests sent before it *)
  http_get : list Request → Request → HttpOutcome;
  (** [ET.fromstring]; [None] stands for [ET.ParseError] *)
  ET_fromstring : string → option Element;
  (** whether [pyproj.Proj(init='epsg:N')] succeeds *)
  epsg_known : Z → bool;
  (** [pyproj.transform(Proj(from), Proj(to), x, y)] on one point *)
  pyproj_transform : Z → Z → C * C → C * C;
  (** [gzip.decompress]; [None] stands for [BadGzipFile] *)
  gzip_decompress : string → option string;
  (** [gpd.read_file]; [None] stands for a driver error *)
  read_file : string → option GeoDataFrame;
  (** reprojection of one geometry, from a CRS to a CRS *)
  reproject_geometry : string → string → string → string;
  (** validity of one geometry *)
  geometry_is_valid : string → bool;
  (** [gdf.to_json()] *)
  to_json : GeoDataFrame → string
}.

Arguments http_get {C}.
Arguments ET_fromstring {C}.
Arguments epsg_known {C}.
Arguments pyproj_transform {C}.
Arguments gzip_decompress {C}.
Arguments read_file {C}.
Arguments reproject_geometry {C}.
Arguments geometry_is_valid {C}.
Arguments to_json {C}.

(** A reference to a Python object holding a bounding box. *)
Definition Ref : Type := nat.

Record State (C : Type) : Type := mkState {
  (** the [requests.get] calls made so far, oldest first *)
  requests : list Request;
  (** the [transform_bbox] calls made so far: argument, from, to *)
  transforms : list (BBox C * Z * Z);
  (** the files written so far, by name *)
  files : gmap string GeoDataFrame;
  (** the bounding-box objects of the caller *)
  objects : Ref → BBox C
}.

Arguments mkState {C}.
Arguments requests {C}.
Arguments transforms {C}.
Arguments files {C}.
Arguments objects {C}.

(** ** A monad for state, exceptions and loops with fuel *)

Inductive Outcome (A : Type) : Type :=
  | Ret (a : A)          (* normal return *)
  | Raise (e : Exn)      (* a Python exception *)
  | OutOfFuel.           (* the loop bound of the model was reached *)

Arguments Ret {A}.
Arguments Raise {A}.
Arguments OutOfFuel {A}.

Definition M (C A : Type) : Type := State C → Outcome A * State C.

Definition ret {C A} (a : A) : M C A := λ st, (Ret a, st).
Definition raise {C A} (e : Exn) : M C A := λ st, (Raise e, st).
Definition out_of_fuel {C A} : M C A := λ st, (OutOfFuel, st).

Definition bind {C A B} (m : M C A) (k : A → M C B) : M C B :=
  λ st, match m st with
        | (Ret a, st') => k a st'
        | (Raise e, st') => (Raise e, st')
        | (OutOfFuel, st') => (OutOfFuel, st')
        end.

Notation "'let*' x ':=' m 'in' k" := (bind m (λ x, k))
  (at level 10, x name, m at level 100, k at level 200, only parsing).
Notation "'do' m 'then' k" := (bind m (λ _, k))
  (at level 10, m at level 100, k at level 200, only parsing).

(** [try: body except <caught>: handler] *)
Definition try_except {C A} (body : M C A) (caught : Exn → bool)
    (handler : Exn → M C A) : M C A :=
  λ st, match body st with
        | (Raise e, st') => if caught e then handler e st' else (Raise e, st')
        | r => r
        end.

(** [None] of a library call raises the given exception. *)
Definition or_raise {C A} (o : option A) (e : Exn) : M C A :=
  match o with Some a => ret a | None => raise e end.

(** A library call that returns or raises. *)
Definition of_sum {C A} (r : Exn + A) : M C A :=
  match r with inr a => ret a | inl e => raise e end.

(** [for x in l: s = body x s] *)
Fixpoint for_each {C A S} (l : list A) (body : A → S → M C S) (s : S) : M C S :=
  match l with
  | [] => ret s
  | x :: l' => let* s' := body x s in for_each l' body s'
  end.

(** ** The code *)

Section Code.

Context {C : Type} `{Coord C}.
Variable W : World C.

(** *** [transform_bbox] (lines 12-21) *)

(** The exterior ring of a polygon: a first point and the others. *)
Definition Ring : Type := ((C * C) * list (C * C))%type.

(** [shapely.geometry.box(minx, miny, maxx, maxy)]: the closed ring of
    the rectangle, counter-clockwise from the lower right corner. *)
Definition box (minx miny maxx maxy : C) : Ring :=
  ((maxx, miny), [(maxx, maxy); (minx, maxy); (minx, miny); (maxx, miny)]).

(** [shapely.ops.transform(func, polygon)]: [func] on every point. *)
Definition shapely_transform (func : C * C → C * C) (r : Ring) : Ring :=
  (func (fst r), map func (snd r)).

(** [polygon.bounds]: least and greatest coordinate of the ring. *)
Definition bounds (r : Ring) : BBox C :=
  foldl (λ (b : BBox C) (p : C * C),
           let '(a, b, c, d) := b in
           (coord_min a (fst p), coord_min b (snd p),
            coord_max c (fst p), coord_max d (snd p)))
        (fst (fst r), snd (fst r), fst (fst r), snd (fst r)) (snd r).

Definition transform_bbox (bbox : BBox C) (from_epsg to_epsg : Z) : Exn + BBox C :=
  let '(minx, miny, maxx, maxy) := bbox in
  if negb (epsg_known W from_epsg) then inl CRSError
  else if negb (epsg_known W to_epsg) then inl CRSError
  else
    let project := pyproj_transform W from_epsg to_epsg in
    let transformed := shapely_transform project (box minx miny maxx maxy) in
    inr (bounds transformed).

(** *** Operations on the state *)

(** [requests.get]: the call is recorded, the world answers. *)
Definition requests_get (req : Request) : M C Response :=
  λ st,
    let st' := mkState (requests st ++ [req]) (transforms st) (files st) (objects st) in
    match http_get W (requests st) req with
    | Responded r => (Ret r, st')
    | Failed f => (Raise (RequestException f), st')
    end.

(** [response.raise_for_status()] *)
Definition raise_for_status (r : Response) : M C unit :=
  if (400 <=? status_code r) && (status_code r <? 600)
  then raise (HTTPError (status_code r)) else ret tt.

(** Reading the caller's bounding-box object. *)
Definition load (bbox : Ref) : M C (BBox C) :=
  λ st, (Ret (objects st bbox), st).

(** A call of [transform_bbox] from [fetch_geodata]: recorded, then run. *)
Definition call_transform_bbox (b : BBox C) (from_epsg to_epsg : Z) : M C (BBox C) :=
  λ st,
    let st' := mkState (requests st) (transforms st ++ [(b, from_epsg, to_epsg)])
                       (files st) (objects st) in
    of_sum (transform_bbox b from_epsg to_epsg) st'.

(** [gdf.to_file(filename, driver='GeoJSON')]: overwrites by name. *)
Definition to_file (g : GeoDataFrame) (filename : string) : M C unit :=
  λ st, (Ret tt, mkState (requests st) (transforms st)
                         (<[filename := g]> (files st)) (objects st)).

(** *** [get_capabilities_layers] (lines 23-81) *)

Definition wms_ns : string := "{http://www.opengis.net/wms/1.3.0}".
Definition wfs_ns : string := "{http://www.opengis.net/wfs/2.0}".

(** The names found below [root]: without namespace first, and with the
    namespace when that finds nothing. *)
Definition layer_names (root : Element) (ns parent : string) : list (option string) :=
  let layers := map text (findall_desc_child root parent "Name") in
  match layers with
  | [] => map text (findall_desc_child root (ns +:+ parent) (ns +:+ "Name"))
  | _ => layers
  end.

Definition get_capabilities_layers (service_url service_type : string)
    : M C (list (option string)) :=
  let capabilities_url :=
    service_url +:+ "?request=GetCapabilities&service=" +:+ service_type in
  try_except
    (let* response := requests_get (mkRequest capabilities_url [] [] (Some 10)) in
     do raise_for_status response then
     if negb (Py.startswith (Py.strip (resp_text response)) "<") then ret []
     else
       let* root := or_raise (ET_fromstring W (resp_text response)) ParseError in
       if decide (Py.upper service_type = "WMS") then
         ret (layer_names root wms_ns "Layer")
       else if decide (Py.upper service_type = "WFS") then
         ret (layer_names root wfs_ns "FeatureType")
       else ret [])
    (λ e, is_RequestException e || is_ParseError e)
    (λ _, ret []).

(** *** [get_supported_crs] (lines 84-121) *)

(** The loop of lines 114-116: [elem.text.strip()] raises
    [AttributeError] when [elem.text] is [None]. *)
Fixpoint collect_crs (elems : list Element) (crs_set : gset string) : M C (gset string) :=
  match elems with
  | [] => ret crs_set
  | elem :: elems' =>
      if Py.endswith (tag elem) "DefaultCRS" || Py.endswith (tag elem) "OtherCRS" then
        match text elem with
        | Some t => collect_crs elems' ({[ Py.strip t ]} ∪ crs_set)
        | None => raise AttributeError
        end
      else collect_crs elems' crs_set
  end.

Definition capabilities_params : list (string * ParamValue) :=
  [("service", PStr "WFS"); ("version", PStr "2.0.0"); ("request", PStr "GetCapabilities")].

Definition get_supported_crs (wfs_url : string) : M C (gset string) :=
  let params := capabilities_params in
  try_except
    (let* response := requests_get (mkRequest wfs_url params [] (Some 10)) in
     if negb (status_code response =? 200) then ret ∅
     else
       let* root := or_raise (ET_fromstring W (content response)) ParseError in
       collect_crs (iter root) ∅)
    (λ _, true)
    (λ _, ret ∅).

(** *** [fetch_geodata] (lines 124-239) *)

(** The local variables that live across the loops of [fetch_geodata]:
    the working extent of line 149 and the [results] dictionary. *)
Record Vars : Type := mkVars {
  minx : C;
  miny : C;
  maxx : C;
  maxy : C;
  results : gmap string LayerResult
}.

Definition working_box (v : Vars) : BBox C := (minx v, miny v, maxx v, maxy v).

Definition set_box (v : Vars) (b : BBox C) : Vars :=
  let '(x0, y0, x1, y1) := b in mkVars x0 y0 x1 y1 (results v).

Definition set_result (v : Vars) (layer : string) (r : LayerResult) : Vars :=
  mkVars (minx v) (miny v) (maxx v) (maxy v) (<[layer := r]> (results v)).

(** [f"{minx},{miny},{maxx},{maxy}"] *)
Definition box_str (b : BBox C) : string :=
  let '(x0, y0, x1, y1) := b in
  coord_str x0 +:+ "," +:+ coord_str y0 +:+ "," +:+ coord_str x1 +:+ "," +:+ coord_str y1.

Definition urn_28992 : string := "urn:ogc:def:crs:EPSG::28992".

(** Line 158: the working CRS of a dataset. *)
Definition select_to_epsg (supported_crs : gset string) : Z :=
  if decide (urn_28992 ∈ supported_crs) then 28992 else 4326.

(** Line 159. *)
Definition preferred_crs_of (to_epsg : Z) : string :=
  "urn:ogc:def:crs:EPSG::" +:+ pretty to_epsg.

Definition count : Z := 1000.

(** Lines 171-184: the GetFeature request of one page. *)
Definition getfeature_params (layer preferred_crs : string) (b : BBox C)
    (start_index : Z) : list (string * ParamValue) :=
  [("SERVICE", PStr "WFS");
   ("REQUEST", PStr "GetFeature");
   ("VERSION", PStr "2.0.0");
   ("TYPENAMES", PStr layer);
   ("SRSNAME", PStr preferred_crs);
   ("BBOX", PStr (box_str b +:+ "," +:+ preferred_crs));
   ("COUNT", PInt count);
   ("STARTINDEX", PInt start_index);
   ("OUTPUTFORMAT", PStr "application/json")].

Definition getfeature_headers : list (string * string) :=
  [("User-Agent", "Mozilla/5.0 QGIS/33411/Windows 11 Version 2009")].

Definition getfeature_request (url layer preferred_crs : string) (b : BBox C)
    (start_index : Z) : Request :=
  mkRequest url (getfeature_params layer preferred_crs b start_index)
            getfeature_headers None.

Definition gzip_magic : string := String "031" (String "139" EmptyString).

(** Lines 187-193: the body of a page, decompressed when it is gzip by
    header and by signature, read as a feature table. *)
Definition read_page (response : Response) : Exn + GeoDataFrame :=
  let data :=
    if decide (Py.lower (headers_get (resp_headers response) "Content-Encoding" "") = "gzip")
    then if decide (Py.take 2 (content response) = gzip_magic)
         then gzip_decompress W (content response)
         else Some (content response)
    else Some (content response) in
  match data with
  | None => inl BadGzipFile
  | Some data =>
      match read_file W data with
      | None => inl DriverError
      | Some gdf => inr gdf
      end
  end.

(** Lines 170-205: the [while True] loop, with a bound on its rounds. *)
Fixpoint wfs_pages (fuel : nat) (url layer preferred_crs : string) (b : BBox C)
    (all_features : list GeoDataFrame) (start_index : Z) : M C (list GeoDataFrame) :=
  match fuel with
  | O => out_of_fuel
  | S fuel' =>
      let* response :=
        requests_get (getfeature_request url layer preferred_crs b start_index) in
      if status_code response =? 200 then
        let* gdf := of_sum (read_page response) in
        let all_features := all_features ++ [gdf] in
        if gdf_len gdf <? count then ret all_features
        else wfs_pages fuel' url layer preferred_crs b all_features (start_index + count)
      else ret all_features
  end.

(** [pd.concat(all_features, ignore_index=True)] as a GeoDataFrame: all
    rows, with the CRS of the first table. *)
Definition pd_concat (all_features : list GeoDataFrame) : GeoDataFrame :=
  mkGdf (from_option gdf_crs "" (head all_features)) (flat_map gdf_rows all_features).

(** [gdf.to_crs(target)] *)
Definition to_crs (g : GeoDataFrame) (target : string) : GeoDataFrame :=
  mkGdf target
    (map (λ f, mkFeature (reproject_geometry W (gdf_crs g) target <$> geometry f)
                         (properties f))
         (gdf_rows g)).

Definition notnull (f : Feature) : bool :=
  match geometry f with Some _ => true | None => false end.

Definition is_valid (f : Feature) : bool :=
  match geometry f with Some g => geometry_is_valid W g | None => false end.

(** Lines 210-211: reprojection to EPSG:4326 when the CRS differs. *)
Definition ensure_4326 (full_gdf : GeoDataFrame) : GeoDataFrame :=
  if decide (gdf_crs full_gdf ≠ "EPSG:4326") then to_crs full_gdf "EPSG:4326"
  else full_gdf.

(** Lines 213-214: removal of the rows without a valid geometry. *)
Definition drop_invalid (full_gdf : GeoDataFrame) : GeoDataFrame :=
  let full_gdf := mkGdf (gdf_crs full_gdf) (List.filter notnull (gdf_rows full_gdf)) in
  mkGdf (gdf_crs full_gdf) (List.filter is_valid (gdf_rows full_gdf)).

(** Lines 210-214. *)
Definition clean (full_gdf : GeoDataFrame) : GeoDataFrame :=
  drop_invalid (ensure_4326 full_gdf).

(** Line 216. *)
Definition filename_of (layer : string) : string :=
  Py.replace_char ":" "_" layer +:+ "_4326.geojson".

(** Lines 229-233. *)
Definition wms_url_of (url layer : string) (b : BBox C) : string :=
  url +:+ "?service=WMS&request=GetMap"
      +:+ "&layers=" +:+ layer +:+ "&bbox=" +:+ box_str b
      +:+ "&width=500&height=500&srs=EPSG:4326&format=image/png".

(** Lines 165-237: the body of [for layer in layers]. *)
Definition layer_body (fuel : nat) (dataset : Dataset) (preferred_crs : string)
    (layer : string) (v : Vars) : M C Vars :=
  if decide (ds_type dataset = "WFS") then
    let* all_features :=
      wfs_pages fuel (ds_url dataset) layer preferred_crs (working_box v) [] 0 in
    match all_features with
    | [] => ret v
    | _ :: _ =>
        let full_gdf := clean (pd_concat all_features) in
        let filename := filename_of layer in
        do to_file full_gdf filename then
        let geojson := to_json W full_gdf in
        ret (set_result v layer (WFSResult geojson filename))
    end
  else if decide (ds_type dataset = "WMS") then
    let wms_url := wms_url_of (ds_url dataset) layer (working_box v) in
    ret (set_result v layer (WMSResult wms_url))
  else ret v.

(** Lines 153-237: the body of [for dataset in datasets]. *)
Definition dataset_body (fuel : nat) (selected_datasets : list string)
    (dataset_layers : gmap string (list string)) (bbox : Ref)
    (dataset : Dataset) (v : Vars) : M C Vars :=
  if decide (ds_name dataset ∈ selected_datasets) then
    let layers := default [] (dataset_layers !! ds_name dataset) in
    let* supported_crs := get_supported_crs (ds_url dataset) in
    let from_epsg := 4326 in
    let to_epsg := select_to_epsg supported_crs in
    let preferred_crs := preferred_crs_of to_epsg in
    let* v :=
      (if decide (to_epsg ≠ from_epsg) then
         let* b := load bbox in
         let* t := call_transform_bbox b from_epsg to_epsg in
         ret (set_box v t)
       else ret v) in
    for_each layers (layer_body fuel dataset preferred_crs) v
  else ret v.

Definition fetch_geodata (fuel : nat) (selected_datasets : list string)
    (dataset_layers : gmap string (list string)) (datasets : list Dataset)
    (bbox : Ref) : M C (gmap string LayerResult) :=
  let* b := load bbox in
  let '(minx, miny, maxx, maxy) := b in
  let v := mkVars minx miny maxx maxy ∅ in
  let* v := for_each datasets (dataset_body fuel selected_datasets dataset_layers bbox) v in
  ret (results v).

End Code.

Arguments Vars : clear implicits.
Arguments Ring : clear implicits.

(** ** Vocabulary of the properties *)

Section Vocabulary.

Context {C : Type} `{Coord C}.
Variable W : World C.

(** [m] is a least (greatest) element of [xs] for the comparison. *)
Definition is_least (m : C) (xs : list C) : Prop :=
  m ∈ xs ∧ ∀ x, x ∈ xs → coord_leb m x = true.

Definition is_greatest (m : C) (xs : list C) : Prop :=
  m ∈ xs ∧ ∀ x, x ∈ xs → coord_leb x m = true.

(** The four components of a box are extremal among the points seen. *)
Definition extremal (b : BBox C) (pts : list (C * C)) : Prop :=
  let '(a, b, c, d) := b in
  is_least a (map fst pts) ∧ is_least b (map snd pts) ∧
  is_greatest c (map fst pts) ∧ is_greatest d (map snd pts).

(** The request of [get_capabilities_layers] and of [get_supported_crs]. *)
Definition layers_request (service_url service_type : string) : Request :=
  mkRequest (service_url +:+ "?request=GetCapabilities&service=" +:+ service_type)
            [] [] (Some 10).

Definition crs_request (wfs_url : string) : Request :=
  mkRequest wfs_url capabilities_params [] (Some 10).

(** The tag test of line 115. *)
Definition crs_tag (e : Element) : bool :=
  Py.endswith (tag e) "DefaultCRS" || Py.endswith (tag e) "OtherCRS".

(** The GetFeature request for the rows of [layer] from [start] on. *)
Definition page_request (url layer crs : string) (b : BBox C) (start : Z) : Request :=
  getfeature_request url layer crs b start.

(** [n] consecutive page requests, the first one at row [start]. *)
Fixpoint page_requests (url layer crs : string) (b : BBox C) (start : Z) (n : nat)
    : list Request :=
  match n with
  | O => []
  | S n' => page_request url layer crs b start
            :: page_requests url layer crs b (start + count) n'
  end.

(** After the requests [log], the server answers the page requests from
    row [start] on with the tables [pgs], one after the other, each with
    status 200 and each a full page. *)
Fixpoint serves_full_pages (url layer crs : string) (b : BBox C)
    (log : list Request) (start : Z) (pgs : list GeoDataFrame) : Prop :=
  match pgs with
  | [] => True
  | g :: pgs' =>
      (∃ r, http_get W log (page_request url layer crs b start) = Responded r
            ∧ status_code r = 200 ∧ read_page W r = inr g)
      ∧ gdf_len g = count
      ∧ serves_full_pages url layer crs b
          (log ++ [page_request url layer crs b start]) (start + count) pgs'
  end.

(** The state after some more requests. *)
Definition after_requests (st : State C) (reqs : list Request) : State C :=
  mkState (requests st ++ reqs) (transforms st) (files st) (objects st).

(** The state after a call of [transform_bbox] on [b]. *)
Definition after_transform (st : State C) (b : BBox C) (to_epsg : Z) : State C :=
  mkState (requests st) (transforms st ++ [(b, 4326, to_epsg)]) (files st) (objects st).

(** What the processing of a WFS layer leaves behind when the loop has
    collected the tables [tables]: the file and the entry of the layer. *)
Definition saved (tables : list GeoDataFrame) : GeoDataFrame :=
  clean W (pd_concat tables).

Definition registered (v : Vars C) (layer : string) (tables : list GeoDataFrame) : Vars C :=
  set_result v layer (WFSResult (to_json W (saved tables)) (filename_of layer)).

Definition persisted (st : State C) (reqs : list Request) (layer : string)
    (tables : list GeoDataFrame) : State C :=
  mkState (requests st ++ reqs) (transforms st)
          (<[filename_of layer := saved tables]> (files st)) (objects st).

(** Every run of [m] relates the state before to the state after by [R],
    however the run ends. *)
Definition keeps {A : Type} (R : State C → State C → Prop) (m : M C A) : Prop :=
  ∀ st, R st (snd (m st)).

(** From [st] to [st'] nothing happened but GetFeature requests to the
    service [url], all of them for the CRS [crs] and the extent [b]. *)
Definition only_pages (url crs : string) (b : BBox C) (st st' : State C) : Prop :=
  transforms st' = transforms st ∧ objects st' = objects st ∧
  ∃ reqs, requests st' = requests st ++ reqs ∧
          ∀ req, req ∈ reqs → ∃ layer start, req = getfeature_request url layer crs b start.

(** From [st] to [st'] the caller's objects are as they were, and every
    call of [transform_bbox] was on the box that [bbox] refers to, from
    4326 to 28992. *)
Definition only_box_transforms (bbox : Ref) (st st' : State C) : Prop :=
  objects st' = objects st ∧
  ∃ calls, transforms st' = transforms st ++ calls ∧
           ∀ call, call ∈ calls → call = (objects st bbox, 4326, 28992).

(** What is left of the body of the dataset loop once the supported CRS
    are known. *)
Definition dataset_rest (fuel : nat) (dataset_layers : gmap string (list string))
    (bbox : Ref) (dataset : Dataset) (supported_crs : gset string) (v : Vars C)
    : M C (Vars C) :=
  let layers := default [] (dataset_layers !! ds_name dataset) in
  let to_epsg := select_to_epsg supported_crs in
  let* v :=
    (if decide (to_epsg ≠ 4326) then
       let* b := load bbox in
       let* t := call_transform_bbox W b 4326 to_epsg in
       ret (set_box v t)
     else ret v) in
  for_each layers (layer_body W fuel dataset (preferred_crs_of to_epsg)) v.

End Vocabulary.

(** ** A mock world

    Integer coordinates, a handful of services that answer by request
    alone, the XML parser and the table reader on the documents those
    services send, and a stand-in for the projection to EPSG:28992 that
    rotates slightly, so that all four corners of a box matter. *)

Module Sample.

Definition E (t : string) (x : option string) (cs : list Element) : Element := Elem t x cs.

Definition url_rd : string := "http://example/wfs-rd".
Definition url_plain : string := "http://example/wfs".
Definition url_broken : string := "http://example/wfs-broken".
Definition url_wms : string := "http://example/wms".
Definition url_proxy : string := "http://example/proxied-wms".
Definition url_html : string := "http://example/html".
Definition url_padded : string := "http://example/padded-wms".

Definition urn_4326 : string := "urn:ogc:def:crs:EPSG::4326".

Definition doc_rd : string :=
  "<wfs:WFS_Capabilities xmlns:wfs='http://www.opengis.net/wfs/2.0'>" +:+
  "<wfs:FeatureTypeList><wfs:FeatureType><wfs:Name>ns:roads</wfs:Name>" +:+
  "<wfs:DefaultCRS>urn:ogc:def:crs:EPSG::28992</wfs:DefaultCRS>" +:+
  "<wfs:OtherCRS> urn:ogc:def:crs:EPSG::4326 </wfs:OtherCRS>" +:+
  "</wfs:FeatureType></wfs:FeatureTypeList></wfs:WFS_Capabilities>".

Definition tree_rd : Element :=
  E (wfs_ns +:+ "WFS_Capabilities") None
    [E (wfs_ns +:+ "FeatureTypeList") None
       [E (wfs_ns +:+ "FeatureType") None
          [E (wfs_ns +:+ "Name") (Some "ns:roads") [];
           E (wfs_ns +:+ "DefaultCRS") (Some urn_28992) [];
           E (wfs_ns +:+ "OtherCRS") (Some " urn:ogc:def:crs:EPSG::4326 ") []]]].

Definition doc_plain : string :=
  "<wfs:WFS_Capabilities xmlns:wfs='http://www.opengis.net/wfs/2.0'>" +:+
  "<wfs:FeatureTypeList><wfs:FeatureType><wfs:Name>ns:parks</wfs:Name>" +:+
  "<wfs:DefaultCRS>urn:ogc:def:crs:EPSG::4326</wfs:DefaultCRS>" +:+
  "</wfs:FeatureType></wfs:FeatureTypeList></wfs:WFS_Capabilities>".

Definition tree_plain : Element :=
  E (wfs_ns +:+ "WFS_Capabilities") None
    [E (wfs_ns +:+ "FeatureTypeList") None
       [E (wfs_ns +:+ "FeatureType") None
          [E (wfs_ns +:+ "Name") (Some "ns:parks") [];
           E (wfs_ns +:+ "DefaultCRS") (Some urn_4326) []]]].

(** A capabilities document with an empty [OtherCRS] element. *)
Definition doc_broken : string :=
  "<wfs:WFS_Capabilities xmlns:wfs='http://www.opengis.net/wfs/2.0'>" +:+
  "<wfs:FeatureTypeList><wfs:FeatureType><wfs:Name>ns:roads</wfs:Name>" +:+
  "<wfs:DefaultCRS>urn:ogc:def:crs:EPSG::28992</wfs:DefaultCRS>" +:+
  "<wfs:OtherCRS/>" +:+
  "</wfs:FeatureType></wfs:FeatureTypeList></wfs:WFS_Capabilities>".

Definition tree_broken : Element :=
  E (wfs_ns +:+ "WFS_Capabilities") None
    [E (wfs_ns +:+ "FeatureTypeList") None
       [E (wfs_ns +:+ "FeatureType") None
          [E (wfs_ns +:+ "Name") (Some "ns:roads") [];
           E (wfs_ns +:+ "DefaultCRS") (Some urn_28992) [];
           E (wfs_ns +:+ "OtherCRS") None []]]].

Definition doc_wms : string :=
  "<WMS_Capabilities><Capability><Layer><Name>water</Name></Layer>" +:+
  "</Capability></WMS_Capabilities>".

Definition tree_wms : Element :=
  E "WMS_Capabilities" None
    [E "Capability" None [E "Layer" None [E "Name" (Some "water") []]]].

(** The same document after a line feed; white space in front of the
    root element is allowed in XML. *)
Definition doc_wms_padded : string := String "010" doc_wms.

Definition documents : list (string * Element) :=
  [(doc_rd, tree_rd); (doc_plain, tree_plain); (doc_broken, tree_broken);
   (doc_wms, tree_wms); (doc_wms_padded, tree_wms)].

Fixpoint assoc {A} (key : string) (l : list (string * A)) : option A :=
  match l with
  | [] => None
  | (k, a) :: l' => if decide (k = key) then Some a else assoc key l'
  end.

Definition param_get (key : string) (ps : list (string * ParamValue)) : ParamValue :=
  from_option id (PStr "") (assoc key ps).

Definition ok (body : string) : HttpOutcome := Responded (mkResponse 200 [] body).
Definition status (code : Z) (body : string) : HttpOutcome :=
  Responded (mkResponse code [] body).

(** The body of a page of [n] features of [layer] from row [start] on. *)
Definition page_body (layer : string) (start : Z) (n : nat) : string :=
  layer +:+ "@" +:+ pretty start +:+ "+" +:+ pretty n.

Definition capabilities_of (u : string) : HttpOutcome :=
  if decide (u = url_rd) then ok doc_rd
  else if decide (u = url_plain) then ok doc_plain
  else if decide (u = url_broken) then ok doc_broken
  else if decide (u = url_wms) then status 400 "<ServiceExceptionReport/>"
  else Failed ConnectionError.

Definition layers_of (u : string) : HttpOutcome :=
  if decide (u = url_wms +:+ "?request=GetCapabilities&service=WMS") then ok doc_wms
  else if decide (u = url_proxy +:+ "?request=GetCapabilities&service=WMS")
       then status 203 doc_wms
  else if decide (u = url_html +:+ "?request=GetCapabilities&service=WMS")
       then ok "Welcome"
  else if decide (u = url_padded +:+ "?request=GetCapabilities&service=WMS")
       then ok doc_wms_padded
  else Failed Timeout.

(** [ns:roads] has 2003 rows; [ns:flaky] fails at its third page;
    [ns:down] fails at once; [ns:parks] has 2 rows; any other layer
    has none. *)
Definition features_of (layer : string) (start : Z) : HttpOutcome :=
  if decide (layer = "ns:roads") then
    if start <? 2000 then ok (page_body layer start 1000)
    else ok (page_body layer start 3)
  else if decide (layer = "ns:flaky") then
    if start <? 2000 then ok (page_body layer start 1000)
    else status 503 "Service Unavailable"
  else if decide (layer = "ns:down") then status 500 "Internal Server Error"
  else if decide (layer = "ns:parks") then ok (page_body layer start 2)
  else ok (page_body layer start 0).

Definition http (_ : list Request) (req : Request) : HttpOutcome :=
  if decide (req_params req = capabilities_params) then capabilities_of (req_url req)
  else if decide (req_params req = []) then layers_of (req_url req)
  else
    match param_get "TYPENAMES" (req_params req),
          param_get "STARTINDEX" (req_params req) with
    | PStr layer, PInt start => features_of layer start
    | _, _ => status 400 "Bad Request"
    end.

Definition feature (i : nat) : Feature :=
  mkFeature (Some "POINT (155000 463000)") (pretty i).

Definition page (crs : string) (start : Z) (n : nat) : GeoDataFrame :=
  mkGdf crs (map feature (seq (Z.to_nat start) n)).

Definition pages : list (string * GeoDataFrame) :=
  [(page_body "ns:roads" 0 1000, page "EPSG:28992" 0 1000);
   (page_body "ns:roads" 1000 1000, page "EPSG:28992" 1000 1000);
   (page_body "ns:roads" 2000 3, page "EPSG:28992" 2000 3);
   (page_body "ns:flaky" 0 1000, page "EPSG:28992" 0 1000);
   (page_body "ns:flaky" 1000 1000, page "EPSG:28992" 1000 1000);
   (page_body "ns:parks" 0 2, page "EPSG:4326" 0 2);
   (page_body "ns:none" 0 0, page "EPSG:28992" 0 0)].

(** The stand-in for the projection from EPSG:4326 to EPSG:28992. *)
Definition project (from_epsg to_epsg : Z) (p : Z * Z) : Z * Z :=
  if decide (from_epsg = 4326 ∧ to_epsg = 28992) then
    (68000 * fst p - 3000 * snd p - 58000, 2000 * fst p + 111000 * snd p - 5336000)
  else p.

Definition world : World Z := {|
  http_get := http;
  ET_fromstring := λ s, assoc s documents;
  epsg_known := λ n, bool_decide (n = 4326 ∨ n = 28992);
  pyproj_transform := project;
  gzip_decompress := λ _, None;
  read_file := λ s, assoc s pages;
  reproject_geometry := λ _ _ g, g;
  geometry_is_valid := λ g, bool_decide (g ≠ "POLYGON ((0 0, 1 1, 0 1, 1 0, 0 0))");
  to_json := λ g, "FeatureCollection of " +:+ pretty (List.length (gdf_rows g))
|}.

(** The caller's bounding box, and nothing done yet. *)
Definition st0 : State Z := mkState [] [] ∅ (λ _, (4, 51, 5, 52)).

Definition ds_rd : Dataset := mkDataset "rd" url_rd "WFS".
Definition ds_plain : Dataset := mkDataset "plain" url_plain "WFS".
Definition ds_wms : Dataset := mkDataset "wms" url_wms "WMS".

(** The caller's box in the mock EPSG:28992. *)
Definition rd_box : BBox Z := (58000, 333000, 129000, 446000).

(** The variables of [fetch_geodata] at the start of the dataset loop. *)
Definition caller_vars : Vars Z := mkVars 4 51 5 52 ∅.

(** The variables of [fetch_geodata] once the box has been projected. *)
Definition rd_vars : Vars Z := mkVars 58000 333000 129000 446000 ∅.

Definition full_pages : list GeoDataFrame :=
  [page "EPSG:28992" 0 1000; page "EPSG:28992" 1000 1000].

(** Two WFS datasets, the first with EPSG:28992, the second without. *)
Definition run_rd_then_plain : Outcome (gmap string LayerResult) * State Z :=
  fetch_geodata world 10 ["rd"; "plain"]
    {[ "rd" := ["ns:none"]; "plain" := ["ns:parks"] ]} [ds_rd; ds_plain] 0%nat st0.

(** A WFS dataset with EPSG:28992 and no layers, then a WMS dataset. *)
Definition run_rd_then_wms : Outcome (gmap string LayerResult) * State Z :=
  fetch_geodata world 10 ["rd"; "wms"]
    {[ "rd" := []; "wms" := ["water"] ]} [ds_rd; ds_wms] 0%nat st0.

(** The WMS dataset alone. *)
Definition run_wms : Outcome (gmap string LayerResult) * State Z :=
  fetch_geodata world 10 ["wms"] {[ "wms" := ["water"] ]} [ds_wms] 0%nat st0.

End Sample.

(** ** The caller of the pipeline: [src/map.py] *)

Section Caller.

Context {C : Type} `{Coord C}.
Variable W : World C.

(** Lines 43-48 of [map.py]: the body of [get_all_dataset_layers], a
    dictionary built dataset by dataset (what runs when Streamlit's cache
    has no entry for the argument). *)
Definition get_all_dataset_layers (datasets : list Dataset)
    : M C (gmap string (list (option string))) :=
  for_each datasets
    (λ dataset acc,
       let* layers := get_capabilities_layers W (ds_url dataset) (ds_type dataset) in
       ret (<[ds_name dataset := layers]> acc))
    ∅.

End Caller.

(** ** More vocabulary *)

Section Conditions.

Context {C : Type} `{Coord C}.
Variable W : World C.

(** The elements strictly below [root], in document order. *)
Definition descendants (root : Element) : list Element :=
  flat_map iter (children root).

(** [x] is the text of a child tagged [b] of an element tagged [a] that
    lies strictly below [root]. *)
Definition named_under (root : Element) (a b : string) (x : option string) : Prop :=
  ∃ p e, p ∈ descendants root ∧ tag p = a ∧ e ∈ children p ∧ tag e = b ∧ text e = x.

(** [x] is the trimmed text of an element of the tree of [root] whose tag
    ends in DefaultCRS or OtherCRS. *)
Definition advertised_crs (root : Element) (x : string) : Prop :=
  ∃ e t, e ∈ iter root ∧ crs_tag e = true ∧ text e = Some t ∧ x = Py.strip t.

(** The run of [m] from [st] ends in a state that satisfies [Q] with the
    value returned, or in a state that satisfies [E] when it does not
    return. *)
Definition ends {A : Type} (m : M C A) (st : State C)
    (Q : A → State C → Prop) (E : State C → Prop) : Prop :=
  match m st with
  | (Ret a, st') => Q a st'
  | (_, st') => E st'
  end.

(** The entries that the layers of a WMS dataset leave in the variables. *)
Definition register_wms (url : string) (layers : list string) (v : Vars C) : Vars C :=
  foldl (λ v layer, set_result v layer (WMSResult (wms_url_of url layer (working_box v))))
        v layers.

(** [layer] is a layer of a selected dataset of type [ty]. *)
Definition requested (selected : list string) (dataset_layers : gmap string (list string))
    (datasets : list Dataset) (ty layer : string) : Prop :=
  ∃ d, d ∈ datasets ∧ ds_name d ∈ selected ∧ ds_type d = ty
       ∧ layer ∈ default [] (dataset_layers !! ds_name d).

(** [r] is the entry that the layer [layer] of the dataset [d] gets when
    the working extent is [b]: for WFS an entry with the file name of the
    layer, for WMS the GetMap URL for [b]. *)
Definition entry_of (d : Dataset) (layer : string) (b : BBox C) (r : LayerResult) : Prop :=
  (ds_type d = "WFS" ∧ ∃ geojson, r = WFSResult geojson (filename_of layer))
  ∨ (ds_type d = "WMS" ∧ r = WMSResult (wms_url_of (ds_url d) layer b)).

(** Every entry of [m'] is an entry of [m] or the entry of one of the
    layers [layers] of the dataset [d] for the extent [b]. *)
Definition entries_from (d : Dataset) (layers : list string) (b : BBox C)
    (m m' : gmap string LayerResult) : Prop :=
  ∀ k r, m' !! k = Some r → m !! k = Some r ∨ (k ∈ layers ∧ entry_of d k b r).

(** The variables of [fetch_geodata] when it enters the dataset loop
    (lines 149-150). *)
Definition initial_vars (b : BBox C) : Vars C :=
  let '(x0, y0, x1, y1) := b in mkVars x0 y0 x1 y1 ∅.

(** From [st] to [st'] no [transform_bbox] call was made, and every
    request was a capabilities request or a GetFeature request for
    EPSG:4326 and the extent [b]. *)
Definition plain_requests (b : BBox C) (st st' : State C) : Prop :=
  transforms st' = transforms st ∧
  ∃ reqs, requests st' = requests st ++ reqs ∧
          ∀ req, req ∈ reqs →
            (∃ url, req = crs_request url)
            ∨ (∃ url layer start,
                 req = getfeature_request url layer (preferred_crs_of 4326) b start).

(** From [st] to [st'] requests were added to the log, all of them
    [allowed]. *)
Definition contacts (allowed : Request → Prop) (st st' : State C) : Prop :=
  ∃ reqs, requests st' = requests st ++ reqs ∧ ∀ req, req ∈ reqs → allowed req.

(** A request that [fetch_geodata] may send for the dataset [d]: the
    capabilities request, or for a WFS dataset a GetFeature request for
    one of its layers. *)
Definition request_of (dataset_layers : gmap string (list string)) (d : Dataset)
    (req : Request) : Prop :=
  req = crs_request (ds_url d)
  ∨ (ds_type d = "WFS"
     ∧ ∃ layer crs b start,
         layer ∈ default [] (dataset_layers !! ds_name d)
         ∧ req = getfeature_request (ds_url d) layer crs b start).

(** The page request at [start] fails with the exception [e]: by the
    transport, or with status 200 and a body that cannot be read. *)
Definition page_fails (url layer crs : string) (b : BBox C) (log : list Request)
    (start : Z) (e : Exn) : Prop :=
  (∃ f, http_get W log (page_request url layer crs b start) = Failed f
        ∧ e = RequestException f)
  ∨ (∃ r, http_get W log (page_request url layer crs b start) = Responded r
          ∧ status_code r = 200 ∧ read_page W r = inl e).

End Conditions.

(** ** More mock services *)

Module Outage.

(** A service that answers every GetFeature request with the same full
    page, and any other request as the mock world does. *)
Definition endless_http (log : list Request) (req : Request) : HttpOutcome :=
  if decide (req_params req = capabilities_params) then Sample.http log req
  else Sample.ok "full".

Definition endless_world : World Z := {|
  http_get := endless_http;
  ET_fromstring := ET_fromstring Sample.world;
  epsg_known := epsg_known Sample.world;
  pyproj_transform := pyproj_transform Sample.world;
  gzip_decompress := gzip_decompress Sample.world;
  read_file := λ _, Some (Sample.page "EPSG:4326" 0 1000);
  reproject_geometry := reproject_geometry Sample.world;
  geometry_is_valid := geometry_is_valid Sample.world;
  to_json := to_json Sample.world
|}.

(** A service whose capabilities can be read but whose GetFeature
    requests all end in a connection error. *)
Definition offline_http (log : list Request) (req : Request) : HttpOutcome :=
  if decide (req_params req = capabilities_params) then Sample.http log req
  else Failed ConnectionError.

Definition offline_world : World Z := {|
  http_get := offline_http;
  ET_fromstring := ET_fromstring Sample.world;
  epsg_known := epsg_known Sample.world;
  pyproj_transform := pyproj_transform Sample.world;
  gzip_decompress := gzip_decompress Sample.world;
  read_file := read_file Sample.world;
  reproject_geometry := reproject_geometry Sample.world;
  geometry_is_valid := geometry_is_valid Sample.world;
  to_json := to_json Sample.world
|}.

(** A world in which every service answers the capabilities request with
    the document that offers EPSG:4326 alone. *)
Definition plain_http (log : list Request) (req : Request) : HttpOutcome :=
  if decide (req_params req = capabilities_params) then Sample.ok Sample.doc_plain
  else Sample.http log req.

Definition plain_world : World Z := {|
  http_get := plain_http;
  ET_fromstring := ET_fromstring Sample.world;
  epsg_known := epsg_known Sample.world;
  pyproj_transform := pyproj_transform Sample.world;
  gzip_decompress := gzip_decompress Sample.world;
  read_file := read_file Sample.world;
  reproject_geometry := reproject_geometry Sample.world;
  geometry_is_valid := geometry_is_valid Sample.world;
  to_json := to_json Sample.world
|}.

(** The mock world with a [pyproj] that knows no EPSG code. *)
Definition no_proj_world : World Z := {|
  http_get := http_get Sample.world;
  ET_fromstring := ET_fromstring Sample.world;
  epsg_known := λ _, false;
  pyproj_transform := pyproj_transform Sample.world;
  gzip_decompress := gzip_decompress Sample.world;
  read_file := read_file Sample.world;
  reproject_geometry := reproject_geometry Sample.world;
  geometry_is_valid := geometry_is_valid Sample.world;
  to_json := to_json Sample.world
|}.

(** A state in which a file of another layer exists already. *)
Definition st_with_file : State Z :=
  mkState [] [] {[ "ns_lakes_4326.geojson" := Sample.page "EPSG:4326" 0 2 ]}
          (λ _, (4, 51, 5, 52)).

(** The datasets of the mock world, all selected. *)
Definition all_datasets : list Dataset := [Sample.ds_wms; Sample.ds_rd; Sample.ds_plain].
Definition all_selected : list string := ["wms"; "rd"; "plain"].
Definition all_layers : gmap string (list string) :=
  {[ "wms" := ["water"]; "rd" := ["ns:roads"]; "plain" := ["ns:parks"] ]}.

End Outage.

(** * Properties *)

(** ** The bounds of a reprojected box *)

Section Bounds.

Context {C : Type} `{CoordOrder C}.

Lemma coord_leb_refl (a : C) : coord_leb a a = true.
Proof. destruct (coord_leb_total a a); assumption. Qed.

Lemma is_least_singleton (a : C) : is_least a [a].
Proof.
  split; [apply list_elem_of_singleton; reflexivity|].
  intros x Hx. apply list_elem_of_singleton in Hx. subst. apply coord_leb_refl.
Qed.

Lemma is_greatest_singleton (a : C) : is_greatest a [a].
Proof.
  split; [apply list_elem_of_singleton; reflexivity|].
  intros x Hx. apply list_elem_of_singleton in Hx. subst. apply coord_leb_refl.
Qed.

Lemma is_least_snoc (a x : C) (xs : list C) :
  is_least a xs → is_least (coord_min a x) (xs ++ [x]).
Proof.
  intros [Hin Hle]. unfold coord_min.
  destruct (coord_leb a x) eqn:Hax; split.
  - apply elem_of_app. left. exact Hin.
  - intros y [Hy|Hy]%elem_of_app; [auto|].
    apply list_elem_of_singleton in Hy. subst. exact Hax.
  - apply elem_of_app. right. apply list_elem_of_singleton. reflexivity.
  - assert (Hxa : coord_leb x a = true).
    { destruct (coord_leb_total a x) as [E|E]; [congruence|exact E]. }
    intros y [Hy|Hy]%elem_of_app.
    + eapply coord_leb_trans; [exact Hxa|auto].
    + apply list_elem_of_singleton in Hy. subst. apply coord_leb_refl.
Qed.

Lemma is_greatest_snoc (a x : C) (xs : list C) :
  is_greatest a xs → is_greatest (coord_max a x) (xs ++ [x]).
Proof.
  intros [Hin Hle]. unfold coord_max.
  destruct (coord_leb a x) eqn:Hax; split.
  - apply elem_of_app. right. apply list_elem_of_singleton. reflexivity.
  - intros y [Hy|Hy]%elem_of_app.
    + eapply coord_leb_trans; [|exact Hax]. auto.
    + apply list_elem_of_singleton in Hy. subst. apply coord_leb_refl.
  - apply elem_of_app. left. exact Hin.
  - assert (Hxa : coord_leb x a = true).
    { destruct (coord_leb_total a x) as [E|E]; [congruence|exact E]. }
    intros y [Hy|Hy]%elem_of_app; [auto|].
    apply list_elem_of_singleton in Hy. subst. exact Hxa.
Qed.

Lemma bounds_fold_extremal (ps seen : list (C * C)) (acc : BBox C) :
  extremal acc seen →
  extremal
    (foldl (λ (b : BBox C) (p : C * C),
              let '(a, b, c, d) := b in
              (coord_min a (fst p), coord_min b (snd p),
               coord_max c (fst p), coord_max d (snd p))) acc ps)
    (seen ++ ps).
Proof.
  revert seen acc. induction ps as [|p ps IH]; intros seen acc Hacc.
  - rewrite app_nil_r. exact Hacc.
  - simpl. replace (seen ++ p :: ps) with ((seen ++ [p]) ++ ps)
      by (rewrite <- app_assoc; reflexivity).
    apply IH. destruct acc as [[[a b] c] d]. destruct Hacc as (Ha & Hb & Hc & Hd).
    unfold extremal. rewrite !map_app. simpl.
    split; [apply is_least_snoc; exact Ha|].
    split; [apply is_least_snoc; exact Hb|].
    split; [apply is_greatest_snoc; exact Hc|apply is_greatest_snoc; exact Hd].
Qed.

(** [bounds] returns extremal coordinates of the points of the ring. *)
Lemma bounds_extremal (r : Ring C) : extremal (bounds r) (fst r :: snd r).
Proof.
  destruct r as [[x y] ps]. unfold bounds. simpl fst. simpl snd.
  apply (bounds_fold_extremal ps [(x, y)] (x, y, x, y)).
  unfold extremal. simpl.
  auto using is_least_singleton, is_greatest_singleton.
Qed.

Lemma is_least_same_elements (m : C) (xs ys : list C) :
  (∀ x, x ∈ xs ↔ x ∈ ys) → is_least m xs → is_least m ys.
Proof. intros E [Hin Hle]. split; [apply E, Hin|]. intros x Hx. apply Hle, E, Hx. Qed.

Lemma is_greatest_same_elements (m : C) (xs ys : list C) :
  (∀ x, x ∈ xs ↔ x ∈ ys) → is_greatest m xs → is_greatest m ys.
Proof. intros E [Hin Hle]. split; [apply E, Hin|]. intros x Hx. apply Hle, E, Hx. Qed.

Lemma least_le_greatest (a c : C) (xs : list C) :
  is_least a xs → is_greatest c xs → coord_leb a c = true.
Proof. intros [_ Hle] [Hin _]. apply Hle, Hin. Qed.

End Bounds.

(** [pyproj.Proj] fails on a code that is not known, and so does
    [transform_bbox]. *)
Lemma transform_bbox_unknown {C : Type} `{Coord C} (W : World C) (bbox : BBox C)
    (from_epsg to_epsg : Z) :
  epsg_known W from_epsg = false ∨ epsg_known W to_epsg = false →
  transform_bbox W bbox from_epsg to_epsg = inl CRSError.
Proof.
  destruct bbox as [[[x0 y0] x1] y1]. intros [Hk|Hk]; unfold transform_bbox.
  - rewrite Hk. reflexivity.
  - rewrite Hk. destruct (epsg_known W from_epsg); reflexivity.
Qed.

(** C7. For a known pair of CRS codes, [transform_bbox] returns, in each
    component, the least respectively greatest coordinate among the four
    reprojected corners of the box, so that the result is a rectangle with
    minx <= maxx and miny <= maxy whatever the reprojection does to the
    corners; for a code that is not known the failure is what the caller
    gets. *)
Theorem C7_transform_bbox_corner_bounds {C : Type} `{CoordOrder C} (W : World C)
    (x0 y0 x1 y1 : C) (from_epsg to_epsg : Z) :
  let corners :=
    map (pyproj_transform W from_epsg to_epsg) [(x0, y0); (x1, y0); (x1, y1); (x0, y1)] in
  (epsg_known W from_epsg = true → epsg_known W to_epsg = true →
   ∃ a b c d,
     transform_bbox W (x0, y0, x1, y1) from_epsg to_epsg = inr (a, b, c, d) ∧
     is_least a (map fst corners) ∧ is_least b (map snd corners) ∧
     is_greatest c (map fst corners) ∧ is_greatest d (map snd corners) ∧
     coord_leb a c = true ∧ coord_leb b d = true)
  ∧ (epsg_known W from_epsg = false ∨ epsg_known W to_epsg = false →
     transform_bbox W (x0, y0, x1, y1) from_epsg to_epsg = inl CRSError).
Proof.
  intros corners. split.
  - intros Hfrom Hto. unfold transform_bbox. rewrite Hfrom, Hto. simpl negb. cbv iota.
    set (f := pyproj_transform W from_epsg to_epsg) in *.
    pose proof (bounds_extremal (shapely_transform f (box x0 y0 x1 y1))) as Hext.
    destruct (bounds (shapely_transform f (box x0 y0 x1 y1))) as [[[a b] c] d].
    exists a, b, c, d. split; [reflexivity|].
    destruct Hext as (Ha & Hb & Hc & Hd).
    assert (Ex : ∀ x, x ∈ map fst (fst (shapely_transform f (box x0 y0 x1 y1))
                                     :: snd (shapely_transform f (box x0 y0 x1 y1)))
                      ↔ x ∈ map fst corners).
    { intros x. subst corners. simpl. rewrite !elem_of_cons, !elem_of_nil. tauto. }
    assert (Ey : ∀ y, y ∈ map snd (fst (shapely_transform f (box x0 y0 x1 y1))
                                     :: snd (shapely_transform f (box x0 y0 x1 y1)))
                      ↔ y ∈ map snd corners).
    { intros y. subst corners. simpl. rewrite !elem_of_cons, !elem_of_nil. tauto. }
    pose proof (is_least_same_elements _ _ _ Ex Ha) as Ha'.
    pose proof (is_least_same_elements _ _ _ Ey Hb) as Hb'.
    pose proof (is_greatest_same_elements _ _ _ Ex Hc) as Hc'.
    pose proof (is_greatest_same_elements _ _ _ Ey Hd) as Hd'.
    split; [exact Ha'|]. split; [exact Hb'|]. split; [exact Hc'|]. split; [exact Hd'|].
    split; eapply least_le_greatest; eassumption.
  - apply transform_bbox_unknown.
Qed.

(** The mock projection on the box (4, 51, 5, 52): the least x comes from
    the upper left corner and the greatest x from the lower right one. *)
Lemma C7_transform_bbox_corner_bounds_witness :
  ∃ a b c d : Z,
    transform_bbox Sample.world (4, 51, 5, 52) 4326 28992 = inr (a, b, c, d) ∧
    coord_leb a c = true ∧ coord_leb b d = true.
Proof.
  destruct (C7_transform_bbox_corner_bounds Sample.world 4 51 5 52 4326 28992)
    as [Hok _].
  destruct (Hok eq_refl eq_refl) as (a & b & c & d & Ht & _ & _ & _ & _ & Hx & Hy).
  exists a, b, c, d. auto.
Defined.

Example transform_bbox_sample :
  transform_bbox Sample.world (4, 51, 5, 52) 4326 28992
  = inr (58000, 333000, 129000, 446000).
Proof. reflexivity. Qed.

(** ** The capability operations *)

Section Capabilities.

Context {C : Type} `{Coord C}.
Variable W : World C.

(** The loop of [get_supported_crs] raises at the first CRS element
    without text, whatever it has collected. *)
Lemma collect_crs_raises (elems : list Element) (acc : gset string) (st : State C) :
  (∃ e, e ∈ elems ∧ crs_tag e = true ∧ text e = None) →
  collect_crs elems acc st = (Raise AttributeError, st).
Proof.
  revert acc. induction elems as [|x elems IH]; intros acc (e & Hin & Htag & Htext).
  - apply elem_of_nil in Hin. contradiction.
  - simpl. apply elem_of_cons in Hin as [->|Hin].
    + unfold crs_tag in Htag. rewrite Htag, Htext. reflexivity.
    + destruct (Py.endswith (tag x) "DefaultCRS" || Py.endswith (tag x) "OtherCRS").
      * destruct (text x); [|reflexivity]. apply IH. eauto.
      * apply IH. eauto.
Qed.

(** The loop returns or raises; it does not touch the state. *)
Lemma collect_crs_state (elems : list Element) (acc : gset string) (st : State C) :
  (∃ s, collect_crs elems acc st = (Ret s, st))
  ∨ (∃ e, collect_crs elems acc st = (Raise e, st)).
Proof.
  revert acc. induction elems as [|x elems IH]; intros acc; simpl.
  - left. eexists. reflexivity.
  - destruct (Py.endswith (tag x) "DefaultCRS" || Py.endswith (tag x) "OtherCRS");
      [destruct (text x); [apply IH|right; eexists; reflexivity]|apply IH].
Qed.

(** [get_supported_crs] returns a set, always. *)
Lemma get_supported_crs_returns (wfs_url : string) (st : State C) :
  ∃ s, fst (get_supported_crs W wfs_url st) = Ret s.
Proof.
  unfold get_supported_crs, try_except, bind, requests_get.
  destruct (http_get W (requests st) _) as [r|f]; [|eexists; reflexivity].
  destruct (status_code r =? 200); [|eexists; reflexivity]. simpl negb. cbv iota.
  destruct (ET_fromstring W (content r)) as [root|]; simpl; [|eexists; reflexivity].
  destruct (collect_crs_state (iter root) ∅
              (mkState (requests st ++ [mkRequest wfs_url capabilities_params [] (Some 10)])
                       (transforms st) (files st) (objects st)))
    as [[s Hs]|[e He]].
  - rewrite Hs. eexists. reflexivity.
  - rewrite He. eexists. reflexivity.
Qed.

(** [get_capabilities_layers] returns a list, always. *)
Lemma get_capabilities_layers_returns (service_url service_type : string) (st : State C) :
  ∃ l, fst (get_capabilities_layers W service_url service_type st) = Ret l.
Proof.
  unfold get_capabilities_layers, try_except, bind, requests_get, raise_for_status.
  destruct (http_get W (requests st) _) as [r|f]; [|eexists; reflexivity].
  destruct ((400 <=? status_code r) && (status_code r <? 600)); [eexists; reflexivity|].
  simpl.
  destruct (Py.startswith (Py.strip (resp_text r)) "<"); [|eexists; reflexivity].
  simpl.
  destruct (ET_fromstring W (resp_text r)) as [root|]; simpl; [|eexists; reflexivity].
  destruct (decide (Py.upper service_type = "WMS")); [eexists; reflexivity|].
  destruct (decide (Py.upper service_type = "WFS")); eexists; reflexivity.
Qed.

(** C6, as the code has it. Both capability operations return (they
    never raise), and what they return is empty when the request times
    out or the connection fails, when XML parsing fails, and
    - for [get_capabilities_layers]: when the status is an HTTP error
      status (400 to 599), or when the body, trimmed of white space, does
      not begin with '<';
    - for [get_supported_crs]: when the status is not 200. *)
Theorem C6_capabilities_fail_closed (service_url service_type wfs_url : string)
    (st : State C) :
  (((∃ f, http_get W (requests st) (layers_request service_url service_type) = Failed f)
    ∨ (∃ r, http_get W (requests st) (layers_request service_url service_type)
            = Responded r
          ∧ (400 ≤ status_code r < 600
             ∨ Py.startswith (Py.strip (resp_text r)) "<" = false
             ∨ ET_fromstring W (resp_text r) = None)))
   → fst (get_capabilities_layers W service_url service_type st) = Ret [])
  ∧ (((∃ f, http_get W (requests st) (crs_request wfs_url) = Failed f)
      ∨ (∃ r, http_get W (requests st) (crs_request wfs_url) = Responded r
            ∧ (status_code r ≠ 200 ∨ ET_fromstring W (content r) = None)))
     → fst (get_supported_crs W wfs_url st) = Ret ∅)
  ∧ (∃ l, fst (get_capabilities_layers W service_url service_type st) = Ret l)
  ∧ (∃ s, fst (get_supported_crs W wfs_url st) = Ret s).
Proof.
  split; [|split; [|split]].
  - unfold get_capabilities_layers, try_except, bind, requests_get, raise_for_status.
    fold (layers_request service_url service_type).
    intros [[f Hf]|(r & Hr & Hcase)].
    + rewrite Hf. reflexivity.
    + rewrite Hr.
      destruct ((400 <=? status_code r) && (status_code r <? 600)) eqn:Hst;
        [reflexivity|]. simpl.
      destruct Hcase as [Hs|[Hx|Hp]].
      * apply andb_false_iff in Hst. rewrite Z.leb_gt, Z.ltb_ge in Hst. lia.
      * rewrite Hx. reflexivity.
      * destruct (Py.startswith (Py.strip (resp_text r)) "<"); [|reflexivity].
        simpl. rewrite Hp. reflexivity.
  - unfold get_supported_crs, try_except, bind, requests_get.
    fold (crs_request wfs_url).
    intros [[f Hf]|(r & Hr & Hcase)].
    + rewrite Hf. reflexivity.
    + rewrite Hr. destruct (status_code r =? 200) eqn:Hst; [|reflexivity].
      simpl negb. cbv iota. destruct Hcase as [Hs|Hp].
      * apply Z.eqb_eq in Hst. contradiction.
      * rewrite Hp. reflexivity.
  - apply get_capabilities_layers_returns.
  - apply get_supported_crs_returns.
Qed.

(** C10. When the capabilities document has an element whose tag ends in
    DefaultCRS or OtherCRS and that has no text, the loop of
    [get_supported_crs] raises on it and [get_supported_crs] returns the
    empty set, whatever the other elements of the document hold. *)
Theorem C10_empty_crs_element_empties_the_set (wfs_url : string) (st : State C)
    (r : Response) (root e : Element) :
  http_get W (requests st) (crs_request wfs_url) = Responded r →
  status_code r = 200 →
  ET_fromstring W (content r) = Some root →
  e ∈ iter root →
  Py.endswith (tag e) "DefaultCRS" = true ∨ Py.endswith (tag e) "OtherCRS" = true →
  text e = None →
  (∀ acc st', fst (collect_crs (C:=C) (iter root) acc st') = Raise AttributeError)
  ∧ fst (get_supported_crs W wfs_url st) = Ret ∅.
Proof.
  intros Hr Hst Hroot Hin Htag Htext.
  assert (Hraise : ∀ acc st', collect_crs (C:=C) (iter root) acc st'
                              = (Raise AttributeError, st')).
  { intros acc st'. apply collect_crs_raises. exists e. split; [exact Hin|].
    split; [|exact Htext]. unfold crs_tag. apply orb_true_iff. exact Htag. }
  split.
  - intros acc st'. rewrite Hraise. reflexivity.
  - unfold get_supported_crs, try_except, bind, requests_get.
    fold (crs_request wfs_url). rewrite Hr, Hst. simpl. rewrite Hroot. simpl.
    rewrite Hraise. reflexivity.
Qed.

End Capabilities.

(** A service that answers with a page that is not XML, and a WMS
    service that answers the WFS capabilities request with status 400. *)
Lemma C6_capabilities_fail_closed_witness :
  fst (get_capabilities_layers Sample.world Sample.url_html "WMS" Sample.st0) = Ret []
  ∧ fst (get_supported_crs Sample.world Sample.url_wms Sample.st0) = Ret ∅.
Proof.
  destruct (C6_capabilities_fail_closed Sample.world Sample.url_html "WMS"
              Sample.url_wms Sample.st0) as (Hlayers & Hcrs & _).
  split.
  - apply Hlayers. right. exists (mkResponse 200 [] "Welcome").
    split; [reflexivity|]. right. left. reflexivity.
  - apply Hcrs. right. exists (mkResponse 400 [] "<ServiceExceptionReport/>").
    split; [reflexivity|]. left. simpl. lia.
Defined.

(** A status that is not 200 and not an error status: a proxy answers
    203 with the capabilities document, and [get_capabilities_layers]
    returns the layer of the document.  A body that begins with a line
    feed and not with '<': [get_capabilities_layers] trims it, parses it
    and returns the layer as well. *)
Lemma C6_counterexample_layers_returned :
  (http_get Sample.world (requests Sample.st0) (layers_request Sample.url_proxy "WMS")
     = Responded (mkResponse 203 [] Sample.doc_wms)
   ∧ status_code (mkResponse 203 [] Sample.doc_wms) ≠ 200
   ∧ fst (get_capabilities_layers Sample.world Sample.url_proxy "WMS" Sample.st0)
     = Ret [Some "water"]
   ∧ fst (get_capabilities_layers Sample.world Sample.url_proxy "WMS" Sample.st0)
     ≠ Ret [])
  ∧ (http_get Sample.world (requests Sample.st0) (layers_request Sample.url_padded "WMS")
       = Responded (mkResponse 200 [] Sample.doc_wms_padded)
     ∧ Py.startswith Sample.doc_wms_padded "<" = false
     ∧ fst (get_capabilities_layers Sample.world Sample.url_padded "WMS" Sample.st0)
       = Ret [Some "water"]
     ∧ fst (get_capabilities_layers Sample.world Sample.url_padded "WMS" Sample.st0)
       ≠ Ret []).
Proof.
  split.
  - split; [reflexivity|]. split; [simpl; lia|]. split; [reflexivity|].
    vm_compute. discriminate.
  - split; [reflexivity|]. split; [reflexivity|]. split; [reflexivity|].
    vm_compute. discriminate.
Qed.

(** The document of the mock service [url_broken] has an empty OtherCRS
    element next to a DefaultCRS element that names EPSG:28992. *)
Lemma C10_empty_crs_element_empties_the_set_witness :
  fst (get_supported_crs Sample.world Sample.url_broken Sample.st0) = Ret ∅.
Proof.
  refine (proj2 (C10_empty_crs_element_empties_the_set Sample.world
            Sample.url_broken Sample.st0 (mkResponse 200 [] Sample.doc_broken)
            Sample.tree_broken (Elem (wfs_ns +:+ "OtherCRS") None [])
            _ _ _ _ _ _)).
  - reflexivity.
  - reflexivity.
  - reflexivity.
  - simpl. do 5 apply list_elem_of_further. apply list_elem_of_here.
  - right. reflexivity.
  - reflexivity.
Defined.

Example get_supported_crs_well_formed :
  fst (get_supported_crs Sample.world Sample.url_rd Sample.st0)
  = Ret ({[ Sample.urn_4326 ]} ∪ ({[ urn_28992 ]} ∪ ∅)).
Proof. reflexivity. Qed.

(** ** The pagination of a WFS layer *)

Section Pagination.

Context {C : Type} `{Coord C}.
Variable W : World C.
Variables url layer crs : string.
Variable b : BBox C.

Local Abbreviation page_request := (page_request url layer crs b).
Local Abbreviation page_requests := (page_requests url layer crs b).
Local Abbreviation serves_full_pages := (serves_full_pages W url layer crs b).

Lemma after_requests_nil (st : State C) : after_requests st [] = st.
Proof. destruct st. unfold after_requests. simpl. rewrite app_nil_r. reflexivity. Qed.

Lemma after_requests_app (st : State C) (l1 l2 : list Request) :
  after_requests (after_requests st l1) l2 = after_requests st (l1 ++ l2).
Proof. unfold after_requests. simpl. rewrite app_assoc. reflexivity. Qed.

Lemma page_requests_length (start : Z) (n : nat) :
  List.length (page_requests start n) = n.
Proof. revert start. induction n; intros; simpl; [reflexivity|]. rewrite IHn. reflexivity. Qed.

Lemma page_requests_snoc (start : Z) (n : nat) :
  page_requests start (S n)
  = page_requests start n ++ [page_request (start + count * Z.of_nat n)].
Proof.
  revert start. induction n as [|n IH]; intros start.
  - simpl. rewrite Z.mul_0_r, Z.add_0_r. reflexivity.
  - change (page_requests start (S (S n)))
      with (page_request start :: page_requests (start + count) (S n)).
    rewrite IH.
    replace (start + count * Z.of_nat (S n)) with (start + count + count * Z.of_nat n)
      by lia.
    reflexivity.
Qed.

Lemma page_requests_lookup (start : Z) (n i : nat) :
  (i < n)%nat →
  page_requests start n !! i = Some (page_request (start + count * Z.of_nat i)).
Proof.
  revert start i. induction n as [|n IH]; intros start i Hi; [lia|].
  destruct i as [|i]; simpl.
  - rewrite Z.mul_0_r, Z.add_0_r. reflexivity.
  - rewrite IH by lia.
    replace (start + count * Z.of_nat (S i)) with (start + count + count * Z.of_nat i)
      by lia.
    reflexivity.
Qed.

Lemma page_requests_count (start : Z) (n : nat) (req : Request) :
  req ∈ page_requests start n →
  ("COUNT", PInt 1000) ∈ req_params req ∧ req_url req = url.
Proof.
  revert start. induction n as [|n IH]; intros start Hin; simpl in Hin.
  - apply elem_of_nil in Hin. contradiction.
  - apply elem_of_cons in Hin as [->|Hin]; [|eauto].
    split; [|reflexivity]. simpl.
    do 6 apply list_elem_of_further. apply list_elem_of_here.
Qed.

(** One round of the loop on a full page. *)
Lemma wfs_pages_full_page (fuel : nat) (acc : list GeoDataFrame) (start : Z)
    (st : State C) (r : Response) (g : GeoDataFrame) :
  http_get W (requests st) (page_request start) = Responded r →
  status_code r = 200 → read_page W r = inr g → gdf_len g = count →
  wfs_pages W (S fuel) url layer crs b acc start st
  = wfs_pages W fuel url layer crs b (acc ++ [g]) (start + count)
      (after_requests st [page_request start]).
Proof.
  intros Hr Hs Hg Hlen. simpl. unfold bind at 1. unfold requests_get.
  fold (page_request start). rewrite Hr, Hs. simpl.
  unfold bind at 1. rewrite Hg. simpl. rewrite Hlen. reflexivity.
Qed.

(** The loop runs through the full pages that the server has. *)
Lemma wfs_pages_full_pages (pgs : list GeoDataFrame) (fuel : nat)
    (acc : list GeoDataFrame) (start : Z) (st : State C) :
  serves_full_pages (requests st) start pgs →
  wfs_pages W (List.length pgs + fuel) url layer crs b acc start st
  = wfs_pages W fuel url layer crs b (acc ++ pgs)
      (start + count * Z.of_nat (List.length pgs))
      (after_requests st (page_requests start (List.length pgs))).
Proof.
  revert acc start st. induction pgs as [|g pgs IH]; intros acc start st Hserves.
  - simpl. rewrite app_nil_r, Z.add_0_r, after_requests_nil. reflexivity.
  - destruct Hserves as ((r & Hr & Hs & Hg) & Hlen & Hrest).
    change (List.length (g :: pgs) + fuel)%nat with (S (List.length pgs + fuel)).
    rewrite (wfs_pages_full_page _ _ _ _ r g Hr Hs Hg Hlen).
    rewrite IH by exact Hrest.
    rewrite after_requests_app. simpl List.length. simpl page_requests.
    rewrite <- app_assoc. simpl.
    replace (start + count * Z.of_nat (S (List.length pgs)))
      with (start + count + count * Z.of_nat (List.length pgs)) by lia.
    reflexivity.
Qed.

(** The number of rows of full pages put together. *)
Lemma serves_full_pages_rows (log : list Request) (start : Z) (pgs : list GeoDataFrame) :
  serves_full_pages log start pgs →
  Z.of_nat (List.length (flat_map gdf_rows pgs)) = 1000 * Z.of_nat (List.length pgs).
Proof.
  revert log start. induction pgs as [|g pgs IH]; intros log start Hs; [reflexivity|].
  destruct Hs as (_ & Hlen & Hrest). simpl.
  rewrite length_app, Nat2Z.inj_add, (IH _ _ Hrest).
  unfold gdf_len, count in Hlen. lia.
Qed.

(** The round of the loop on a page that is not full: the loop ends. *)
Lemma wfs_pages_short_page (fuel : nat) (acc : list GeoDataFrame) (start : Z)
    (st : State C) (r : Response) (g : GeoDataFrame) :
  http_get W (requests st) (page_request start) = Responded r →
  status_code r = 200 → read_page W r = inr g → gdf_len g < count →
  wfs_pages W (S fuel) url layer crs b acc start st
  = (Ret (acc ++ [g]), after_requests st [page_request start]).
Proof.
  intros Hr Hs Hg Hlen. simpl. unfold bind at 1. unfold requests_get.
  fold (page_request start). rewrite Hr, Hs. simpl.
  unfold bind at 1. rewrite Hg. simpl.
  apply Z.ltb_lt in Hlen. rewrite Hlen. reflexivity.
Qed.

(** The round of the loop on a status other than 200: the loop ends. *)
Lemma wfs_pages_error_status (fuel : nat) (acc : list GeoDataFrame) (start : Z)
    (st : State C) (r : Response) :
  http_get W (requests st) (page_request start) = Responded r →
  status_code r ≠ 200 →
  wfs_pages W (S fuel) url layer crs b acc start st
  = (Ret acc, after_requests st [page_request start]).
Proof.
  intros Hr Hs. simpl. unfold bind at 1. unfold requests_get.
  fold (page_request start). rewrite Hr.
  apply Z.eqb_neq in Hs. rewrite Hs. reflexivity.
Qed.

(** The loop on [N] full pages followed by a page that is not full. *)
Lemma wfs_pages_short_run (N : nat) (pgs : list GeoDataFrame)
    (last_page : GeoDataFrame) (r : Response) (st : State C) (fuel : nat) :
  List.length pgs = N →
  serves_full_pages (requests st) 0 pgs →
  http_get W (requests st ++ page_requests 0 N) (page_request (1000 * Z.of_nat N))
    = Responded r →
  status_code r = 200 →
  read_page W r = inr last_page →
  gdf_len last_page < 1000 →
  (N < fuel)%nat →
  wfs_pages W fuel url layer crs b [] 0 st
    = (Ret (pgs ++ [last_page]), after_requests st (page_requests 0 (S N))).
Proof.
  intros HN Hserves Hr Hs Hg Hlen Hfuel. subst N.
  replace fuel with (List.length pgs + S (fuel - List.length pgs - 1))%nat by lia.
  rewrite (wfs_pages_full_pages pgs _ [] 0 st Hserves).
  rewrite (wfs_pages_short_page _ _ _ _ r last_page) by assumption.
  rewrite after_requests_app, page_requests_snoc. reflexivity.
Qed.

(** The loop on [N] full pages followed by a status other than 200. *)
Lemma wfs_pages_failed_run (N : nat) (pgs : list GeoDataFrame) (r : Response)
    (st : State C) (fuel : nat) :
  List.length pgs = N →
  serves_full_pages (requests st) 0 pgs →
  http_get W (requests st ++ page_requests 0 N) (page_request (1000 * Z.of_nat N))
    = Responded r →
  status_code r ≠ 200 →
  (N < fuel)%nat →
  wfs_pages W fuel url layer crs b [] 0 st
    = (Ret pgs, after_requests st (page_requests 0 (S N))).
Proof.
  intros HN Hserves Hr Hs Hfuel. subst N.
  replace fuel with (List.length pgs + S (fuel - List.length pgs - 1))%nat by lia.
  rewrite (wfs_pages_full_pages pgs _ [] 0 st Hserves).
  rewrite (wfs_pages_error_status _ _ _ _ r) by assumption.
  rewrite after_requests_app, page_requests_snoc. reflexivity.
Qed.

End Pagination.

(** ** One WFS layer *)

Section Layer.

Context {C : Type} `{Coord C}.
Variable W : World C.

Lemma is_valid_notnull (f : Feature) : is_valid W f = true → notnull f = true.
Proof. unfold is_valid, notnull. destruct (geometry f); [reflexivity|discriminate]. Qed.

Lemma filter_all (A : Type) (p : A → bool) (l : list A) :
  (∀ x, x ∈ l → p x = true) → List.filter p l = l.
Proof.
  induction l as [|x l IH]; intros Hall; [reflexivity|]. simpl.
  rewrite (Hall x) by apply list_elem_of_here.
  rewrite IH; [reflexivity|]. intros y Hy. apply Hall. apply list_elem_of_further, Hy.
Qed.

Lemma ensure_4326_len (g : GeoDataFrame) : gdf_len (ensure_4326 W g) = gdf_len g.
Proof.
  unfold ensure_4326, gdf_len. destruct (decide (gdf_crs g ≠ "EPSG:4326")); [|reflexivity].
  simpl. rewrite length_map. reflexivity.
Qed.

(** Cleaning keeps every row when every row, once in EPSG:4326, has a
    valid geometry. *)
Lemma clean_len_all_valid (g : GeoDataFrame) :
  (∀ f, f ∈ gdf_rows (ensure_4326 W g) → is_valid W f = true) →
  gdf_len (clean W g) = gdf_len g.
Proof.
  intros Hall. rewrite <- (ensure_4326_len g). unfold clean, drop_invalid, gdf_len. simpl.
  rewrite (filter_all _ notnull) by (intros f Hf; apply is_valid_notnull, Hall, Hf).
  rewrite (filter_all _ (is_valid W)) by exact Hall. reflexivity.
Qed.

(** The processing of a WFS layer whose loop collects the tables
    [tables] after the requests [reqs], when there is a table. *)
Lemma layer_body_wfs (fuel : nat) (dataset : Dataset) (preferred_crs layer : string)
    (v : Vars C) (st : State C) (tables : list GeoDataFrame) (reqs : list Request) :
  ds_type dataset = "WFS" →
  wfs_pages W fuel (ds_url dataset) layer preferred_crs (working_box v) [] 0 st
    = (Ret tables, after_requests st reqs) →
  tables ≠ [] →
  layer_body W fuel dataset preferred_crs layer v st
    = (Ret (registered W v layer tables), persisted W st reqs layer tables).
Proof.
  intros Hty Hrun Hne. unfold layer_body.
  destruct (decide (ds_type dataset = "WFS")); [|contradiction].
  unfold bind at 1. rewrite Hrun.
  destruct tables as [|g gs]; [contradiction|]. reflexivity.
Qed.



(** C9. When the first GetFeature page of a WFS layer comes back with a
    status other than 200, the processing of the layer leaves the results
    and the files as they are.  When it comes back with status 200 and a
    table without rows, a file with an empty table is written and a WFS
    entry is registered under the layer name. *)
Theorem C9_first_page_failure_or_empty (fuel : nat) (dataset : Dataset)
    (preferred_crs layer : string) (v : Vars C) (r : Response) (st : State C) :
  ds_type dataset = "WFS" →
  http_get W (requests st)
    (page_request (ds_url dataset) layer preferred_crs (working_box v) 0)
    = Responded r →
  (0 < fuel)%nat →
  (status_code r ≠ 200 →
   layer_body W fuel dataset preferred_crs layer v st
   = (Ret v,
      after_requests st
        [page_request (ds_url dataset) layer preferred_crs (working_box v) 0]))
  ∧ (status_code r = 200 →
     ∀ g, read_page W r = inr g → gdf_rows g = [] →
       layer_body W fuel dataset preferred_crs layer v st
       = (Ret (registered W v layer [g]),
          persisted W st
            [page_request (ds_url dataset) layer preferred_crs (working_box v) 0]
            layer [g])
       ∧ gdf_rows (saved W [g]) = []
       ∧ results (registered W v layer [g]) !! layer
         = Some (WFSResult (to_json W (saved W [g])) (filename_of layer))
       ∧ files (persisted W st
                  [page_request (ds_url dataset) layer preferred_crs (working_box v) 0]
                  layer [g]) !! filename_of layer
         = Some (saved W [g])).
Proof.
  intros Hty Hr Hfuel. destruct fuel as [|fuel]; [lia|]. split.
  - intros Hs. unfold layer_body.
    destruct (decide (ds_type dataset = "WFS")); [|contradiction].
    unfold bind at 1.
    rewrite (wfs_pages_error_status W _ _ _ _ _ _ _ _ r) by assumption. reflexivity.
  - intros Hs g Hg Hrows. split; [|split; [|split]].
    + unfold layer_body.
      destruct (decide (ds_type dataset = "WFS")); [|contradiction].
      unfold bind at 1.
      rewrite (wfs_pages_short_page W _ _ _ _ _ _ _ _ r g); try assumption.
      * reflexivity.
      * unfold gdf_len, count. rewrite Hrows. simpl. lia.
    + unfold saved, clean, drop_invalid, ensure_4326, pd_concat. simpl.
      rewrite Hrows. simpl.
      destruct (decide (gdf_crs g ≠ "EPSG:4326")); reflexivity.
    + unfold registered, set_result. simpl. apply lookup_insert_eq.
    + unfold persisted. simpl. apply lookup_insert_eq.
Qed.

End Layer.

(** ** What a run does to the state *)

Section Steps.

Context {C : Type}.
Variable R : State C → State C → Prop.
Hypothesis R_refl : ∀ st, R st st.
Hypothesis R_trans : ∀ st1 st2 st3, R st1 st2 → R st2 st3 → R st1 st3.

Lemma keeps_ret {A} (a : A) : keeps R (ret a).
Proof. intros st. apply R_refl. Qed.

Lemma keeps_raise {A} (e : Exn) : keeps R (raise (A:=A) e).
Proof. intros st. apply R_refl. Qed.

Lemma keeps_out_of_fuel {A} : keeps R (out_of_fuel (A:=A)).
Proof. intros st. apply R_refl. Qed.

Lemma keeps_of_sum {A} (r : Exn + A) : keeps R (of_sum r).
Proof. destruct r; [apply keeps_raise|apply keeps_ret]. Qed.

Lemma keeps_or_raise {A} (o : option A) (e : Exn) : keeps R (or_raise o e).
Proof. destruct o; [apply keeps_ret|apply keeps_raise]. Qed.

Lemma keeps_bind {A B} (m : M C A) (k : A → M C B) :
  keeps R m → (∀ a, keeps R (k a)) → keeps R (bind m k).
Proof.
  intros Hm Hk st. unfold bind. specialize (Hm st).
  destruct (m st) as [[a|e|] st']; simpl in *; [|assumption..].
  eapply R_trans; [exact Hm|apply Hk].
Qed.

Lemma keeps_try_except {A} (body : M C A) (caught : Exn → bool)
    (handler : Exn → M C A) :
  keeps R body → (∀ e, keeps R (handler e)) → keeps R (try_except body caught handler).
Proof.
  intros Hb Hh st. unfold try_except. specialize (Hb st).
  destruct (body st) as [[a|e|] st']; simpl in *; [assumption| |assumption].
  destruct (caught e); [|assumption].
  eapply R_trans; [exact Hb|apply Hh].
Qed.

(** A loop keeps the relation when its body does; [I] is what the body
    needs of the loop variables and hands on. *)
Lemma keeps_for_each {A S} (I : S → Prop) (l : list A) (body : A → S → M C S) (s : S) :
  (∀ x s, I s → keeps R (body x s)) →
  (∀ x s st s' st', I s → body x s st = (Ret s', st') → I s') →
  I s → keeps R (for_each l body s).
Proof.
  intros Hbody Hinv. revert s. induction l as [|x l IH]; intros s Hs st; simpl.
  - apply R_refl.
  - unfold bind. pose proof (Hbody x s Hs st) as Hstep.
    destruct (body x s st) as [[s'|e|] st'] eqn:E; simpl in *; [|assumption..].
    eapply R_trans; [exact Hstep|]. apply IH. eapply Hinv; eassumption.
Qed.

End Steps.

(** ** One dataset *)

Section Datasets.

Context {C : Type} `{Coord C}.
Variable W : World C.

Lemma only_pages_refl (url crs : string) (b : BBox C) (st : State C) :
  only_pages url crs b st st.
Proof.
  split; [reflexivity|]. split; [reflexivity|]. exists [].
  split; [rewrite app_nil_r; reflexivity|]. intros req Hreq.
  apply elem_of_nil in Hreq. contradiction.
Qed.

Lemma only_pages_trans (url crs : string) (b : BBox C) (st1 st2 st3 : State C) :
  only_pages url crs b st1 st2 → only_pages url crs b st2 st3 →
  only_pages url crs b st1 st3.
Proof.
  intros (Ht1 & Ho1 & l1 & Hr1 & Hl1) (Ht2 & Ho2 & l2 & Hr2 & Hl2).
  split; [congruence|]. split; [congruence|]. exists (l1 ++ l2).
  split; [rewrite Hr2, Hr1, app_assoc; reflexivity|].
  intros req [Hreq|Hreq]%elem_of_app; auto.
Qed.

Lemma wfs_pages_only_pages (fuel : nat) (url layer crs : string) (b : BBox C)
    (acc : list GeoDataFrame) (start : Z) :
  keeps (only_pages url crs b) (wfs_pages W fuel url layer crs b acc start).
Proof.
  revert acc start. induction fuel as [|fuel IH]; intros acc start.
  - apply keeps_out_of_fuel, only_pages_refl.
  - simpl. apply keeps_bind; [apply only_pages_trans| |].
    + intros st. unfold requests_get.
      assert (Hstep : only_pages url crs b st
                (mkState (requests st ++ [getfeature_request url layer crs b start])
                         (transforms st) (files st) (objects st))).
      { split; [reflexivity|]. split; [reflexivity|]. eexists. split; [reflexivity|].
        intros req Hreq%list_elem_of_singleton. eauto. }
      destruct (http_get W (requests st) _); exact Hstep.
    + intros response. destruct (status_code response =? 200).
      * apply keeps_bind; [apply only_pages_trans| |].
        -- apply keeps_of_sum, only_pages_refl.
        -- intros gdf. destruct (gdf_len gdf <? count);
             [apply keeps_ret, only_pages_refl|apply IH].
      * apply keeps_ret, only_pages_refl.
Qed.

Lemma layer_body_only_pages (fuel : nat) (dataset : Dataset) (crs layer : string)
    (v : Vars C) :
  keeps (only_pages (ds_url dataset) crs (working_box v))
        (layer_body W fuel dataset crs layer v).
Proof.
  unfold layer_body. destruct (decide (ds_type dataset = "WFS")).
  - apply keeps_bind; [apply only_pages_trans|apply wfs_pages_only_pages|].
    intros [|g gs]; [apply keeps_ret, only_pages_refl|].
    apply keeps_bind; [apply only_pages_trans| |].
    + intros st. unfold to_file. simpl. split; [reflexivity|]. split; [reflexivity|].
      exists []. split; [rewrite app_nil_r; reflexivity|].
      intros req Hreq. apply elem_of_nil in Hreq. contradiction.
    + intros _. apply keeps_ret, only_pages_refl.
  - destruct (decide (ds_type dataset = "WMS")); apply keeps_ret, only_pages_refl.
Qed.

(** The processing of a layer leaves the working extent as it is. *)
Lemma layer_body_working_box (fuel : nat) (dataset : Dataset) (crs layer : string)
    (v v' : Vars C) (st st' : State C) :
  layer_body W fuel dataset crs layer v st = (Ret v', st') →
  working_box v' = working_box v.
Proof.
  unfold layer_body. destruct (decide (ds_type dataset = "WFS")) as [Hty|Hty].
  - unfold bind at 1.
    destruct (wfs_pages W fuel (ds_url dataset) layer crs (working_box v) [] 0 st)
      as [[[|g gs]|e|] st1]; try discriminate.
    + intros [= <- _]. reflexivity.
    + unfold bind, to_file, ret. intros [= <- _]. reflexivity.
  - destruct (decide (ds_type dataset = "WMS")); intros [= <- _]; reflexivity.
Qed.

Lemma layers_only_pages (fuel : nat) (dataset : Dataset) (crs : string)
    (layers : list string) (v : Vars C) :
  keeps (only_pages (ds_url dataset) crs (working_box v))
        (for_each layers (layer_body W fuel dataset crs) v).
Proof.
  apply (keeps_for_each _ (only_pages_refl _ _ _) (only_pages_trans _ _ _)
           (λ s, working_box s = working_box v)).
  - intros layer s Hs. rewrite <- Hs. apply layer_body_only_pages.
  - intros layer s st s' st' Hs Hrun. rewrite <- Hs.
    eapply layer_body_working_box. exact Hrun.
  - reflexivity.
Qed.

(** [get_supported_crs] returns a set and leaves one request behind. *)
Lemma get_supported_crs_spec (wfs_url : string) (st : State C) :
  ∃ s, get_supported_crs W wfs_url st
       = (Ret s, after_requests st [crs_request wfs_url]).
Proof.
  unfold get_supported_crs, try_except, bind, requests_get.
  fold (crs_request wfs_url). fold (after_requests st [crs_request wfs_url]).
  destruct (http_get W (requests st) _) as [r|f]; [|eexists; reflexivity].
  destruct (status_code r =? 200); [|eexists; reflexivity]. simpl negb. cbv iota.
  destruct (ET_fromstring W (content r)) as [root|]; simpl; [|eexists; reflexivity].
  destruct (collect_crs_state (C:=C) (iter root) ∅
              (after_requests st [crs_request wfs_url])) as [[s Hs]|[e He]].
  - rewrite Hs. eexists. reflexivity.
  - rewrite He. eexists. reflexivity.
Qed.

Lemma select_to_epsg_cases (s : gset string) :
  (urn_28992 ∈ s ∧ select_to_epsg s = 28992) ∨ ((urn_28992 ∉ s) ∧ select_to_epsg s = 4326).
Proof. unfold select_to_epsg. destruct (decide (urn_28992 ∈ s)); auto. Qed.

Lemma bind_ret {A B} (a : A) (k : A → M C B) (st : State C) :
  bind (ret a) k st = k a st.
Proof. reflexivity. Qed.

(** Lines 161-162 followed by the rest [k] of the body. *)
Lemma load_transform_bind {A} (bbox : Ref) (to_epsg : Z) (v : Vars C)
    (k : Vars C → M C A) (st : State C) :
  bind (let* b := load bbox in
        let* t := call_transform_bbox W b 4326 to_epsg in
        ret (set_box v t)) k st
  = match transform_bbox W (objects st bbox) 4326 to_epsg with
    | inl e => (Raise e, after_transform st (objects st bbox) to_epsg)
    | inr t => k (set_box v t) (after_transform st (objects st bbox) to_epsg)
    end.
Proof.
  unfold bind, load, call_transform_bbox, after_transform.
  destruct (transform_bbox W (objects st bbox) 4326 to_epsg); reflexivity.
Qed.

Lemma dataset_body_selected (fuel : nat) (selected : list string)
    (dataset_layers : gmap string (list string)) (bbox : Ref) (dataset : Dataset)
    (v : Vars C) (st : State C) :
  ds_name dataset ∈ selected →
  ∃ s, get_supported_crs W (ds_url dataset) st
       = (Ret s, after_requests st [crs_request (ds_url dataset)])
     ∧ dataset_body W fuel selected dataset_layers bbox dataset v st
       = dataset_rest W fuel dataset_layers bbox dataset s v
           (after_requests st [crs_request (ds_url dataset)]).
Proof.
  intros Hsel. destruct (get_supported_crs_spec (ds_url dataset) st) as [s Hs].
  exists s. split; [exact Hs|]. unfold dataset_body.
  destruct (decide (ds_name dataset ∈ selected)); [|contradiction].
  unfold bind at 1. rewrite Hs. reflexivity.
Qed.

Lemma dataset_body_not_selected (fuel : nat) (selected : list string)
    (dataset_layers : gmap string (list string)) (bbox : Ref) (dataset : Dataset)
    (v : Vars C) (st : State C) :
  ds_name dataset ∉ selected →
  dataset_body W fuel selected dataset_layers bbox dataset v st = (Ret v, st).
Proof.
  intros Hsel. unfold dataset_body.
  destruct (decide (ds_name dataset ∈ selected)); [contradiction|reflexivity].
Qed.

End Datasets.

Section DatasetProperties.

Context {C : Type} `{Coord C}.
Variable W : World C.

(** C5. For a selected dataset, [get_supported_crs] returns a set, and
    - when the set holds the URN of EPSG:28992, the working CRS is 28992
      and the body of the dataset loop calls [transform_bbox] once, on the
      caller's box, from 4326 to 28992;
    - when the set does not hold it, the working CRS is 4326 and the body
      calls no transform;
    - every request of the body after the capabilities request is a
      GetFeature request to the service of the dataset for the working
      CRS. *)
Theorem C5_working_crs_selection (fuel : nat) (selected : list string)
    (dataset_layers : gmap string (list string)) (bbox : Ref) (dataset : Dataset)
    (v : Vars C) (st : State C) :
  ds_name dataset ∈ selected →
  ∃ supported,
    fst (get_supported_crs W (ds_url dataset) st) = Ret supported
    ∧ (urn_28992 ∈ supported →
       select_to_epsg supported = 28992
       ∧ transforms (snd (dataset_body W fuel selected dataset_layers bbox dataset v st))
         = transforms st ++ [(objects st bbox, 4326, 28992)])
    ∧ ((urn_28992 ∉ supported) →
       select_to_epsg supported = 4326
       ∧ transforms (snd (dataset_body W fuel selected dataset_layers bbox dataset v st))
         = transforms st)
    ∧ ∃ reqs,
        requests (snd (dataset_body W fuel selected dataset_layers bbox dataset v st))
        = requests st ++ crs_request (ds_url dataset) :: reqs
        ∧ ∀ req, req ∈ reqs →
            ∃ layer b start,
              req = getfeature_request (ds_url dataset) layer
                      (preferred_crs_of (select_to_epsg supported)) b start.
Proof.
  intros Hsel.
  destruct (dataset_body_selected W fuel selected dataset_layers bbox dataset v st Hsel)
    as (s & Hs & Hbody).
  exists s. split; [rewrite Hs; reflexivity|]. rewrite Hbody. clear Hbody Hs.
  set (st1 := after_requests st [crs_request (ds_url dataset)]).
  set (layers := default [] (dataset_layers !! ds_name dataset)).
  assert (Hrest : ∀ v1 st2,
            transforms (snd (for_each layers
                               (layer_body W fuel dataset
                                  (preferred_crs_of (select_to_epsg s))) v1 st2))
            = transforms st2
            ∧ ∃ reqs,
                requests (snd (for_each layers
                                 (layer_body W fuel dataset
                                    (preferred_crs_of (select_to_epsg s))) v1 st2))
                = requests st2 ++ reqs
                ∧ ∀ req, req ∈ reqs →
                    ∃ layer b start,
                      req = getfeature_request (ds_url dataset) layer
                              (preferred_crs_of (select_to_epsg s)) b start).
  { intros v1 st2.
    destruct (layers_only_pages W fuel dataset (preferred_crs_of (select_to_epsg s))
                layers v1 st2) as (Ht & _ & reqs & Hr & Hall).
    split; [exact Ht|]. exists reqs. split; [exact Hr|].
    intros req Hreq. destruct (Hall req Hreq) as (layer & start & ->). eauto. }
  unfold dataset_rest. fold layers.
  destruct (select_to_epsg_cases s) as [[Hin He]|[Hout He]]; rewrite He.
  - (* EPSG:28992 is supported *)
    destruct (decide (28992 ≠ 4326)) as [_|Hne]; [|exfalso; apply Hne; lia].
    rewrite load_transform_bind. rewrite He in Hrest.
    destruct (transform_bbox W (objects st1 bbox) 4326 28992) as [e|t].
    + simpl. split; [intros _; split; reflexivity|].
      split; [intros Hc; contradiction|].
      exists []. split; [reflexivity|]. intros req Hreq.
      apply elem_of_nil in Hreq. contradiction.
    + destruct (Hrest (set_box v t) (after_transform st1 (objects st1 bbox) 28992))
        as (Ht & reqs & Hr & Hall).
      split; [intros _; split; [reflexivity|rewrite Ht; reflexivity]|].
      split; [intros Hc; contradiction|].
      exists reqs. split; [|exact Hall]. rewrite Hr. simpl.
      rewrite <- app_assoc. reflexivity.
  - (* EPSG:28992 is not supported *)
    destruct (decide (4326 ≠ 4326)) as [Hne|_]; [exfalso; apply Hne; reflexivity|].
    rewrite bind_ret. rewrite He in Hrest.
    destruct (Hrest v st1) as (Ht & reqs & Hr & Hall).
    split; [intros Hc; contradiction|].
    split; [intros _; split; [reflexivity|rewrite Ht; reflexivity]|].
    exists reqs. split; [|exact Hall]. rewrite Hr. simpl.
    rewrite <- app_assoc. reflexivity.
Qed.

Lemma only_box_transforms_refl (bbox : Ref) (st : State C) :
  only_box_transforms bbox st st.
Proof.
  split; [reflexivity|]. exists []. split; [rewrite app_nil_r; reflexivity|].
  intros call Hcall. apply elem_of_nil in Hcall. contradiction.
Qed.

Lemma only_box_transforms_trans (bbox : Ref) (st1 st2 st3 : State C) :
  only_box_transforms bbox st1 st2 → only_box_transforms bbox st2 st3 →
  only_box_transforms bbox st1 st3.
Proof.
  intros (Ho1 & l1 & Ht1 & Hl1) (Ho2 & l2 & Ht2 & Hl2).
  split; [congruence|]. exists (l1 ++ l2).
  split; [rewrite Ht2, Ht1, app_assoc; reflexivity|].
  intros call [Hc|Hc]%elem_of_app; [auto|]. rewrite <- Ho1. auto.
Qed.

Lemma only_pages_box_transforms (bbox : Ref) (url crs : string) (b : BBox C)
    (st st' : State C) :
  only_pages url crs b st st' → only_box_transforms bbox st st'.
Proof.
  intros (Ht & Ho & _). split; [exact Ho|]. exists [].
  split; [rewrite app_nil_r; exact Ht|].
  intros call Hcall. apply elem_of_nil in Hcall. contradiction.
Qed.

Lemma dataset_body_box_transforms (fuel : nat) (selected : list string)
    (dataset_layers : gmap string (list string)) (bbox : Ref) (dataset : Dataset)
    (v : Vars C) :
  keeps (only_box_transforms bbox)
        (dataset_body W fuel selected dataset_layers bbox dataset v).
Proof.
  intros st. destruct (decide (ds_name dataset ∈ selected)) as [Hsel|Hsel].
  - destruct (dataset_body_selected W fuel selected dataset_layers bbox dataset v st Hsel)
      as (s & _ & ->).
    set (st1 := after_requests st [crs_request (ds_url dataset)]).
    apply (only_box_transforms_trans bbox st st1).
    { split; [reflexivity|]. exists []. split; [simpl; rewrite app_nil_r; reflexivity|].
      intros call Hcall. apply elem_of_nil in Hcall. contradiction. }
    unfold dataset_rest.
    destruct (select_to_epsg_cases s) as [[_ He]|[_ He]]; rewrite He.
    + destruct (decide (28992 ≠ 4326)) as [_|Hne]; [|exfalso; apply Hne; lia].
      rewrite load_transform_bind.
      assert (Hcall : only_box_transforms bbox st1
                        (after_transform st1 (objects st1 bbox) 28992)).
      { split; [reflexivity|]. eexists. split; [reflexivity|].
        intros call Hc%list_elem_of_singleton. exact Hc. }
      destruct (transform_bbox W (objects st1 bbox) 4326 28992) as [e|t];
        [exact Hcall|].
      eapply only_box_transforms_trans; [exact Hcall|].
      eapply only_pages_box_transforms. apply layers_only_pages.
    + destruct (decide (4326 ≠ 4326)) as [Hne|_]; [exfalso; apply Hne; reflexivity|].
      rewrite bind_ret. eapply only_pages_box_transforms. apply layers_only_pages.
  - rewrite dataset_body_not_selected by exact Hsel. apply only_box_transforms_refl.
Qed.

(** A failure of [transform_bbox] ends the processing of the dataset
    with that failure. *)
Lemma dataset_body_crs_failure (fuel : nat) (selected : list string)
    (dataset_layers : gmap string (list string)) (bbox : Ref) (dataset : Dataset)
    (v : Vars C) (st : State C) (supported : gset string) :
  ds_name dataset ∈ selected →
  fst (get_supported_crs W (ds_url dataset) st) = Ret supported →
  urn_28992 ∈ supported →
  epsg_known W 4326 = false ∨ epsg_known W 28992 = false →
  fst (dataset_body W fuel selected dataset_layers bbox dataset v st) = Raise CRSError.
Proof.
  intros Hsel Hsup Hin Hk.
  destruct (dataset_body_selected W fuel selected dataset_layers bbox dataset v st Hsel)
    as (s & Hs & ->).
  rewrite Hs in Hsup. injection Hsup as ->. unfold dataset_rest.
  destruct (select_to_epsg_cases supported) as [[_ He]|[Hout _]]; [|contradiction].
  rewrite He. destruct (decide (28992 ≠ 4326)) as [_|Hne]; [|exfalso; apply Hne; lia].
  rewrite load_transform_bind, (transform_bbox_unknown W _ _ _ Hk). reflexivity.
Qed.

(** C8. Whatever the outcome of [fetch_geodata], the bounding-box
    objects of the caller are afterwards what they were before, and every
    call of [transform_bbox] that was made took the box that the [bbox]
    argument refers to. *)
Theorem C8_caller_bbox_unmodified (fuel : nat) (selected : list string)
    (dataset_layers : gmap string (list string)) (datasets : list Dataset)
    (bbox : Ref) (st : State C) :
  objects (snd (fetch_geodata W fuel selected dataset_layers datasets bbox st))
  = objects st
  ∧ ∃ calls,
      transforms (snd (fetch_geodata W fuel selected dataset_layers datasets bbox st))
      = transforms st ++ calls
      ∧ ∀ b from_epsg to_epsg, (b, from_epsg, to_epsg) ∈ calls → b = objects st bbox.
Proof.
  assert (Hrun : only_box_transforms bbox st
            (snd (fetch_geodata W fuel selected dataset_layers datasets bbox st))).
  { unfold fetch_geodata.
    apply (keeps_bind _ (only_box_transforms_trans bbox)).
    - intros st'. apply only_box_transforms_refl.
    - intros [[[x0 y0] x1] y1].
      apply (keeps_bind _ (only_box_transforms_trans bbox)).
      + apply (keeps_for_each _ (only_box_transforms_refl bbox)
                 (only_box_transforms_trans bbox) (λ _, True)); [|auto..].
        intros dataset v _. apply dataset_body_box_transforms.
      + intros v. apply keeps_ret, only_box_transforms_refl. }
  destruct Hrun as (Ho & calls & Ht & Hcalls).
  split; [exact Ho|]. exists calls. split; [exact Ht|].
  intros b0 f t Hin. specialize (Hcalls _ Hin). congruence.
Qed.

End DatasetProperties.

(** ** Runs in the mock world *)



Example flaky_layer_file :
  gdf_len <$> files (snd (layer_body Sample.world 10 Sample.ds_rd urn_28992 "ns:flaky"
                            Sample.rd_vars Sample.st0)) !! "ns_flaky_4326.geojson"
  = Some 2000.
Proof. vm_compute. reflexivity. Qed.

(** The mock service with EPSG:28992 and the one with EPSG:4326 alone. *)
Lemma C5_working_crs_selection_witness :
  transforms (snd (dataset_body Sample.world 10 ["rd"; "plain"]
                     {[ "rd" := ["ns:none"] ]} 0%nat Sample.ds_rd
                     Sample.caller_vars Sample.st0))
  = [((4, 51, 5, 52), 4326, 28992)]
  ∧ transforms (snd (dataset_body Sample.world 10 ["rd"; "plain"]
                       {[ "plain" := ["ns:parks"] ]} 0%nat Sample.ds_plain
                       Sample.caller_vars Sample.st0))
    = [].
Proof.
  split.
  - destruct (C5_working_crs_selection Sample.world 10 ["rd"; "plain"]
                {[ "rd" := ["ns:none"] ]} 0%nat Sample.ds_rd Sample.caller_vars
                Sample.st0) as (supported & Hs & Hin & _).
    + apply list_elem_of_here.
    + change (Ret ({[ Sample.urn_4326 ]} ∪ ({[ urn_28992 ]} ∪ ∅)) = Ret supported) in Hs.
      injection Hs as <-. apply Hin.
      apply elem_of_union_r, elem_of_union_l, elem_of_singleton. reflexivity.
  - destruct (C5_working_crs_selection Sample.world 10 ["rd"; "plain"]
                {[ "plain" := ["ns:parks"] ]} 0%nat Sample.ds_plain Sample.caller_vars
                Sample.st0) as (supported & Hs & _ & Hout & _).
    + apply list_elem_of_further, list_elem_of_here.
    + change (Ret ({[ Sample.urn_4326 ]} ∪ ∅) = Ret supported) in Hs.
      injection Hs as <-. apply Hout.
      intros [Hc|Hc]%elem_of_union.
      * apply elem_of_singleton in Hc. discriminate Hc.
      * apply elem_of_empty in Hc. exact Hc.
Defined.

(** The layer [ns:down] of the mock service answers 500 at once; the
    layer [ns:none] answers a page without rows. *)
Lemma C9_first_page_failure_or_empty_witness :
  layer_body Sample.world 10 Sample.ds_rd urn_28992 "ns:down" Sample.rd_vars Sample.st0
  = (Ret Sample.rd_vars,
     after_requests Sample.st0
       [page_request Sample.url_rd "ns:down" urn_28992 Sample.rd_box 0])
  ∧ files (snd (layer_body Sample.world 10 Sample.ds_rd urn_28992 "ns:none"
                  Sample.rd_vars Sample.st0)) !! "ns_none_4326.geojson"
    = Some (mkGdf "EPSG:4326" [])
  ∧ results (registered Sample.world Sample.rd_vars "ns:none"
               [Sample.page "EPSG:28992" 0 0]) !! "ns:none"
    = Some (WFSResult "FeatureCollection of 0" "ns_none_4326.geojson").
Proof.
  split.
  - refine (proj1 (C9_first_page_failure_or_empty Sample.world 10 Sample.ds_rd
                     urn_28992 "ns:down" Sample.rd_vars
                     (mkResponse 500 [] "Internal Server Error") Sample.st0 _ _ _) _).
    + reflexivity.
    + reflexivity.
    + lia.
    + simpl. lia.
  - destruct (proj2 (C9_first_page_failure_or_empty Sample.world 10 Sample.ds_rd
                       urn_28992 "ns:none" Sample.rd_vars
                       (mkResponse 200 [] (Sample.page_body "ns:none" 0 0)) Sample.st0
                       eq_refl eq_refl ltac:(lia))
                eq_refl (Sample.page "EPSG:28992" 0 0) eq_refl eq_refl)
      as (Hrun & _ & Hres & Hfile).
    split; [rewrite Hrun; exact Hfile|exact Hres].
Defined.

(** C1, on the code. Two WFS datasets are selected; the service of the
    first supports EPSG:28992, the service of the second does not. The
    one transform call is on the caller's box (4, 51, 5, 52), and the
    GetFeature request of the second dataset names EPSG:4326 but carries
    the box that was transformed to EPSG:28992 for the first dataset, not
    the caller's box. *)
Theorem C1_transformed_box_reaches_later_dataset :
  objects Sample.st0 0%nat = (4, 51, 5, 52)
  ∧ fst Sample.run_rd_then_plain
    = Ret {[ "ns:none" := WFSResult "FeatureCollection of 0" "ns_none_4326.geojson";
             "ns:parks" := WFSResult "FeatureCollection of 2" "ns_parks_4326.geojson" ]}
  ∧ transforms (snd Sample.run_rd_then_plain) = [((4, 51, 5, 52), 4326, 28992)]
  ∧ requests (snd Sample.run_rd_then_plain)
    = [crs_request Sample.url_rd;
       getfeature_request Sample.url_rd "ns:none" urn_28992
         (58000, 333000, 129000, 446000) 0;
       crs_request Sample.url_plain;
       getfeature_request Sample.url_plain "ns:parks" Sample.urn_4326
         (58000, 333000, 129000, 446000) 0]
  ∧ Sample.assoc "BBOX"
      (req_params (getfeature_request Sample.url_plain "ns:parks" Sample.urn_4326
                     (58000, 333000, 129000, 446000) 0))
    = Some (PStr "58000,333000,129000,446000,urn:ogc:def:crs:EPSG::4326").
Proof. repeat split; vm_compute; reflexivity. Qed.

(** C2, on the code. A WFS dataset whose service supports EPSG:28992 and
    a WMS dataset are selected. No request is sent for the GetMap, but the
    GetMap URL of the WMS layer carries the box that was transformed to
    EPSG:28992 for the WFS dataset, next to srs=EPSG:4326, and not the
    caller's box (4, 51, 5, 52). *)
Theorem C2_wms_url_carries_transformed_box :
  objects Sample.st0 0%nat = (4, 51, 5, 52)
  ∧ fst Sample.run_rd_then_wms
    = Ret {[ "water" :=
               WMSResult ("http://example/wms?service=WMS&request=GetMap&layers=water"
                          +:+ "&bbox=58000,333000,129000,446000"
                          +:+ "&width=500&height=500&srs=EPSG:4326&format=image/png") ]}
  ∧ requests (snd Sample.run_rd_then_wms)
    = [crs_request Sample.url_rd; crs_request Sample.url_wms]
  ∧ Py.contains
      ("http://example/wms?service=WMS&request=GetMap&layers=water"
       +:+ "&bbox=58000,333000,129000,446000"
       +:+ "&width=500&height=500&srs=EPSG:4326&format=image/png")
      "bbox=4,51,5,52" = false.
Proof. repeat split; vm_compute; reflexivity. Qed.

(** The WMS dataset alone: the URL of the example of the specification. *)
Example wms_url_untransformed :
  fst Sample.run_wms
  = Ret {[ "water" :=
             WMSResult ("http://example/wms?service=WMS&request=GetMap&layers=water"
                        +:+ "&bbox=4,51,5,52"
                        +:+ "&width=500&height=500&srs=EPSG:4326&format=image/png") ]}
  ∧ requests (snd Sample.run_wms) = [crs_request Sample.url_wms].
Proof. split; vm_compute; reflexivity. Qed.

(** * Further properties *)

(** ** Cleaning and file names *)

Section Cleaning.

Context {C : Type} `{Coord C}.
Variable W : World C.

Lemma ensure_4326_crs (g : GeoDataFrame) : gdf_crs (ensure_4326 W g) = "EPSG:4326".
Proof.
  unfold ensure_4326. destruct (decide (gdf_crs g ≠ "EPSG:4326")) as [Hne|He].
  - reflexivity.
  - destruct (decide (gdf_crs g = "EPSG:4326")) as [->|Hn]; [reflexivity|contradiction].
Qed.

Lemma filter_length_le (A : Type) (p : A → bool) (l : list A) :
  (List.length (List.filter p l) ≤ List.length l)%nat.
Proof. induction l as [|x l IH]; simpl; [lia|]. destruct (p x); simpl; lia. Qed.

(** X10. What [fetch_geodata] writes and serialises for a WFS layer is in
    EPSG:4326, every row of it has a geometry, and a valid one, every row
    of it is a row of the merged table once in EPSG:4326, it has no more
    rows than the merged table, and cleaning it again changes nothing. *)
Theorem clean_postconditions (g : GeoDataFrame) :
  gdf_crs (clean W g) = "EPSG:4326"
  ∧ (∀ f, f ∈ gdf_rows (clean W g) →
       f ∈ gdf_rows (ensure_4326 W g) ∧ notnull f = true ∧ is_valid W f = true)
  ∧ gdf_len (clean W g) ≤ gdf_len g
  ∧ clean W (clean W g) = clean W g.
Proof.
  split; [|split; [|split]].
  - unfold clean, drop_invalid. simpl. apply ensure_4326_crs.
  - intros f Hf. unfold clean, drop_invalid in Hf. simpl in Hf.
    apply list_elem_of_In, filter_In in Hf as [Hf Hv].
    apply filter_In in Hf as [Hf Hn]. apply list_elem_of_In in Hf. auto.
  - rewrite <- (ensure_4326_len W g). unfold clean, drop_invalid, gdf_len. simpl.
    pose proof (filter_length_le _ (is_valid W)
                  (List.filter notnull (gdf_rows (ensure_4326 W g)))).
    pose proof (filter_length_le _ notnull (gdf_rows (ensure_4326 W g))). lia.
  - assert (Hcrs : gdf_crs (clean W g) = "EPSG:4326").
    { unfold clean, drop_invalid. simpl. apply ensure_4326_crs. }
    unfold clean at 1. unfold ensure_4326.
    destruct (decide (gdf_crs (clean W g) ≠ "EPSG:4326")) as [Hne|_]; [contradiction|].
    unfold drop_invalid. rewrite Hcrs.
    assert (Hall : ∀ f, f ∈ gdf_rows (clean W g) → is_valid W f = true).
    { intros f Hf. unfold clean, drop_invalid in Hf. simpl in Hf.
      apply list_elem_of_In, filter_In in Hf as [_ Hv]. exact Hv. }
    rewrite (filter_all _ notnull) by (intros f Hf; apply (is_valid_notnull W), Hall, Hf).
    rewrite (filter_all _ (is_valid W)) by exact Hall.
    destruct (clean W g) as [crs rows]. simpl in Hcrs. subst crs. reflexivity.
Qed.

End Cleaning.

Section FileNames.

Lemma string_app_nil (t : string) : "" +:+ t = t.
Proof. reflexivity. Qed.

Lemma string_app_cons (a : ascii) (s t : string) : String a s +:+ t = String a (s +:+ t).
Proof. reflexivity. Qed.

Lemma list_ascii_of_string_app (s t : string) :
  list_ascii_of_string (s +:+ t) = list_ascii_of_string s ++ list_ascii_of_string t.
Proof.
  induction s as [|a s IH]; [reflexivity|].
  rewrite string_app_cons. simpl. rewrite IH. reflexivity.
Qed.

Lemma string_app_inv_tail (s1 s2 t : string) : s1 +:+ t = s2 +:+ t → s1 = s2.
Proof.
  intros Heq. apply (f_equal list_ascii_of_string) in Heq.
  rewrite !list_ascii_of_string_app in Heq. apply app_inv_tail in Heq.
  rewrite <- (string_of_list_ascii_of_string s1), <- (string_of_list_ascii_of_string s2).
  rewrite Heq. reflexivity.
Qed.

Lemma startswith_nil (s : string) : Py.startswith s "" = true.
Proof. destruct s; reflexivity. Qed.

Lemma contains_colon_cons (a : ascii) (s : string) :
  Py.contains (String a s) ":" = bool_decide (a = ":"%char) || Py.contains s ":".
Proof.
  simpl. destruct (decide (":"%char = a)) as [<-|Hne].
  - rewrite startswith_nil. reflexivity.
  - rewrite bool_decide_eq_false_2 by congruence. reflexivity.
Qed.

Lemma replace_colon_idem (s : string) :
  Py.replace_char ":" "_" (Py.replace_char ":" "_" s) = Py.replace_char ":" "_" s.
Proof.
  unfold Py.replace_char. induction s as [|a s IH]; [reflexivity|].
  simpl. rewrite IH. f_equal.
  destruct (decide (a = ":"%char)) as [->|Hne]; [reflexivity|].
  destruct (decide (a = ":"%char)); [contradiction|reflexivity].
Qed.

(** X11. The name of the file of a layer holds no colon, and two layers get
    the same file exactly when their names agree once every colon is
    turned into an underscore: the layers a:b and a_b share one file. *)
Theorem filename_of_colons (layer other : string) :
  Py.contains (filename_of layer) ":" = false
  ∧ filename_of (Py.replace_char ":" "_" layer) = filename_of layer
  ∧ (filename_of layer = filename_of other
     ↔ Py.replace_char ":" "_" layer = Py.replace_char ":" "_" other).
Proof.
  split; [|split].
  - unfold filename_of, Py.replace_char. induction layer as [|a s IH]; [reflexivity|].
    simpl Py.map_chars. rewrite string_app_cons, contains_colon_cons, IH.
    destruct (decide (a = ":"%char)) as [->|Hne]; [reflexivity|].
    rewrite bool_decide_eq_false_2 by exact Hne. reflexivity.
  - unfold filename_of. rewrite replace_colon_idem. reflexivity.
  - unfold filename_of. split; [apply string_app_inv_tail|intros ->; reflexivity].
Qed.

End FileNames.

(** ** Boxes that reprojection keeps upright *)

Section BoxShapes.

Context {C : Type} `{CoordOrder C}.
Variable W : World C.
Hypothesis coord_leb_antisym :
  ∀ a b : C, coord_leb a b = true → coord_leb b a = true → a = b.

Lemma coord_min_left (a b : C) : coord_leb a b = true → coord_min a b = a.
Proof. intros Hab. unfold coord_min. rewrite Hab. reflexivity. Qed.

Lemma coord_min_right (a b : C) : coord_leb b a = true → coord_min a b = b.
Proof.
  intros Hba. unfold coord_min. destruct (coord_leb a b) eqn:Hab; [|reflexivity].
  apply coord_leb_antisym; assumption.
Qed.

Lemma coord_max_right (a b : C) : coord_leb a b = true → coord_max a b = b.
Proof. intros Hab. unfold coord_max. rewrite Hab. reflexivity. Qed.

Lemma coord_max_left (a b : C) : coord_leb b a = true → coord_max a b = a.
Proof.
  intros Hba. unfold coord_max. destruct (coord_leb a b) eqn:Hab; [|reflexivity].
  symmetry. apply coord_leb_antisym; assumption.
Qed.

(** X5. When the projection acts on the two coordinates separately and keeps
    their order on the sides of the box (as the identity does on a box
    with minx <= maxx and miny <= maxy), [transform_bbox] returns the
    projection of the lower left and of the upper right corner. *)
Theorem transform_bbox_axis_aligned (fx fy : C → C) (x0 y0 x1 y1 : C)
    (from_epsg to_epsg : Z) :
  epsg_known W from_epsg = true →
  epsg_known W to_epsg = true →
  (∀ p, pyproj_transform W from_epsg to_epsg p = (fx (fst p), fy (snd p))) →
  coord_leb (fx x0) (fx x1) = true →
  coord_leb (fy y0) (fy y1) = true →
  transform_bbox W (x0, y0, x1, y1) from_epsg to_epsg
  = inr (fx x0, fy y0, fx x1, fy y1).
Proof.
  intros Hfrom Hto Hsep Hx Hy. unfold transform_bbox. rewrite Hfrom, Hto. simpl negb.
  cbv iota. unfold bounds, shapely_transform, box. simpl. rewrite !Hsep. simpl.
  pose proof (coord_leb_refl (fx x0)) as Hx0. pose proof (coord_leb_refl (fx x1)) as Hx1.
  pose proof (coord_leb_refl (fy y0)) as Hy0. pose proof (coord_leb_refl (fy y1)) as Hy1.
  repeat match goal with
         | |- context [coord_min ?a ?b] =>
             first [ rewrite (coord_min_left a b) by assumption
                   | rewrite (coord_min_right a b) by assumption ]
         | |- context [coord_max ?a ?b] =>
             first [ rewrite (coord_max_right a b) by assumption
                   | rewrite (coord_max_left a b) by assumption ]
         end.
  reflexivity.
Qed.

End BoxShapes.

Lemma Z_coord_leb_antisym (a b : Z) :
  coord_leb a b = true → coord_leb b a = true → a = b.
Proof. simpl. rewrite !Z.leb_le. lia. Qed.

(** The mock projection from EPSG:4326 to itself is the identity. *)
Lemma transform_bbox_axis_aligned_witness :
  transform_bbox Sample.world (4, 51, 5, 52) 4326 4326 = inr (4, 51, 5, 52).
Proof.
  apply (transform_bbox_axis_aligned Sample.world
           Z_coord_leb_antisym
           (λ x, x) (λ y, y) 4 51 5 52 4326 4326).
  - reflexivity.
  - reflexivity.
  - intros [x y]. reflexivity.
  - reflexivity.
  - reflexivity.
Defined.

Section PointBoxes.

Context {C : Type} `{Coord C}.
Variable W : World C.

Lemma coord_min_same (a : C) : coord_min a a = a.
Proof. unfold coord_min. destruct (coord_leb a a); reflexivity. Qed.

Lemma coord_max_same (a : C) : coord_max a a = a.
Proof. unfold coord_max. destruct (coord_leb a a); reflexivity. Qed.

(** X6. A box that is a single point (as [map.py] builds for a point drawn
    with radius 0) is transformed into the box that is the projected
    point; no property of the comparison is needed. *)
Theorem transform_bbox_point (x y : C) (from_epsg to_epsg : Z) :
  epsg_known W from_epsg = true →
  epsg_known W to_epsg = true →
  transform_bbox W (x, y, x, y) from_epsg to_epsg
  = inr (fst (pyproj_transform W from_epsg to_epsg (x, y)),
         snd (pyproj_transform W from_epsg to_epsg (x, y)),
         fst (pyproj_transform W from_epsg to_epsg (x, y)),
         snd (pyproj_transform W from_epsg to_epsg (x, y))).
Proof.
  intros Hfrom Hto. unfold transform_bbox. rewrite Hfrom, Hto. simpl negb. cbv iota.
  unfold bounds, shapely_transform, box. simpl.
  destruct (pyproj_transform W from_epsg to_epsg (x, y)) as [px py]. simpl.
  rewrite !coord_min_same, !coord_max_same. reflexivity.
Qed.

End PointBoxes.

Lemma transform_bbox_point_witness :
  transform_bbox Sample.world (5, 52, 5, 52) 4326 28992
  = inr (126000, 446000, 126000, 446000).
Proof.
  apply (transform_bbox_point Sample.world 5 52 4326 28992); reflexivity.
Defined.

(** ** What the capability operations return *)

Section Discovery.

Context {C : Type} `{Coord C}.
Variable W : World C.

Lemma findall_desc_child_spec (root : Element) (a b : string) (e : Element) :
  e ∈ findall_desc_child root a b
  ↔ ∃ p, p ∈ descendants root ∧ tag p = a ∧ e ∈ children p ∧ tag e = b.
Proof.
  unfold findall_desc_child, descendants. rewrite list_elem_of_In, in_flat_map. split.
  - intros (p & Hp & He). apply list_elem_of_In in Hp.
    destruct (decide (tag p = a)) as [Ha|Ha]; [|destruct He].
    apply list_elem_of_In, list_elem_of_filter in He as [Hb He]. eauto.
  - intros (p & Hp & Ha & He & Hb). exists p. split; [apply list_elem_of_In, Hp|].
    destruct (decide (tag p = a)); [|contradiction].
    apply list_elem_of_In, list_elem_of_filter. auto.
Qed.

Lemma findall_texts (root : Element) (a b : string) (x : option string) :
  x ∈ map text (findall_desc_child root a b) ↔ named_under root a b x.
Proof.
  unfold named_under. rewrite list_elem_of_In, in_map_iff. split.
  - intros (e & Hx & He). apply list_elem_of_In, findall_desc_child_spec in He
      as (p & Hp & Ha & He & Hb). eauto 10.
  - intros (p & e & Hp & Ha & He & Hb & Hx). exists e. split; [exact Hx|].
    apply list_elem_of_In, findall_desc_child_spec. eauto.
Qed.

(** The names come from the tags without namespace when there is any
    such name, and from the tags with the namespace otherwise. *)
Lemma layer_names_spec (root : Element) (ns parent : string) (x : option string) :
  ((∃ y, named_under root parent "Name" y) →
   (x ∈ layer_names root ns parent ↔ named_under root parent "Name" x))
  ∧ ((¬ ∃ y, named_under root parent "Name" y) →
     (x ∈ layer_names root ns parent
      ↔ named_under root (ns +:+ parent) (ns +:+ "Name") x)).
Proof.
  unfold layer_names.
  destruct (map text (findall_desc_child root parent "Name")) as [|y l] eqn:E.
  - split.
    + intros [y Hy]. apply findall_texts in Hy. rewrite E in Hy.
      apply elem_of_nil in Hy. contradiction.
    + intros _. apply findall_texts.
  - split.
    + intros _. rewrite <- E. apply findall_texts.
    + intros Hno. exfalso. apply Hno. exists y. apply findall_texts. rewrite E.
      apply list_elem_of_here.
Qed.

(** X1. When the service answers a status outside 400-599 with a body that
    begins with '<' once trimmed and that parses, the result of
    [get_capabilities_layers] for a service type that reads WMS (WFS) in
    upper case is made of the texts of the Name children of the Layer
    (FeatureType) elements strictly below the root: those with tags
    without namespace when there is any, else those with the tags of the
    WMS 1.3.0 (WFS 2.0) namespace; a name without text gives [None]. *)
Theorem get_capabilities_layers_extracts (service_url service_type ns parent : string)
    (st : State C) (r : Response) (root : Element) :
  http_get W (requests st) (layers_request service_url service_type) = Responded r →
  status_code r < 400 ∨ 600 ≤ status_code r →
  Py.startswith (Py.strip (resp_text r)) "<" = true →
  ET_fromstring W (resp_text r) = Some root →
  (Py.upper service_type = "WMS" ∧ ns = wms_ns ∧ parent = "Layer")
  ∨ (Py.upper service_type = "WFS" ∧ ns = wfs_ns ∧ parent = "FeatureType") →
  ∃ layers,
    fst (get_capabilities_layers W service_url service_type st) = Ret layers
    ∧ ∀ x,
        ((∃ y, named_under root parent "Name" y) →
         (x ∈ layers ↔ named_under root parent "Name" x))
        ∧ ((¬ ∃ y, named_under root parent "Name" y) →
           (x ∈ layers ↔ named_under root (ns +:+ parent) (ns +:+ "Name") x)).
Proof.
  intros Hr Hst Hx Hroot Hty. exists (layer_names root ns parent).
  split; [|intros x; apply layer_names_spec].
  unfold get_capabilities_layers, try_except, bind, requests_get, raise_for_status.
  fold (layers_request service_url service_type). rewrite Hr.
  assert (Hok : (400 <=? status_code r) && (status_code r <? 600) = false).
  { apply andb_false_iff. rewrite Z.leb_gt, Z.ltb_ge. lia. }
  rewrite Hok. simpl. rewrite Hx. simpl. rewrite Hroot. simpl.
  destruct Hty as [(Hu & -> & ->)|(Hu & -> & ->)]; rewrite Hu.
  - destruct (decide ("WMS" = "WMS")); [reflexivity|contradiction].
  - destruct (decide ("WFS" = "WMS")) as [Hc|_]; [discriminate Hc|].
    destruct (decide ("WFS" = "WFS")); [reflexivity|contradiction].
Qed.

(** X2. For a service type that reads neither WMS nor WFS in upper case,
    [get_capabilities_layers] returns the empty list whatever the service
    answers. *)
Theorem get_capabilities_layers_other_type (service_url service_type : string)
    (st : State C) :
  Py.upper service_type ≠ "WMS" →
  Py.upper service_type ≠ "WFS" →
  fst (get_capabilities_layers W service_url service_type st) = Ret [].
Proof.
  intros Hwms Hwfs.
  unfold get_capabilities_layers, try_except, bind, requests_get, raise_for_status.
  destruct (http_get W (requests st) _) as [r|f]; [|reflexivity].
  destruct ((400 <=? status_code r) && (status_code r <? 600)); [reflexivity|]. simpl.
  destruct (Py.startswith (Py.strip (resp_text r)) "<"); [|reflexivity]. simpl.
  destruct (ET_fromstring W (resp_text r)) as [root|]; simpl; [|reflexivity].
  destruct (decide (Py.upper service_type = "WMS")); [contradiction|].
  destruct (decide (Py.upper service_type = "WFS")); [contradiction|reflexivity].
Qed.

(** [get_capabilities_layers] returns a list and leaves one request
    behind. *)
Lemma get_capabilities_layers_spec (service_url service_type : string) (st : State C) :
  ∃ layers, get_capabilities_layers W service_url service_type st
            = (Ret layers, after_requests st [layers_request service_url service_type]).
Proof.
  unfold get_capabilities_layers, try_except, bind, requests_get, raise_for_status.
  fold (layers_request service_url service_type).
  fold (after_requests st [layers_request service_url service_type]).
  destruct (http_get W (requests st) _) as [r|f]; [|eexists; reflexivity].
  destruct ((400 <=? status_code r) && (status_code r <? 600)); [eexists; reflexivity|].
  simpl.
  destruct (Py.startswith (Py.strip (resp_text r)) "<"); [|eexists; reflexivity]. simpl.
  destruct (ET_fromstring W (resp_text r)) as [root|]; simpl; [|eexists; reflexivity].
  destruct (decide (Py.upper service_type = "WMS")); [eexists; reflexivity|].
  destruct (decide (Py.upper service_type = "WFS")); eexists; reflexivity.
Qed.

(** X4. Each capability operation sends exactly one request and leaves the
    rest of the state as it is, however it ends. *)
Theorem capability_operations_one_request (service_url service_type wfs_url : string)
    (st : State C) :
  snd (get_capabilities_layers W service_url service_type st)
  = after_requests st [layers_request service_url service_type]
  ∧ snd (get_supported_crs W wfs_url st) = after_requests st [crs_request wfs_url].
Proof.
  split.
  - destruct (get_capabilities_layers_spec service_url service_type st) as [l ->].
    reflexivity.
  - destruct (get_supported_crs_spec W wfs_url st) as [s ->]. reflexivity.
Qed.

Lemma collect_crs_collects (elems : list Element) (acc : gset string) (st : State C) :
  (∀ e, e ∈ elems → crs_tag e = true → text e ≠ None) →
  ∃ s, collect_crs elems acc st = (Ret s, st)
       ∧ ∀ x, x ∈ s ↔ x ∈ acc
                      ∨ ∃ e t, e ∈ elems ∧ crs_tag e = true ∧ text e = Some t
                               ∧ x = Py.strip t.
Proof.
  revert acc. induction elems as [|e elems IH]; intros acc Hwf.
  - exists acc. split; [reflexivity|]. intros x. split; [auto|].
    intros [Hx|(e & t & He & _)]; [exact Hx|]. apply elem_of_nil in He. contradiction.
  - simpl. fold (crs_tag e). destruct (crs_tag e) eqn:Htag.
    + destruct (text e) as [t|] eqn:Ht.
      * destruct (IH ({[Py.strip t]} ∪ acc)) as (s & Hs & Hmem).
        { intros e' He'. apply Hwf. apply list_elem_of_further, He'. }
        exists s. split; [exact Hs|]. intros x. rewrite Hmem, elem_of_union, elem_of_singleton.
        split.
        -- intros [[->|Hx]|(e' & t' & He' & Hrest)].
           ++ right. exists e, t. split; [apply list_elem_of_here|auto].
           ++ left. exact Hx.
           ++ right. exists e', t'. split; [apply list_elem_of_further, He'|exact Hrest].
        -- intros [Hx|(e' & t' & He' & Htag' & Ht' & ->)]; [auto|].
           apply elem_of_cons in He' as [->|He'].
           ++ left. left. congruence.
           ++ right. eauto 10.
      * exfalso. apply (Hwf e); [apply list_elem_of_here|exact Htag|exact Ht].
    + destruct (IH acc) as (s & Hs & Hmem).
      { intros e' He'. apply Hwf. apply list_elem_of_further, He'. }
      exists s. split; [exact Hs|]. intros x. rewrite Hmem. split.
      * intros [Hx|(e' & t' & He' & Hrest)]; [auto|].
        right. exists e', t'. split; [apply list_elem_of_further, He'|exact Hrest].
      * intros [Hx|(e' & t' & He' & Htag' & Hrest)]; [auto|].
        apply elem_of_cons in He' as [->|He']; [congruence|]. right. eauto 10.
Qed.

(** X3. When the capabilities come with status 200, parse, and every element
    whose tag ends in DefaultCRS or OtherCRS has a text, the set that
    [get_supported_crs] returns holds exactly the trimmed texts of those
    elements, the root included. *)
Theorem get_supported_crs_collects (wfs_url : string) (st : State C) (r : Response)
    (root : Element) :
  http_get W (requests st) (crs_request wfs_url) = Responded r →
  status_code r = 200 →
  ET_fromstring W (content r) = Some root →
  (∀ e, e ∈ iter root → crs_tag e = true → text e ≠ None) →
  ∃ s, fst (get_supported_crs W wfs_url st) = Ret s ∧ ∀ x, x ∈ s ↔ advertised_crs root x.
Proof.
  intros Hr Hst Hroot Hwf.
  destruct (collect_crs_collects (iter root) ∅ (after_requests st [crs_request wfs_url]) Hwf)
    as (s & Hs & Hmem).
  exists s. split.
  - unfold get_supported_crs, try_except, bind, requests_get.
    fold (crs_request wfs_url). fold (after_requests st [crs_request wfs_url]).
    rewrite Hr, Hst. simpl. rewrite Hroot. simpl. rewrite Hs. reflexivity.
  - intros x. rewrite Hmem. unfold advertised_crs. split.
    + intros [Hx|Hx]; [apply elem_of_empty in Hx; contradiction|exact Hx].
    + intros Hx. right. exact Hx.
Qed.

End Discovery.

Ltac crs_elements_have_text :=
  let e := fresh "e" in
  let He := fresh "He" in
  intros e He; apply list_elem_of_In in He; simpl in He;
  repeat (destruct He as [<-|He]; [first [intros _; discriminate
                                         | intros He'; vm_compute in He'; discriminate]|]);
  destruct He.

(** The WMS service of the mock world. *)
Lemma get_capabilities_layers_extracts_witness :
  ∃ layers,
    fst (get_capabilities_layers Sample.world Sample.url_wms "WMS" Sample.st0) = Ret layers
    ∧ Some "water" ∈ layers.
Proof.
  destruct (get_capabilities_layers_extracts Sample.world Sample.url_wms "WMS"
              wms_ns "Layer" Sample.st0 (mkResponse 200 [] Sample.doc_wms)
              Sample.tree_wms) as (layers & Hrun & Hmem).
  - reflexivity.
  - left. simpl. lia.
  - reflexivity.
  - reflexivity.
  - left. auto.
  - exists layers. split; [exact Hrun|].
    assert (Hname : named_under Sample.tree_wms "Layer" "Name" (Some "water")).
    { exists (Elem "Layer" None [Elem "Name" (Some "water") []]),
             (Elem "Name" (Some "water") []).
      repeat split.
      - simpl. apply list_elem_of_further, list_elem_of_here.
      - apply list_elem_of_here. }
    apply (proj1 (Hmem (Some "water"))); [eauto|exact Hname].
Defined.

Lemma get_capabilities_layers_other_type_witness :
  fst (get_capabilities_layers Sample.world Sample.url_wms "WCS" Sample.st0) = Ret [].
Proof.
  apply (get_capabilities_layers_other_type Sample.world Sample.url_wms "WCS" Sample.st0);
    discriminate.
Defined.

(** The WFS service of the mock world that offers EPSG:28992: the text of
    its OtherCRS element comes with blanks around it. *)
Lemma get_supported_crs_collects_witness :
  ∃ s, fst (get_supported_crs Sample.world Sample.url_rd Sample.st0) = Ret s
       ∧ urn_28992 ∈ s ∧ Sample.urn_4326 ∈ s.
Proof.
  destruct (get_supported_crs_collects Sample.world Sample.url_rd Sample.st0
              (mkResponse 200 [] Sample.doc_rd) Sample.tree_rd) as (s & Hrun & Hmem).
  - reflexivity.
  - reflexivity.
  - reflexivity.
  - crs_elements_have_text.
  - exists s. split; [exact Hrun|]. split; apply Hmem.
    + exists (Elem (wfs_ns +:+ "DefaultCRS") (Some urn_28992) []), urn_28992.
      split; [simpl; do 4 apply list_elem_of_further; apply list_elem_of_here|].
      repeat split.
    + exists (Elem (wfs_ns +:+ "OtherCRS") (Some " urn:ogc:def:crs:EPSG::4326 ") []),
             " urn:ogc:def:crs:EPSG::4326 ".
      split; [simpl; do 5 apply list_elem_of_further; apply list_elem_of_here|].
      repeat split.
Defined.

(** ** The pagination loop on any server *)

Section AnyServer.

Context {C : Type} `{Coord C}.
Variable W : World C.
Variables url layer crs : string.
Variable b : BBox C.

Local Abbreviation page_request := (page_request url layer crs b).
Local Abbreviation page_requests := (page_requests url layer crs b).

(** One round of the loop, by what the server answers. *)
Lemma wfs_pages_round (fuel : nat) (acc : list GeoDataFrame) (start : Z) (st : State C) :
  wfs_pages W (S fuel) url layer crs b acc start st
  = match http_get W (requests st) (page_request start) with
    | Failed f => (Raise (RequestException f), after_requests st [page_request start])
    | Responded r =>
        if status_code r =? 200 then
          match read_page W r with
          | inl e => (Raise e, after_requests st [page_request start])
          | inr g =>
              if gdf_len g <? count
              then (Ret (acc ++ [g]), after_requests st [page_request start])
              else wfs_pages W fuel url layer crs b (acc ++ [g]) (start + count)
                     (after_requests st [page_request start])
          end
        else (Ret acc, after_requests st [page_request start])
    end.
Proof.
  simpl. unfold bind at 1. unfold requests_get. fold (page_request start).
  fold (after_requests st [page_request start]).
  destruct (http_get W (requests st) (page_request start)) as [r|f]; [|reflexivity].
  destruct (status_code r =? 200); [|reflexivity].
  unfold bind at 1. destruct (read_page W r) as [e|g]; [reflexivity|]. simpl.
  destruct (gdf_len g <? count); reflexivity.
Qed.

Lemma wfs_pages_shape (fuel : nat) (acc : list GeoDataFrame) (start : Z) (st : State C) :
  ∃ n, (n ≤ fuel)%nat
    ∧ snd (wfs_pages W fuel url layer crs b acc start st)
      = after_requests st (page_requests start n)
    ∧ (fst (wfs_pages W fuel url layer crs b acc start st) = OutOfFuel → n = fuel)
    ∧ ∀ tables, fst (wfs_pages W fuel url layer crs b acc start st) = Ret tables →
        ∃ new, tables = acc ++ new
          ∧ (1 ≤ n)%nat ∧ (List.length new ≤ n)%nat ∧ (n ≤ S (List.length new))%nat
          ∧ (∀ i g, new !! i = Some g → (S i < n)%nat → count ≤ gdf_len g)
          ∧ (List.length new = n → ∃ g, last new = Some g ∧ gdf_len g < count).
Proof.
  revert acc start st. induction fuel as [|fuel IH]; intros acc start st.
  - exists 0%nat. simpl. rewrite after_requests_nil.
    split; [lia|]. split; [reflexivity|]. split; [reflexivity|]. intros tables [=].
  - rewrite wfs_pages_round.
    destruct (http_get W (requests st) (page_request start)) as [r|f].
    + destruct (status_code r =? 200).
      * destruct (read_page W r) as [e|g].
        -- exists 1%nat. simpl. split; [lia|]. split; [reflexivity|].
           split; intros; discriminate.
        -- destruct (gdf_len g <? count) eqn:Hlen.
           ++ exists 1%nat. simpl. split; [lia|]. split; [reflexivity|].
              split; [intros [=]|]. intros tables [= <-]. exists [g].
              split; [reflexivity|]. simpl. split; [lia|]. split; [lia|]. split; [lia|].
              split; [intros i g0 _ Hi; lia|].
              intros _. exists g. split; [reflexivity|]. apply Z.ltb_lt, Hlen.
           ++ destruct (IH (acc ++ [g]) (start + count)
                          (after_requests st [page_request start]))
                as (n & Hn & Hst & Hfuel & Hret).
              exists (S n). split; [lia|]. split.
              { rewrite Hst, after_requests_app. reflexivity. }
              split; [intros Ho; rewrite (Hfuel Ho); reflexivity|].
              intros tables Ht. destruct (Hret tables Ht)
                as (new & -> & Hn1 & Hle & Hge & Hfull & Hlast).
              exists (g :: new). split; [rewrite <- app_assoc; reflexivity|].
              simpl. split; [lia|]. split; [lia|]. split; [lia|]. split.
              ** intros [|i] g0 Hi Hlt; simpl in Hi.
                 --- injection Hi as <-. apply Z.ltb_ge, Hlen.
                 --- apply (Hfull i g0 Hi). lia.
              ** intros Hlen'. destruct (Hlast ltac:(lia)) as (g0 & Hg0 & Hshort).
                 exists g0. split; [|exact Hshort].
                 destruct new as [|g1 new]; [discriminate Hg0|exact Hg0].
      * exists 1%nat. simpl. split; [lia|]. split; [reflexivity|].
        split; [intros [=]|]. intros tables [= <-]. exists [].
        split; [rewrite app_nil_r; reflexivity|]. simpl.
        split; [lia|]. split; [lia|]. split; [lia|].
        split; [intros i g Hi; discriminate Hi|intros Hc; discriminate Hc].
    + exists 1%nat. simpl. split; [lia|]. split; [reflexivity|].
      split; intros; discriminate.
Qed.

(** X7. Whatever the server does and however the loop ends, the requests of
    the loop are page requests for consecutive multiples of 1000 from the
    start index on, at most as many as there is fuel, and nothing else of
    the state changes.  When the loop returns, it has made a request, it
    returns one table for each request but possibly the last (which then
    had a status other than 200), and every table but the one of the last
    request has at least 1000 rows. *)
Theorem wfs_pages_requests_shape (fuel : nat) (st : State C) :
  ∃ n, (n ≤ fuel)%nat
    ∧ snd (wfs_pages W fuel url layer crs b [] 0 st)
      = after_requests st (page_requests 0 n)
    ∧ (∀ i, (i < n)%nat →
         page_requests 0 n !! i
         = Some (getfeature_request url layer crs b (1000 * Z.of_nat i)))
    ∧ ∀ tables, fst (wfs_pages W fuel url layer crs b [] 0 st) = Ret tables →
        (1 ≤ n)%nat ∧ (List.length tables ≤ n)%nat ∧ (n ≤ S (List.length tables))%nat
        ∧ (∀ i g, tables !! i = Some g → (S i < n)%nat → 1000 ≤ gdf_len g)
        ∧ (List.length tables = n → ∃ g, last tables = Some g ∧ gdf_len g < 1000).
Proof.
  destruct (wfs_pages_shape fuel [] 0 st) as (n & Hn & Hst & _ & Hret).
  exists n. split; [exact Hn|]. split; [exact Hst|]. split.
  - intros i Hi. rewrite (page_requests_lookup url layer crs b 0 n i Hi). reflexivity.
  - intros tables Ht. destruct (Hret tables Ht) as (new & -> & Hrest). exact Hrest.
Qed.

(** The round of the loop on a request that fails. *)
Lemma wfs_pages_failed_page (fuel : nat) (acc : list GeoDataFrame) (start : Z)
    (st : State C) (e : Exn) :
  page_fails W url layer crs b (requests st) start e →
  wfs_pages W (S fuel) url layer crs b acc start st
  = (Raise e, after_requests st [page_request start]).
Proof.
  intros Hfail. rewrite wfs_pages_round.
  destruct Hfail as [(f & -> & ->)|(r & -> & -> & ->)]; reflexivity.
Qed.

(** A server that answers every page request with a table of at least
    1000 rows keeps the loop going: whatever the fuel, the loop uses it
    up, one request for each unit. *)
Lemma wfs_pages_endless (fuel : nat) (acc : list GeoDataFrame) (start : Z)
    (st : State C) :
  (∀ log start', ∃ r g,
      http_get W log (page_request start') = Responded r
      ∧ status_code r = 200 ∧ read_page W r = inr g ∧ count ≤ gdf_len g) →
  wfs_pages W fuel url layer crs b acc start st
  = (OutOfFuel, after_requests st (page_requests start fuel)).
Proof.
  intros Hserver. revert acc start st.
  induction fuel as [|fuel IH]; intros acc start st.
  - simpl. rewrite after_requests_nil. reflexivity.
  - rewrite wfs_pages_round.
    destruct (Hserver (requests st) start) as (r & g & -> & -> & -> & Hlen).
    simpl. apply Z.ltb_ge in Hlen. rewrite Hlen, IH, after_requests_app. reflexivity.
Qed.

End AnyServer.

Section PageFailures.

Context {C : Type} `{Coord C}.
Variable W : World C.


(** X8. On a server without end of pages the processing of a WFS layer does
    not return within any bound on the rounds of its loop. *)
Theorem layer_body_endless (fuel : nat) (dataset : Dataset)
    (preferred_crs layer : string) (v : Vars C) (st : State C) :
  ds_type dataset = "WFS" →
  (∀ log start, ∃ r g,
      http_get W log
        (page_request (ds_url dataset) layer preferred_crs (working_box v) start)
      = Responded r
      ∧ status_code r = 200 ∧ read_page W r = inr g ∧ count ≤ gdf_len g) →
  layer_body W fuel dataset preferred_crs layer v st
  = (OutOfFuel,
     after_requests st
       (page_requests (ds_url dataset) layer preferred_crs (working_box v) 0 fuel)).
Proof.
  intros Hty Hserver. unfold layer_body.
  destruct (decide (ds_type dataset = "WFS")); [|contradiction].
  unfold bind at 1.
  rewrite (wfs_pages_endless W _ _ _ _ fuel [] 0 st Hserver). reflexivity.
Qed.

End PageFailures.


(** The layer [ns:roads] of the service that always answers a full page. *)
Lemma layer_body_endless_witness :
  fst (layer_body Outage.endless_world 25 Sample.ds_rd urn_28992 "ns:roads"
         Sample.rd_vars Sample.st0) = OutOfFuel.
Proof.
  rewrite (layer_body_endless Outage.endless_world 25 Sample.ds_rd urn_28992 "ns:roads"
             Sample.rd_vars Sample.st0).
  - reflexivity.
  - reflexivity.
  - intros log start. exists (mkResponse 200 [] "full"), (Sample.page "EPSG:4326" 0 1000).
    split; [reflexivity|]. split; [reflexivity|]. split; [reflexivity|].
    vm_compute. discriminate.
Defined.

(** ** Runs that end in a state with a property *)

Section Ends.

Context {C : Type}.

Lemma ends_ret {A} (a : A) (st : State C) (Q : A → State C → Prop) (E : State C → Prop) :
  Q a st → ends (ret a) st Q E.
Proof. intros HQ. exact HQ. Qed.

Lemma ends_bind {A B} (m : M C A) (k : A → M C B) (st : State C)
    (Q : B → State C → Prop) (E : State C → Prop) :
  ends m st (λ a st', ends (k a) st' Q E) E → ends (bind m k) st Q E.
Proof.
  unfold ends, bind. destruct (m st) as [[a|e|] st']; intros Hm; exact Hm.
Qed.

Lemma ends_mono {A} (m : M C A) (st : State C) (Q Q' : A → State C → Prop)
    (E E' : State C → Prop) :
  ends m st Q E → (∀ a st', Q a st' → Q' a st') → (∀ st', E st' → E' st') →
  ends m st Q' E'.
Proof.
  unfold ends. destruct (m st) as [[a|e|] st']; intros Hm HQ HE; auto.
Qed.

(** A loop ends with [I] when [I] holds at the start and every round on
    an element of the list hands it on; it ends with [E] when a round
    does not return. *)
Lemma ends_for_each {A S} (I : S → State C → Prop) (E : State C → Prop)
    (l : list A) (body : A → S → M C S) (s : S) (st : State C) :
  I s st →
  (∀ x, x ∈ l → ∀ s st, I s st → ends (body x s) st I E) →
  ends (for_each l body s) st I E.
Proof.
  revert s st. induction l as [|x l IH]; intros s st Hs Hbody.
  - exact Hs.
  - simpl. apply ends_bind.
    eapply ends_mono; [apply (Hbody x (list_elem_of_here x l) s st Hs)| |auto].
    intros s' st' Hs'. apply IH; [exact Hs'|].
    intros y Hy. apply Hbody. apply list_elem_of_further, Hy.
Qed.

Lemma for_each_app {A S} (l1 l2 : list A) (body : A → S → M C S) (s : S) (st : State C) :
  for_each (l1 ++ l2) body s st = bind (for_each l1 body s) (for_each l2 body) st.
Proof.
  revert s st. induction l1 as [|x l1 IH]; intros s st; [reflexivity|].
  simpl. unfold bind. destruct (body x s st) as [[s'|e|] st']; [|reflexivity..].
  rewrite IH. unfold bind. reflexivity.
Qed.

End Ends.

(** ** The extent and the entries of a dataset *)

Section Extents.

Context {C : Type} `{Coord C}.
Variable W : World C.

Lemma ends_run {A} (m : M C A) (st : State C) (Q : A → State C → Prop)
    (E : State C → Prop) (o : Outcome A) (st' : State C) :
  ends m st Q E → m st = (o, st') →
  match o with Ret a => Q a st' | _ => E st' end.
Proof. unfold ends. intros Hm Hrun. rewrite Hrun in Hm. exact Hm. Qed.

Lemma entries_from_refl (d : Dataset) (layers : list string) (b : BBox C)
    (m : gmap string LayerResult) : entries_from d layers b m m.
Proof. intros k r Hk. left. exact Hk. Qed.

Lemma entries_from_insert (d : Dataset) (layer : string) (b : BBox C)
    (m : gmap string LayerResult) (r : LayerResult) :
  entry_of d layer b r → entries_from d [layer] b m (<[layer := r]> m).
Proof.
  intros Hr k r' Hk. destruct (decide (layer = k)) as [<-|Hne].
  - rewrite lookup_insert_eq in Hk. injection Hk as <-. right.
    split; [apply list_elem_of_here|exact Hr].
  - rewrite lookup_insert_ne in Hk by exact Hne. left. exact Hk.
Qed.

(** The processing of one layer: the working extent stays, the requests
    are page requests for that extent, and at most the entry of the layer
    is set. *)
Lemma layer_body_ends (fuel : nat) (d : Dataset) (crs layer : string) (v : Vars C)
    (st : State C) :
  ends (layer_body W fuel d crs layer v) st
    (λ v' st', working_box v' = working_box v
               ∧ only_pages (ds_url d) crs (working_box v) st st'
               ∧ entries_from d [layer] (working_box v) (results v) (results v'))
    (λ st', only_pages (ds_url d) crs (working_box v) st st').
Proof.
  unfold ends. pose proof (layer_body_only_pages W fuel d crs layer v st) as Hp.
  destruct (layer_body W fuel d crs layer v st) as [[v'|e|] st'] eqn:Hrun;
    simpl in Hp; [|exact Hp..].
  split; [eapply layer_body_working_box; exact Hrun|]. split; [exact Hp|].
  unfold layer_body in Hrun. destruct (decide (ds_type d = "WFS")) as [Hwfs|Hwfs].
  - unfold bind at 1 in Hrun.
    destruct (wfs_pages W fuel (ds_url d) layer crs (working_box v) [] 0 st)
      as [[[|g gs]|e|] st1]; try discriminate.
    + injection Hrun as <- _. apply entries_from_refl.
    + unfold bind, to_file, ret in Hrun. injection Hrun as <- _.
      apply entries_from_insert. left. split; [exact Hwfs|]. eexists. reflexivity.
  - destruct (decide (ds_type d = "WMS")) as [Hwms|Hwms]; injection Hrun as <- _.
    + apply entries_from_insert. right. split; [exact Hwms|reflexivity].
    + apply entries_from_refl.
Qed.

(** The processing of the layers of a dataset. *)
Lemma layers_ends (fuel : nat) (d : Dataset) (crs : string) (layers : list string)
    (v : Vars C) (st : State C) :
  ends (for_each layers (layer_body W fuel d crs) v) st
    (λ v' st', working_box v' = working_box v
               ∧ only_pages (ds_url d) crs (working_box v) st st'
               ∧ entries_from d layers (working_box v) (results v) (results v'))
    (λ st', only_pages (ds_url d) crs (working_box v) st st').
Proof.
  apply (ends_for_each
           (λ v' st', working_box v' = working_box v
                      ∧ only_pages (ds_url d) crs (working_box v) st st'
                      ∧ entries_from d layers (working_box v) (results v) (results v'))).
  - split; [reflexivity|]. split; [apply only_pages_refl|apply entries_from_refl].
  - intros layer Hlayer s st1 (Hbox & Hp & Hent).
    eapply ends_mono; [apply layer_body_ends| |].
    + intros v' st2 (Hbox' & Hp' & Hent'). rewrite Hbox in *.
      split; [exact Hbox'|]. split; [eapply only_pages_trans; eassumption|].
      intros k r Hk. destruct (Hent' k r Hk) as [Hold|[Hin Hr]]; [auto|].
      right. apply list_elem_of_singleton in Hin as ->. auto.
    + intros st2 Hp'. rewrite Hbox in Hp'. eapply only_pages_trans; eassumption.
Qed.

(** The rest of the body of the dataset loop, by the working extent [b']
    that it uses from the state [st2] on: the extent it finds when the
    service does not offer EPSG:28992, the transformed box of the caller
    when it does. *)
Lemma dataset_rest_ends (fuel : nat) (dataset_layers : gmap string (list string))
    (bbox : Ref) (d : Dataset) (s : gset string) (v : Vars C) (st1 : State C) :
  let layers := default [] (dataset_layers !! ds_name d) in
  let crs := preferred_crs_of (select_to_epsg s) in
  let chosen (b' : BBox C) (st2 : State C) :=
    ((urn_28992 ∉ s) ∧ b' = working_box v ∧ st2 = st1)
    ∨ (urn_28992 ∈ s ∧ transform_bbox W (objects st1 bbox) 4326 28992 = inr b'
       ∧ st2 = after_transform st1 (objects st1 bbox) 28992) in
  ends (dataset_rest W fuel dataset_layers bbox d s v) st1
    (λ v' st', ∃ b' st2, chosen b' st2 ∧ working_box v' = b'
               ∧ only_pages (ds_url d) crs b' st2 st'
               ∧ entries_from d layers b' (results v) (results v'))
    (λ st', (urn_28992 ∈ s ∧ st' = after_transform st1 (objects st1 bbox) 28992
             ∧ ∃ e, transform_bbox W (objects st1 bbox) 4326 28992 = inl e)
            ∨ ∃ b' st2, chosen b' st2 ∧ only_pages (ds_url d) crs b' st2 st').
Proof.
  intros layers crs chosen. unfold dataset_rest. fold layers. fold crs. subst crs.
  destruct (select_to_epsg_cases s) as [[Hin He]|[Hout He]]; rewrite He.
  - destruct (decide (28992 ≠ 4326)) as [_|Hne]; [|exfalso; apply Hne; lia].
    unfold ends. rewrite load_transform_bind.
    destruct (transform_bbox W (objects st1 bbox) 4326 28992) as [e|t] eqn:Ht.
    + left. split; [exact Hin|]. split; [reflexivity|]. eauto.
    + assert (Hbox : working_box (set_box v t) = t).
      { destruct t as [[[a b0] c] d0]. reflexivity. }
      assert (Hres : results (set_box v t) = results v).
      { destruct t as [[[a b0] c] d0]. reflexivity. }
      pose proof (layers_ends fuel d (preferred_crs_of 28992) layers (set_box v t)
                    (after_transform st1 (objects st1 bbox) 28992)) as Hl.
      unfold ends in Hl. rewrite Hbox, Hres in Hl.
      destruct (for_each layers _ (set_box v t) _) as [[v'|e|] st'].
      * destruct Hl as (Hb & Hp & Hent). exists t, (after_transform st1 (objects st1 bbox) 28992).
        split; [right; auto|]. auto.
      * right. exists t, (after_transform st1 (objects st1 bbox) 28992).
        split; [right; auto|exact Hl].
      * right. exists t, (after_transform st1 (objects st1 bbox) 28992).
        split; [right; auto|exact Hl].
  - destruct (decide (4326 ≠ 4326)) as [Hne|_]; [exfalso; apply Hne; reflexivity|].
    unfold ends. rewrite bind_ret.
    pose proof (layers_ends fuel d (preferred_crs_of 4326) layers v st1) as Hl.
    unfold ends in Hl.
    destruct (for_each layers _ v st1) as [[v'|e|] st'].
    + destruct Hl as (Hb & Hp & Hent). exists (working_box v), st1.
      split; [left; auto|]. auto.
    + right. exists (working_box v), st1. split; [left; auto|exact Hl].
    + right. exists (working_box v), st1. split; [left; auto|exact Hl].
Qed.

(** X14. The extent that a selected dataset works with.  When its service does
    not offer EPSG:28992, every GetFeature request and every GetMap URL of
    the dataset carries the working extent that the loop arrives with
    (whatever the datasets before have left there), and the loop goes on
    with it.  When the service offers EPSG:28992 and the transformation of
    the caller's box gives [t], they carry [t], and the loop goes on with
    [t]. *)
Theorem dataset_body_extent (fuel : nat) (selected : list string)
    (dataset_layers : gmap string (list string)) (bbox : Ref) (d : Dataset)
    (v : Vars C) (st : State C) (o : Outcome (Vars C)) (st' : State C) :
  ds_name d ∈ selected →
  dataset_body W fuel selected dataset_layers bbox d v st = (o, st') →
  ∃ s, fst (get_supported_crs W (ds_url d) st) = Ret s
    ∧ ((urn_28992 ∉ s) →
       only_pages (ds_url d) (preferred_crs_of 4326) (working_box v)
         (after_requests st [crs_request (ds_url d)]) st'
       ∧ ∀ v', o = Ret v' →
           working_box v' = working_box v
           ∧ entries_from d (default [] (dataset_layers !! ds_name d)) (working_box v)
               (results v) (results v'))
    ∧ (urn_28992 ∈ s →
       ∀ t, transform_bbox W (objects st bbox) 4326 28992 = inr t →
         only_pages (ds_url d) (preferred_crs_of 28992) t
           (after_transform (after_requests st [crs_request (ds_url d)])
              (objects st bbox) 28992) st'
         ∧ ∀ v', o = Ret v' →
             working_box v' = t
             ∧ entries_from d (default [] (dataset_layers !! ds_name d)) t
                 (results v) (results v')).
Proof.
  intros Hsel Hrun.
  destruct (dataset_body_selected W fuel selected dataset_layers bbox d v st Hsel)
    as (s & Hs & Hbody).
  exists s. split; [rewrite Hs; reflexivity|]. rewrite Hbody in Hrun.
  pose proof (ends_run _ _ _ _ _ _
                (dataset_rest_ends fuel dataset_layers bbox d s v
                   (after_requests st [crs_request (ds_url d)])) Hrun) as Hend.
  simpl in Hend. split.
  - intros Hout. destruct (select_to_epsg_cases s) as [[Hin _]|[_ He]]; [contradiction|].
    rewrite He in Hend. destruct o as [v'|e|].
    + destruct Hend as (b' & st2 & [(_ & -> & ->)|(Hin & _)] & Hb & Hp & Hent);
        [|contradiction].
      split; [exact Hp|]. intros v'' [= <-]. auto.
    + destruct Hend as [(Hin & _)|(b' & st2 & [(_ & -> & ->)|(Hin & _)] & Hp)];
        try contradiction.
      split; [exact Hp|]. intros v'' [=].
    + destruct Hend as [(Hin & _)|(b' & st2 & [(_ & -> & ->)|(Hin & _)] & Hp)];
        try contradiction.
      split; [exact Hp|]. intros v'' [=].
  - intros Hin t Ht. destruct (select_to_epsg_cases s) as [[_ He]|[Hout _]]; [|contradiction].
    rewrite He in Hend. destruct o as [v'|e|].
    + destruct Hend as (b' & st2 & [(Hout & _)|(_ & Ht' & ->)] & Hb & Hp & Hent);
        [contradiction|].
      simpl in Ht'. rewrite Ht in Ht'. injection Ht' as <-.
      split; [exact Hp|]. intros v'' [= <-]. auto.
    + destruct Hend as [(_ & _ & e' & He')|(b' & st2 & [(Hout & _)|(_ & Ht' & ->)] & Hp)];
        try contradiction.
      * simpl in He'. rewrite Ht in He'. discriminate He'.
      * simpl in Ht'. rewrite Ht in Ht'. injection Ht' as <-.
        split; [exact Hp|]. intros v'' [=].
    + destruct Hend as [(_ & _ & e' & He')|(b' & st2 & [(Hout & _)|(_ & Ht' & ->)] & Hp)];
        try contradiction.
      * simpl in He'. rewrite Ht in He'. discriminate He'.
      * simpl in Ht'. rewrite Ht in Ht'. injection Ht' as <-.
        split; [exact Hp|]. intros v'' [=].
Qed.

End Extents.

(** The service without EPSG:28992, reached with the extent that an
    earlier dataset has left in EPSG:28992. *)
Lemma dataset_body_extent_witness :
  ∃ v' st',
    dataset_body Sample.world 10 ["rd"; "plain"] {[ "plain" := ["ns:parks"] ]} 0%nat
      Sample.ds_plain Sample.rd_vars Sample.st0 = (Ret v', st')
    ∧ working_box v' = Sample.rd_box.
Proof.
  destruct (dataset_body Sample.world 10 ["rd"; "plain"] {[ "plain" := ["ns:parks"] ]}
              0%nat Sample.ds_plain Sample.rd_vars Sample.st0) as [o st'] eqn:Hrun.
  assert (Ho : ∃ v', o = Ret v').
  { pose proof (f_equal fst Hrun) as Hf. vm_compute in Hf. eexists. symmetry. exact Hf. }
  destruct Ho as [v' ->]. exists v', st'. split; [reflexivity|].
  destruct (dataset_body_extent Sample.world 10 ["rd"; "plain"]
              {[ "plain" := ["ns:parks"] ]} 0%nat Sample.ds_plain Sample.rd_vars
              Sample.st0 (Ret v') st') as (s & Hs & Hout & _).
  - apply list_elem_of_further, list_elem_of_here.
  - exact Hrun.
  - change (Ret ({[ Sample.urn_4326 ]} ∪ ∅) = Ret s) in Hs. injection Hs as <-.
    destruct Hout as [_ Hret].
    + intros [Hc|Hc]%elem_of_union.
      * apply elem_of_singleton in Hc. discriminate Hc.
      * apply elem_of_empty in Hc. exact Hc.
    + apply (Hret v' eq_refl).
Defined.

(** ** The whole run *)

Section WholeRun.

Context {C : Type} `{Coord C}.
Variable W : World C.

Lemma fetch_geodata_unfold (fuel : nat) (selected : list string)
    (dataset_layers : gmap string (list string)) (datasets : list Dataset)
    (bbox : Ref) (st : State C) :
  fetch_geodata W fuel selected dataset_layers datasets bbox st
  = bind (for_each datasets (dataset_body W fuel selected dataset_layers bbox)
            (initial_vars (objects st bbox)))
         (λ v, ret (results v)) st.
Proof.
  unfold fetch_geodata, initial_vars, bind at 1, load.
  destruct (objects st bbox) as [[[x0 y0] x1] y1]. reflexivity.
Qed.

Lemma initial_vars_box (b : BBox C) : working_box (initial_vars b) = b.
Proof. destruct b as [[[x0 y0] x1] y1]. reflexivity. Qed.

Lemma initial_vars_results (b : BBox C) : results (initial_vars b) = ∅.
Proof. destruct b as [[[x0 y0] x1] y1]. reflexivity. Qed.

(** X16. Every entry of the dictionary that [fetch_geodata] returns is the
    entry of a layer that [dataset_layers] lists for a selected dataset
    of [datasets]: a WFS entry with the file name of the layer when the
    dataset has type WFS, the GetMap URL of the layer at the URL of the
    dataset (for some extent) when it has type WMS. *)
Theorem fetch_geodata_entries (fuel : nat) (selected : list string)
    (dataset_layers : gmap string (list string)) (datasets : list Dataset)
    (bbox : Ref) (st : State C) (res : gmap string LayerResult) :
  fst (fetch_geodata W fuel selected dataset_layers datasets bbox st) = Ret res →
  ∀ k r, res !! k = Some r →
    ∃ d b, d ∈ datasets ∧ ds_name d ∈ selected
           ∧ k ∈ default [] (dataset_layers !! ds_name d) ∧ entry_of d k b r.
Proof.
  rewrite fetch_geodata_unfold.
  pose (I := λ (v : Vars C) (_ : State C),
          ∀ k r, results v !! k = Some r →
            ∃ d b, d ∈ datasets ∧ ds_name d ∈ selected
                   ∧ k ∈ default [] (dataset_layers !! ds_name d) ∧ entry_of d k b r).
  assert (Hloop : ends (for_each datasets (dataset_body W fuel selected dataset_layers bbox)
                          (initial_vars (objects st bbox))) st I (λ _, True)).
  { apply ends_for_each.
    - intros k r Hk. rewrite initial_vars_results, lookup_empty in Hk. discriminate Hk.
    - intros d Hd v st1 Hv.
      destruct (decide (ds_name d ∈ selected)) as [Hsel|Hsel].
      + destruct (dataset_body_selected W fuel selected dataset_layers bbox d v st1 Hsel)
          as (s & _ & Hbody).
        unfold ends. rewrite Hbody.
        eapply ends_mono; [apply dataset_rest_ends| |auto].
        intros v' st' (b' & st2 & _ & _ & _ & Hent) k r Hk.
        destruct (Hent k r Hk) as [Hold|[Hin Hr]]; [apply Hv, Hold|].
        exists d, b'. auto.
      + unfold ends. rewrite dataset_body_not_selected by exact Hsel. exact Hv. }
  unfold ends in Hloop. unfold bind.
  destruct (for_each datasets _ (initial_vars (objects st bbox)) st) as [[v|e|] st'];
    try discriminate.
  simpl. intros [= <-]. exact Hloop.
Qed.

(** X19. When no dataset of [datasets] is selected, [fetch_geodata] returns
    the empty dictionary and does nothing: no request, no transform, no
    file. *)
Theorem fetch_geodata_nothing_selected (fuel : nat) (selected : list string)
    (dataset_layers : gmap string (list string)) (datasets : list Dataset)
    (bbox : Ref) (st : State C) :
  (∀ d, d ∈ datasets → ds_name d ∉ selected) →
  fetch_geodata W fuel selected dataset_layers datasets bbox st = (Ret ∅, st).
Proof.
  intros Hnone. rewrite fetch_geodata_unfold.
  assert (Hloop : ∀ v, for_each datasets (dataset_body W fuel selected dataset_layers bbox)
                         v st = (Ret v, st)).
  { induction datasets as [|d ds IH]; intros v; [reflexivity|].
    simpl. unfold bind. rewrite dataset_body_not_selected
      by (apply Hnone, list_elem_of_here).
    apply IH. intros d' Hd'. apply Hnone, list_elem_of_further, Hd'. }
  unfold bind. rewrite Hloop. unfold ret. rewrite initial_vars_results. reflexivity.
Qed.

(** X20. An exception raised while a dataset is processed ends [fetch_geodata]
    with that exception, in the state in which it was raised: the
    datasets after it are not processed and the entries collected from
    the datasets before it are not returned. *)
Theorem fetch_geodata_raises (fuel : nat) (selected : list string)
    (dataset_layers : gmap string (list string)) (before after : list Dataset)
    (d : Dataset) (bbox : Ref) (st st1 st2 : State C) (v1 : Vars C) (e : Exn) :
  for_each before (dataset_body W fuel selected dataset_layers bbox)
    (initial_vars (objects st bbox)) st = (Ret v1, st1) →
  dataset_body W fuel selected dataset_layers bbox d v1 st1 = (Raise e, st2) →
  fetch_geodata W fuel selected dataset_layers (before ++ d :: after) bbox st
  = (Raise e, st2).
Proof.
  intros Hbefore Hd. rewrite fetch_geodata_unfold. unfold bind at 1.
  rewrite for_each_app. unfold bind at 1. rewrite Hbefore. simpl.
  unfold bind at 1. rewrite Hd. reflexivity.
Qed.

End WholeRun.

Section PlainRuns.

Context {C : Type} `{Coord C}.
Variable W : World C.

Lemma plain_requests_refl (b : BBox C) (st : State C) : plain_requests b st st.
Proof.
  split; [reflexivity|]. exists []. split; [rewrite app_nil_r; reflexivity|].
  intros req Hreq. apply elem_of_nil in Hreq. contradiction.
Qed.

Lemma plain_requests_trans (b : BBox C) (st1 st2 st3 : State C) :
  plain_requests b st1 st2 → plain_requests b st2 st3 → plain_requests b st1 st3.
Proof.
  intros (Ht1 & l1 & Hr1 & Hl1) (Ht2 & l2 & Hr2 & Hl2).
  split; [congruence|]. exists (l1 ++ l2).
  split; [rewrite Hr2, Hr1, app_assoc; reflexivity|].
  intros req [Hreq|Hreq]%elem_of_app; auto.
Qed.

Lemma plain_requests_capabilities (b : BBox C) (st : State C) (url : string) :
  plain_requests b st (after_requests st [crs_request url]).
Proof.
  split; [reflexivity|]. exists [crs_request url]. split; [reflexivity|].
  intros req Hreq%list_elem_of_singleton. left. eauto.
Qed.

Lemma plain_requests_pages (b : BBox C) (url : string) (st st' : State C) :
  only_pages url (preferred_crs_of 4326) b st st' → plain_requests b st st'.
Proof.
  intros (Ht & _ & reqs & Hr & Hall). split; [exact Ht|]. exists reqs.
  split; [exact Hr|]. intros req Hreq. right.
  destruct (Hall req Hreq) as (layer & start & ->). eauto.
Qed.

(** X18. When no service offers EPSG:28992, [fetch_geodata] makes no transform
    call, every GetFeature request names EPSG:4326 and carries the box of
    the caller, and every entry returned is the entry of a layer of a
    selected dataset for the box of the caller: the GetMap URLs carry the
    caller's box. *)
Theorem fetch_geodata_without_28992 (fuel : nat) (selected : list string)
    (dataset_layers : gmap string (list string)) (datasets : list Dataset)
    (bbox : Ref) (st : State C) (o : Outcome (gmap string LayerResult))
    (st' : State C) :
  (∀ st1 url s, fst (get_supported_crs W url st1) = Ret s → urn_28992 ∉ s) →
  fetch_geodata W fuel selected dataset_layers datasets bbox st = (o, st') →
  plain_requests (objects st bbox) st st'
  ∧ ∀ res, o = Ret res →
      ∀ k r, res !! k = Some r →
        ∃ d, d ∈ datasets ∧ ds_name d ∈ selected ∧ entry_of d k (objects st bbox) r.
Proof.
  intros Hno. rewrite fetch_geodata_unfold.
  set (b0 := objects st bbox).
  pose (I := λ (v : Vars C) (st1 : State C),
          working_box v = b0 ∧ plain_requests b0 st st1
          ∧ ∀ k r, results v !! k = Some r →
              ∃ d, d ∈ datasets ∧ ds_name d ∈ selected ∧ entry_of d k b0 r).
  assert (Hloop : ends (for_each datasets (dataset_body W fuel selected dataset_layers bbox)
                          (initial_vars b0)) st I (plain_requests b0 st)).
  { apply ends_for_each.
    - split; [apply initial_vars_box|]. split; [apply plain_requests_refl|].
      intros k r Hk. rewrite initial_vars_results, lookup_empty in Hk. discriminate Hk.
    - intros d Hd v st1 (Hbox & Hreq & Hent).
      destruct (decide (ds_name d ∈ selected)) as [Hsel|Hsel].
      + destruct (dataset_body_selected W fuel selected dataset_layers bbox d v st1 Hsel)
          as (s & Hs & Hbody).
        assert (Hout : urn_28992 ∉ s).
        { apply (Hno st1 (ds_url d)). rewrite Hs. reflexivity. }
        assert (He : select_to_epsg s = 4326).
        { destruct (select_to_epsg_cases s) as [[Hin _]|[_ He]]; [contradiction|exact He]. }
        unfold ends. rewrite Hbody.
        eapply ends_mono; [apply dataset_rest_ends| |].
        * intros v' st2 (b' & st3 & [(_ & -> & ->)|(Hin & _)] & Hb & Hp & Hent');
            [|contradiction].
          rewrite He, Hbox in Hp. rewrite Hbox in Hb, Hent'.
          split; [exact Hb|]. split.
          { eapply plain_requests_trans; [exact Hreq|].
            eapply plain_requests_trans; [apply plain_requests_capabilities|].
            eapply plain_requests_pages. exact Hp. }
          intros k r Hk. destruct (Hent' k r Hk) as [Hold|[Hin Hr]]; [apply Hent, Hold|].
          exists d. auto.
        * intros st2 [(Hin & _)|(b' & st3 & [(_ & -> & ->)|(Hin & _)] & Hp)];
            try contradiction.
          rewrite He, Hbox in Hp.
          eapply plain_requests_trans; [exact Hreq|].
          eapply plain_requests_trans; [apply plain_requests_capabilities|].
          eapply plain_requests_pages. exact Hp.
      + unfold ends. rewrite dataset_body_not_selected by exact Hsel.
        split; [exact Hbox|]. split; [exact Hreq|exact Hent]. }
  unfold ends in Hloop. unfold bind.
  destruct (for_each datasets _ (initial_vars b0) st) as [[v|e|] st1].
  - simpl. intros [= <- <-]. destruct Hloop as (_ & Hreq & Hent).
    split; [exact Hreq|]. intros res [= <-]. exact Hent.
  - intros [= <- <-]. split; [exact Hloop|]. intros res [=].
  - intros [= <- <-]. split; [exact Hloop|]. intros res [=].
Qed.

End PlainRuns.

Section Files.

Context {C : Type} `{Coord C}.
Variable W : World C.

Lemma layer_body_files (fuel : nat) (d : Dataset) (crs layer : string) (v : Vars C)
    (st : State C) (name : string) :
  (ds_type d = "WFS" → name ≠ filename_of layer) →
  files (snd (layer_body W fuel d crs layer v st)) !! name = files st !! name.
Proof.
  intros Hname. unfold layer_body.
  destruct (decide (ds_type d = "WFS")) as [Hwfs|Hwfs].
  - unfold bind at 1.
    destruct (wfs_pages_shape W (ds_url d) layer crs (working_box v) fuel [] 0 st)
      as (n & _ & Hst & _).
    destruct (wfs_pages W fuel (ds_url d) layer crs (working_box v) [] 0 st)
      as [[[|g gs]|e|] st1]; simpl in Hst; subst st1; try reflexivity.
    unfold bind, to_file. simpl. apply lookup_insert_ne. intros Heq.
    apply (Hname Hwfs). symmetry. exact Heq.
  - destruct (decide (ds_type d = "WMS")); reflexivity.
Qed.

Lemma layers_files (fuel : nat) (d : Dataset) (crs : string) (layers : list string)
    (v : Vars C) (st : State C) (name : string) :
  (ds_type d = "WFS" → ∀ layer, layer ∈ layers → name ≠ filename_of layer) →
  files (snd (for_each layers (layer_body W fuel d crs) v st)) !! name = files st !! name.
Proof.
  revert v st. induction layers as [|layer layers IH]; intros v st Hname; [reflexivity|].
  simpl. unfold bind.
  pose proof (layer_body_files fuel d crs layer v st name
                (λ Hwfs, Hname Hwfs layer (list_elem_of_here _ _))) as Hstep.
  destruct (layer_body W fuel d crs layer v st) as [[v'|e|] st1]; simpl in Hstep;
    [|exact Hstep..].
  rewrite IH; [exact Hstep|]. intros Hwfs l Hl. apply Hname; [exact Hwfs|].
  apply list_elem_of_further, Hl.
Qed.

Lemma dataset_body_files (fuel : nat) (selected : list string)
    (dataset_layers : gmap string (list string)) (bbox : Ref) (d : Dataset)
    (v : Vars C) (st : State C) (name : string) :
  (ds_name d ∈ selected → ds_type d = "WFS" →
   ∀ layer, layer ∈ default [] (dataset_layers !! ds_name d) → name ≠ filename_of layer) →
  files (snd (dataset_body W fuel selected dataset_layers bbox d v st)) !! name
  = files st !! name.
Proof.
  intros Hname. destruct (decide (ds_name d ∈ selected)) as [Hsel|Hsel].
  - destruct (dataset_body_selected W fuel selected dataset_layers bbox d v st Hsel)
      as (s & _ & ->).
    unfold dataset_rest.
    destruct (decide (select_to_epsg s ≠ 4326)).
    + rewrite load_transform_bind.
      destruct (transform_bbox W _ 4326 (select_to_epsg s)) as [e|t]; [reflexivity|].
      rewrite layers_files by (intros Hwfs; apply Hname; assumption). reflexivity.
    + rewrite bind_ret.
      rewrite layers_files by (intros Hwfs; apply Hname; assumption). reflexivity.
  - rewrite dataset_body_not_selected by exact Hsel. reflexivity.
Qed.

(** X17. However [fetch_geodata] ends, the only files it may have written or
    overwritten are those named after the layers that [dataset_layers]
    lists for the selected datasets of type WFS; every other file is what
    it was. *)
Theorem fetch_geodata_files_frame (fuel : nat) (selected : list string)
    (dataset_layers : gmap string (list string)) (datasets : list Dataset)
    (bbox : Ref) (st : State C) (name : string) :
  (∀ layer, requested selected dataset_layers datasets "WFS" layer →
            name ≠ filename_of layer) →
  files (snd (fetch_geodata W fuel selected dataset_layers datasets bbox st)) !! name
  = files st !! name.
Proof.
  intros Hname. rewrite fetch_geodata_unfold.
  assert (Hloop : ∀ ds v st1, (∀ d, d ∈ ds → d ∈ datasets) →
            files (snd (for_each ds (dataset_body W fuel selected dataset_layers bbox)
                          v st1)) !! name = files st1 !! name).
  { induction ds as [|d ds IH]; intros v st1 Hsub; [reflexivity|].
    simpl. unfold bind.
    assert (Hstep : files (snd (dataset_body W fuel selected dataset_layers bbox d v st1))
                    !! name = files st1 !! name).
    { apply dataset_body_files. intros Hsel Hwfs layer Hlayer. apply Hname.
      exists d. split; [apply Hsub, list_elem_of_here|]. auto. }
    destruct (dataset_body W fuel selected dataset_layers bbox d v st1)
      as [[v'|e|] st2]; simpl in Hstep; [|exact Hstep..].
    rewrite IH; [exact Hstep|]. intros d' Hd'. apply Hsub, list_elem_of_further, Hd'. }
  specialize (Hloop datasets (initial_vars (objects st bbox)) st (λ d Hd, Hd)).
  unfold bind.
  destruct (for_each datasets _ (initial_vars (objects st bbox)) st) as [[v|e|] st1];
    exact Hloop.
Qed.

End Files.

(** ** Datasets that send no GetFeature request *)

Section QuietDatasets.

Context {C : Type} `{Coord C}.
Variable W : World C.

Lemma wms_layer_body (fuel : nat) (d : Dataset) (crs layer : string) (v : Vars C)
    (st : State C) :
  ds_type d = "WMS" →
  layer_body W fuel d crs layer v st
  = (Ret (set_result v layer (WMSResult (wms_url_of (ds_url d) layer (working_box v)))),
     st).
Proof.
  intros Hwms. unfold layer_body.
  destruct (decide (ds_type d = "WFS")) as [Hwfs|_]; [rewrite Hwms in Hwfs; discriminate|].
  destruct (decide (ds_type d = "WMS")); [reflexivity|contradiction].
Qed.

(** The layers of a WMS dataset are registered one after the other, each
    with the GetMap URL for the working extent; no request is sent and no
    file is written for them. *)
Theorem wms_layers_registered (fuel : nat) (d : Dataset) (crs : string)
    (layers : list string) (v : Vars C) (st : State C) :
  ds_type d = "WMS" →
  for_each layers (layer_body W fuel d crs) v st
  = (Ret (register_wms (ds_url d) layers v), st).
Proof.
  intros Hwms. revert v. induction layers as [|layer layers IH]; intros v; [reflexivity|].
  simpl. unfold bind. rewrite wms_layer_body by exact Hwms. rewrite IH. reflexivity.
Qed.

Lemma other_type_layers (fuel : nat) (d : Dataset) (crs : string)
    (layers : list string) (v : Vars C) (st : State C) :
  ds_type d ≠ "WFS" → ds_type d ≠ "WMS" →
  for_each layers (layer_body W fuel d crs) v st = (Ret v, st).
Proof.
  intros Hwfs Hwms. induction layers as [|layer layers IH]; [reflexivity|].
  simpl. unfold bind.
  assert (Hstep : layer_body W fuel d crs layer v st = (Ret v, st)).
  { unfold layer_body.
    destruct (decide (ds_type d = "WFS")); [contradiction|].
    destruct (decide (ds_type d = "WMS")); [contradiction|reflexivity]. }
  rewrite Hstep. exact IH.
Qed.

(** X13. A selected dataset for which [dataset_layers] has no entry or an
    empty list, or whose type is neither "WFS" nor "WMS" to the letter
    (such as "wms"), gets no entry and no file; its capabilities are
    requested all the same, and that is the only request. *)
Theorem dataset_body_nothing_to_fetch (fuel : nat) (selected : list string)
    (dataset_layers : gmap string (list string)) (bbox : Ref) (d : Dataset)
    (v : Vars C) (st : State C) (o : Outcome (Vars C)) (st' : State C) :
  ds_name d ∈ selected →
  default [] (dataset_layers !! ds_name d) = []
  ∨ (ds_type d ≠ "WFS" ∧ ds_type d ≠ "WMS") →
  dataset_body W fuel selected dataset_layers bbox d v st = (o, st') →
  requests st' = requests st ++ [crs_request (ds_url d)]
  ∧ files st' = files st
  ∧ ∀ v', o = Ret v' → results v' = results v.
Proof.
  intros Hsel Hquiet.
  destruct (dataset_body_selected W fuel selected dataset_layers bbox d v st Hsel)
    as (s & _ & ->).
  unfold dataset_rest.
  assert (Hlayers : ∀ crs v1 st1,
            for_each (default [] (dataset_layers !! ds_name d))
              (layer_body W fuel d crs) v1 st1 = (Ret v1, st1)).
  { intros crs v1 st1. destruct Hquiet as [->|[Hwfs Hwms]]; [reflexivity|].
    apply other_type_layers; assumption. }
  destruct (decide (select_to_epsg s ≠ 4326)).
  - rewrite load_transform_bind.
    destruct (transform_bbox W _ 4326 (select_to_epsg s)) as [e|t].
    + intros [= <- <-]. simpl. split; [reflexivity|]. split; [reflexivity|].
      intros v' [=].
    + rewrite Hlayers. intros [= <- <-]. simpl. split; [reflexivity|].
      split; [reflexivity|]. intros v' [= <-].
      destruct t as [[[x0 y0] x1] y1]. reflexivity.
  - rewrite bind_ret, Hlayers. intros [= <- <-]. simpl. split; [reflexivity|].
    split; [reflexivity|]. intros v' [= <-]. reflexivity.
Qed.

(** X15. When the service of a selected dataset offers EPSG:28992 and
    [pyproj] does not know one of the codes 4326 and 28992, the
    processing of the dataset raises the CRS error right after the
    capabilities request and the call of [transform_bbox]: no GetFeature
    request is sent, whether the dataset has layers or not. *)
Theorem dataset_body_unknown_crs (fuel : nat) (selected : list string)
    (dataset_layers : gmap string (list string)) (bbox : Ref) (d : Dataset)
    (v : Vars C) (st : State C) (supported : gset string) :
  ds_name d ∈ selected →
  fst (get_supported_crs W (ds_url d) st) = Ret supported →
  urn_28992 ∈ supported →
  epsg_known W 4326 = false ∨ epsg_known W 28992 = false →
  dataset_body W fuel selected dataset_layers bbox d v st
  = (Raise CRSError,
     after_transform (after_requests st [crs_request (ds_url d)]) (objects st bbox) 28992).
Proof.
  intros Hsel Hsup Hin Hk.
  destruct (dataset_body_selected W fuel selected dataset_layers bbox d v st Hsel)
    as (s & Hs & ->).
  rewrite Hs in Hsup. injection Hsup as ->. unfold dataset_rest.
  destruct (select_to_epsg_cases supported) as [[_ He]|[Hout _]]; [|contradiction].
  rewrite He. destruct (decide (28992 ≠ 4326)) as [_|Hne]; [|exfalso; apply Hne; lia].
  rewrite load_transform_bind, (transform_bbox_unknown W _ _ _ Hk). reflexivity.
Qed.

End QuietDatasets.

(** ** The dictionary of layers that [map.py] builds *)

Section CallerProperties.

Context {C : Type} `{Coord C}.
Variable W : World C.

Lemma get_all_dataset_layers_loop (datasets : list Dataset)
    (acc : gmap string (list (option string))) (st : State C) :
  ∃ m,
    for_each datasets
      (λ dataset acc,
         let* layers := get_capabilities_layers W (ds_url dataset) (ds_type dataset) in
         ret (<[ds_name dataset := layers]> acc)) acc st
    = (Ret m,
       after_requests st
         (map (λ d, layers_request (ds_url d) (ds_type d)) datasets))
    ∧ (∀ name, is_Some (m !! name)
               ↔ is_Some (acc !! name) ∨ ∃ d, d ∈ datasets ∧ ds_name d = name)
    ∧ ((∀ log req, ∃ f, http_get W log req = Failed f) →
       ∀ name l, m !! name = Some l → acc !! name = Some l ∨ l = []).
Proof.
  revert acc st. induction datasets as [|d ds IH]; intros acc st.
  - exists acc. simpl. rewrite after_requests_nil. split; [reflexivity|]. split.
    + intros name. split; [auto|]. intros [Hs|(d & Hd & _)]; [exact Hs|].
      apply elem_of_nil in Hd. contradiction.
    + intros _ name l Hl. left. exact Hl.
  - destruct (get_capabilities_layers_spec W (ds_url d) (ds_type d) st) as [l Hl].
    destruct (IH (<[ds_name d := l]> acc)
                (after_requests st [layers_request (ds_url d) (ds_type d)]))
      as (m & Hrun & Hdom & Hfail).
    exists m. split; [|split].
    + simpl. unfold bind at 1. unfold bind at 1. rewrite Hl. unfold ret at 1.
      rewrite Hrun, after_requests_app. reflexivity.
    + intros name. rewrite Hdom. split.
      * intros [Hs|(d' & Hd' & Hn)].
        -- destruct (decide (ds_name d = name)) as [Heq|Hne].
           ++ right. exists d. split; [apply list_elem_of_here|exact Heq].
           ++ rewrite lookup_insert_ne in Hs by exact Hne. left. exact Hs.
        -- right. exists d'. split; [apply list_elem_of_further, Hd'|exact Hn].
      * intros [Hs|(d' & Hd' & Hn)].
        -- left. destruct (decide (ds_name d = name)) as [<-|Hne].
           ++ rewrite lookup_insert_eq. eauto.
           ++ rewrite lookup_insert_ne by exact Hne. exact Hs.
        -- apply elem_of_cons in Hd' as [->|Hd'].
           ++ left. rewrite <- Hn, lookup_insert_eq. eauto.
           ++ right. eauto.
    + intros Hoff name l' Hm.
      assert (Hl' : l = []).
      { destruct (Hoff (requests st) (layers_request (ds_url d) (ds_type d))) as [f Hf].
        unfold get_capabilities_layers, try_except, bind, requests_get in Hl.
        fold (layers_request (ds_url d) (ds_type d)) in Hl. rewrite Hf in Hl.
        simpl in Hl. injection Hl as <-. reflexivity. }
      subst l. destruct (Hfail Hoff name l' Hm) as [Hacc|Hnil]; [|auto].
      destruct (decide (ds_name d = name)) as [<-|Hne].
      * rewrite lookup_insert_eq in Hacc. injection Hacc as <-. auto.
      * rewrite lookup_insert_ne in Hacc by exact Hne. auto.
Qed.

(** X21. [get_all_dataset_layers] returns a dictionary with exactly the names
    of the datasets as keys, after one capabilities request for each
    dataset, in the order of the list, and nothing else; when no service
    can be reached, every dataset gets the empty list. *)
Theorem get_all_dataset_layers_keys (datasets : list Dataset) (st : State C) :
  ∃ m,
    get_all_dataset_layers W datasets st
    = (Ret m,
       after_requests st (map (λ d, layers_request (ds_url d) (ds_type d)) datasets))
    ∧ (∀ name, is_Some (m !! name) ↔ ∃ d, d ∈ datasets ∧ ds_name d = name)
    ∧ ((∀ log req, ∃ f, http_get W log req = Failed f) →
       ∀ d, d ∈ datasets → m !! ds_name d = Some []).
Proof.
  destruct (get_all_dataset_layers_loop datasets ∅ st) as (m & Hrun & Hdom & Hfail).
  exists m. split; [exact Hrun|]. split.
  - intros name. rewrite Hdom. split; [|auto].
    intros [Hs|Hd]; [|exact Hd]. rewrite lookup_empty in Hs. destruct Hs as [x Hx].
    discriminate Hx.
  - intros Hoff d Hd.
    assert (Hsome : is_Some (m !! ds_name d)) by (apply Hdom; right; eauto).
    destruct Hsome as [l Hl]. rewrite Hl.
    destruct (Hfail Hoff (ds_name d) l Hl) as [Hacc| ->]; [|reflexivity].
    rewrite lookup_empty in Hacc. discriminate Hacc.
Qed.

End CallerProperties.

(** ** The services that a run contacts *)

Section Contacts.

Context {C : Type} `{Coord C}.
Variable W : World C.

Lemma contacts_refl (allowed : Request → Prop) (st : State C) : contacts allowed st st.
Proof.
  exists []. split; [rewrite app_nil_r; reflexivity|].
  intros req Hreq. apply elem_of_nil in Hreq. contradiction.
Qed.

Lemma contacts_trans (allowed : Request → Prop) (st1 st2 st3 : State C) :
  contacts allowed st1 st2 → contacts allowed st2 st3 → contacts allowed st1 st3.
Proof.
  intros (l1 & Hr1 & Hl1) (l2 & Hr2 & Hl2). exists (l1 ++ l2).
  split; [rewrite Hr2, Hr1, app_assoc; reflexivity|].
  intros req [Hreq|Hreq]%elem_of_app; auto.
Qed.

Lemma contacts_transform (allowed : Request → Prop) (st : State C) (b : BBox C)
    (to_epsg : Z) :
  contacts allowed st (after_transform st b to_epsg).
Proof.
  exists []. split; [simpl; rewrite app_nil_r; reflexivity|].
  intros req Hreq. apply elem_of_nil in Hreq. contradiction.
Qed.

Lemma page_requests_elem (url layer crs : string) (b : BBox C) (start : Z) (n : nat)
    (req : Request) :
  req ∈ page_requests url layer crs b start n →
  ∃ s, req = getfeature_request url layer crs b s.
Proof.
  revert start. induction n as [|n IH]; intros start Hin; simpl in Hin.
  - apply elem_of_nil in Hin. contradiction.
  - apply elem_of_cons in Hin as [->|Hin]; [eexists; reflexivity|eauto].
Qed.

Lemma layer_body_contacts (fuel : nat) (dataset_layers : gmap string (list string))
    (d : Dataset) (crs layer : string) (v : Vars C) (st : State C) :
  layer ∈ default [] (dataset_layers !! ds_name d) →
  contacts (request_of dataset_layers d) st (snd (layer_body W fuel d crs layer v st)).
Proof.
  intros Hlayer. unfold layer_body.
  destruct (decide (ds_type d = "WFS")) as [Hwfs|Hwfs].
  - unfold bind at 1.
    destruct (wfs_pages_shape W (ds_url d) layer crs (working_box v) fuel [] 0 st)
      as (n & _ & Hst & _).
    assert (Hpages : contacts (request_of dataset_layers d) st
                       (after_requests st
                          (page_requests (ds_url d) layer crs (working_box v) 0 n))).
    { eexists. split; [reflexivity|]. intros req Hreq.
      apply page_requests_elem in Hreq as [s ->]. right. split; [exact Hwfs|]. eauto 10. }
    destruct (wfs_pages W fuel (ds_url d) layer crs (working_box v) [] 0 st)
      as [[[|g gs]|e|] st1]; simpl in Hst; subst st1; exact Hpages.
  - destruct (decide (ds_type d = "WMS")); apply contacts_refl.
Qed.

Lemma layers_contacts (fuel : nat) (dataset_layers : gmap string (list string))
    (d : Dataset) (crs : string) (layers : list string) (v : Vars C) (st : State C) :
  (∀ layer, layer ∈ layers → layer ∈ default [] (dataset_layers !! ds_name d)) →
  contacts (request_of dataset_layers d) st
    (snd (for_each layers (layer_body W fuel d crs) v st)).
Proof.
  revert v st. induction layers as [|layer layers IH]; intros v st Hsub;
    [apply contacts_refl|].
  simpl. unfold bind.
  pose proof (layer_body_contacts fuel dataset_layers d crs layer v st
                (Hsub layer (list_elem_of_here _ _))) as Hstep.
  destruct (layer_body W fuel d crs layer v st) as [[v'|e|] st1]; simpl in Hstep;
    [|exact Hstep..].
  eapply contacts_trans; [exact Hstep|]. apply IH.
  intros l Hl. apply Hsub, list_elem_of_further, Hl.
Qed.

Lemma dataset_body_contacts (fuel : nat) (selected : list string)
    (dataset_layers : gmap string (list string)) (bbox : Ref) (d : Dataset)
    (v : Vars C) (st : State C) :
  contacts (λ req, ds_name d ∈ selected ∧ request_of dataset_layers d req) st
    (snd (dataset_body W fuel selected dataset_layers bbox d v st)).
Proof.
  destruct (decide (ds_name d ∈ selected)) as [Hsel|Hsel].
  - destruct (dataset_body_selected W fuel selected dataset_layers bbox d v st Hsel)
      as (s & _ & ->).
    assert (Hweaken : ∀ st1 st2 : State C, contacts (request_of dataset_layers d) st1 st2 →
              contacts (λ req, ds_name d ∈ selected ∧ request_of dataset_layers d req)
                st1 st2).
    { intros st1 st2 (reqs & Hr & Hall). exists reqs. split; [exact Hr|]. auto. }
    apply (contacts_trans _ st (after_requests st [crs_request (ds_url d)])).
    { exists [crs_request (ds_url d)]. split; [reflexivity|].
      intros req Hreq%list_elem_of_singleton. split; [exact Hsel|]. left. exact Hreq. }
    unfold dataset_rest.
    destruct (decide (select_to_epsg s ≠ 4326)).
    + rewrite load_transform_bind.
      destruct (transform_bbox W _ 4326 (select_to_epsg s)) as [e|t];
        [apply contacts_transform|].
      eapply contacts_trans; [apply contacts_transform|].
      apply Hweaken, layers_contacts. auto.
    + rewrite bind_ret. apply Hweaken, layers_contacts. auto.
  - rewrite dataset_body_not_selected by exact Hsel. apply contacts_refl.
Qed.

(** X22. However [fetch_geodata] ends, every request it has sent went to
    the URL of a selected dataset of [datasets]: the capabilities request
    of the dataset, or, for a dataset of type WFS, a GetFeature request
    for one of the layers that [dataset_layers] lists for it.  A WMS
    dataset gets the capabilities request alone, and no GetMap request is
    ever sent. *)
Theorem fetch_geodata_contacts (fuel : nat) (selected : list string)
    (dataset_layers : gmap string (list string)) (datasets : list Dataset)
    (bbox : Ref) (st : State C) :
  ∃ reqs,
    requests (snd (fetch_geodata W fuel selected dataset_layers datasets bbox st))
    = requests st ++ reqs
    ∧ ∀ req, req ∈ reqs →
        ∃ d, d ∈ datasets ∧ ds_name d ∈ selected ∧ request_of dataset_layers d req.
Proof.
  rewrite fetch_geodata_unfold.
  set (allowed := λ req, ∃ d, d ∈ datasets ∧ ds_name d ∈ selected
                              ∧ request_of dataset_layers d req).
  assert (Hloop : ∀ ds v st1, (∀ d, d ∈ ds → d ∈ datasets) →
            contacts allowed st1
              (snd (for_each ds (dataset_body W fuel selected dataset_layers bbox) v st1))).
  { induction ds as [|d ds IH]; intros v st1 Hsub; [apply contacts_refl|].
    simpl. unfold bind.
    assert (Hstep : contacts allowed st1
                      (snd (dataset_body W fuel selected dataset_layers bbox d v st1))).
    { destruct (dataset_body_contacts fuel selected dataset_layers bbox d v st1)
        as (reqs & Hr & Hall).
      exists reqs. split; [exact Hr|]. intros req Hreq.
      destruct (Hall req Hreq) as [Hsel Hof]. exists d.
      split; [apply Hsub, list_elem_of_here|]. auto. }
    destruct (dataset_body W fuel selected dataset_layers bbox d v st1)
      as [[v'|e|] st2]; simpl in Hstep; [|exact Hstep..].
    eapply contacts_trans; [exact Hstep|]. apply IH.
    intros d' Hd'. apply Hsub, list_elem_of_further, Hd'. }
  specialize (Hloop datasets (initial_vars (objects st bbox)) st (λ d Hd, Hd)).
  unfold bind.
  destruct (for_each datasets _ (initial_vars (objects st bbox)) st) as [[v|e|] st1];
    exact Hloop.
Qed.

(** X12. After the layer loop of a WMS dataset every layer of the list
    has its entry, the GetMap URL for the working extent, whatever was
    registered under that name before; the entries of other names and the
    working extent are as they were. *)
Theorem wms_layers_lookup (fuel : nat) (d : Dataset) (crs : string)
    (layers : list string) (v : Vars C) (st : State C) :
  ds_type d = "WMS" →
  ∃ v',
    for_each layers (layer_body W fuel d crs) v st = (Ret v', st)
    ∧ working_box v' = working_box v
    ∧ (∀ layer, layer ∈ layers →
         results v' !! layer
         = Some (WMSResult (wms_url_of (ds_url d) layer (working_box v))))
    ∧ (∀ k, k ∉ layers → results v' !! k = results v !! k).
Proof.
  intros Hwms. revert v. induction layers as [|layer layers IH]; intros v.
  - exists v. split; [reflexivity|]. split; [reflexivity|]. split; [|reflexivity].
    intros layer Hl. apply elem_of_nil in Hl. contradiction.
  - simpl. unfold bind. rewrite (wms_layer_body W) by exact Hwms.
    set (v1 := set_result v layer
                 (WMSResult (wms_url_of (ds_url d) layer (working_box v)))).
    destruct (IH v1) as (v' & Hrun & Hbox & Hin & Hout).
    exists v'. split; [exact Hrun|]. split; [rewrite Hbox; reflexivity|]. split.
    + intros k Hk. destruct (decide (k ∈ layers)) as [Hk'|Hk'].
      * rewrite (Hin k Hk'). reflexivity.
      * apply elem_of_cons in Hk as [->|Hk]; [|contradiction].
        rewrite (Hout layer Hk'). unfold v1, set_result. simpl. apply lookup_insert_eq.
    + intros k Hk. apply not_elem_of_cons in Hk as [Hne Hk].
      rewrite (Hout k Hk). unfold v1, set_result. simpl. apply lookup_insert_ne.
      congruence.
Qed.

End Contacts.

(** ** More runs in the mock worlds *)

(** The run with a WFS and a WMS dataset: the entry of [water]. *)
Lemma fetch_geodata_entries_witness :
  ∃ d b, d ∈ [Sample.ds_rd; Sample.ds_wms] ∧ ds_name d ∈ ["rd"; "wms"]
         ∧ entry_of d "water" b
             (WMSResult (wms_url_of Sample.url_wms "water" Sample.rd_box)).
Proof.
  assert (Hrun : fst Sample.run_rd_then_wms
                 = Ret {[ "water" := WMSResult (wms_url_of Sample.url_wms "water"
                                                  Sample.rd_box) ]}).
  { vm_compute. reflexivity. }
  assert (Hk : ({[ "water" := WMSResult (wms_url_of Sample.url_wms "water"
                                            Sample.rd_box) ]}
                  : gmap string LayerResult) !! "water"
               = Some (WMSResult (wms_url_of Sample.url_wms "water" Sample.rd_box))).
  { apply lookup_singleton_eq. }
  destruct (fetch_geodata_entries Sample.world 10 ["rd"; "wms"]
              {[ "rd" := []; "wms" := ["water"] ]} [Sample.ds_rd; Sample.ds_wms] 0%nat
              Sample.st0 _ Hrun "water" _ Hk)
    as (d & b & Hd & Hsel & _ & Hentry).
  exists d, b. auto.
Defined.

Lemma fetch_geodata_nothing_selected_witness :
  fetch_geodata Sample.world 10 [] Outage.all_layers Outage.all_datasets 0%nat Sample.st0
  = (Ret ∅, Sample.st0).
Proof.
  apply (fetch_geodata_nothing_selected Sample.world 10 [] Outage.all_layers
           Outage.all_datasets 0%nat Sample.st0).
  intros d _ Hsel. apply elem_of_nil in Hsel. exact Hsel.
Defined.

(** The WMS dataset goes through, the first GetFeature request of the
    next dataset ends in a connection error, the third dataset is not
    reached. *)
Lemma fetch_geodata_raises_witness :
  fst (fetch_geodata Outage.offline_world 10 Outage.all_selected Outage.all_layers
         ([Sample.ds_wms] ++ Sample.ds_rd :: [Sample.ds_plain]) 0%nat Sample.st0)
  = Raise (RequestException ConnectionError).
Proof.
  destruct (for_each [Sample.ds_wms]
              (dataset_body Outage.offline_world 10 Outage.all_selected
                 Outage.all_layers 0%nat)
              (initial_vars (objects Sample.st0 0%nat)) Sample.st0)
    as [o1 st1] eqn:Hbefore.
  pose proof Hbefore as H1. vm_compute in H1. injection H1 as <- <-.
  match type of Hbefore with _ = (Ret ?v1, ?st1) =>
    destruct (dataset_body Outage.offline_world 10 Outage.all_selected
                Outage.all_layers 0%nat Sample.ds_rd v1 st1) as [o2 st2] eqn:Hd
  end.
  pose proof Hd as H2. vm_compute in H2. injection H2 as <- <-.
  rewrite (fetch_geodata_raises Outage.offline_world 10 Outage.all_selected
             Outage.all_layers [Sample.ds_wms] [Sample.ds_plain] Sample.ds_rd 0%nat
             Sample.st0 _ _ _ (RequestException ConnectionError) Hbefore Hd).
  reflexivity.
Defined.

Lemma fetch_geodata_without_28992_witness :
  transforms (snd (fetch_geodata Outage.plain_world 10 Outage.all_selected
                     Outage.all_layers Outage.all_datasets 0%nat Sample.st0))
  = [].
Proof.
  destruct (fetch_geodata Outage.plain_world 10 Outage.all_selected Outage.all_layers
              Outage.all_datasets 0%nat Sample.st0) as [o st'] eqn:Hrun.
  destruct (fetch_geodata_without_28992 Outage.plain_world 10 Outage.all_selected
              Outage.all_layers Outage.all_datasets 0%nat Sample.st0 o st')
    as ((Htr & _) & _).
  - intros st1 url s Hs.
    change (Ret ({[ Sample.urn_4326 ]} ∪ ∅) = Ret s) in Hs. injection Hs as <-.
    intros [Hc|Hc]%elem_of_union.
    + apply elem_of_singleton in Hc. discriminate Hc.
    + apply elem_of_empty in Hc. exact Hc.
  - exact Hrun.
  - exact Htr.
Defined.

(** A file of a layer that is not asked for stays as it is. *)
Lemma fetch_geodata_files_frame_witness :
  files (snd (fetch_geodata Sample.world 10 Outage.all_selected Outage.all_layers
                Outage.all_datasets 0%nat Outage.st_with_file))
    !! "ns_lakes_4326.geojson"
  = Some (Sample.page "EPSG:4326" 0 2).
Proof.
  rewrite (fetch_geodata_files_frame Sample.world 10 Outage.all_selected
             Outage.all_layers Outage.all_datasets 0%nat Outage.st_with_file
             "ns_lakes_4326.geojson").
  - reflexivity.
  - intros layer (d & Hd & _ & Hty & Hlayer).
    apply list_elem_of_In in Hd. simpl in Hd.
    destruct Hd as [<-|[<-|[<-|[]]]]; [discriminate Hty| |];
      vm_compute in Hlayer; apply list_elem_of_singleton in Hlayer; subst layer;
      vm_compute; discriminate.
Defined.

Lemma wms_layers_registered_witness :
  for_each ["water"; "land"] (layer_body Sample.world 10 Sample.ds_wms Sample.urn_4326)
    Sample.caller_vars Sample.st0
  = (Ret (register_wms Sample.url_wms ["water"; "land"] Sample.caller_vars), Sample.st0).
Proof.
  apply (wms_layers_registered Sample.world 10 Sample.ds_wms Sample.urn_4326
           ["water"; "land"] Sample.caller_vars Sample.st0).
  reflexivity.
Defined.

(** A dataset of type "wms" in lower case. *)
Lemma dataset_body_nothing_to_fetch_witness :
  requests (snd (dataset_body Sample.world 10 ["wms"] {[ "wms" := ["water"] ]} 0%nat
                   (mkDataset "wms" Sample.url_wms "wms") Sample.caller_vars Sample.st0))
  = [crs_request Sample.url_wms].
Proof.
  destruct (dataset_body Sample.world 10 ["wms"] {[ "wms" := ["water"] ]} 0%nat
              (mkDataset "wms" Sample.url_wms "wms") Sample.caller_vars Sample.st0)
    as [o st'] eqn:Hrun.
  destruct (dataset_body_nothing_to_fetch Sample.world 10 ["wms"]
              {[ "wms" := ["water"] ]} 0%nat (mkDataset "wms" Sample.url_wms "wms")
              Sample.caller_vars Sample.st0 o st') as (Hreq & _).
  - apply list_elem_of_here.
  - right. split; discriminate.
  - exact Hrun.
  - exact Hreq.
Defined.

(** A world in which [pyproj] knows no code at all: the dataset whose
    service offers EPSG:28992 cannot be processed, with or without
    layers. *)
Lemma dataset_body_unknown_crs_witness :
  fst (dataset_body Outage.no_proj_world 10 ["rd"] ∅ 0%nat Sample.ds_rd
         Sample.caller_vars Sample.st0)
  = Raise CRSError.
Proof.
  rewrite (dataset_body_unknown_crs Outage.no_proj_world 10 ["rd"] ∅ 0%nat Sample.ds_rd
             Sample.caller_vars Sample.st0
             ({[ Sample.urn_4326 ]} ∪ ({[ urn_28992 ]} ∪ ∅))).
  - reflexivity.
  - apply list_elem_of_here.
  - reflexivity.
  - apply elem_of_union_r, elem_of_union_l, elem_of_singleton. reflexivity.
  - left. reflexivity.
Defined.

Lemma wms_layers_lookup_witness :
  ∃ v',
    for_each ["water"; "land"; "water"]
      (layer_body Sample.world 10 Sample.ds_wms Sample.urn_4326) Sample.caller_vars
      Sample.st0 = (Ret v', Sample.st0)
    ∧ results v' !! "land"
      = Some (WMSResult (wms_url_of Sample.url_wms "land" (4, 51, 5, 52))).
Proof.
  destruct (wms_layers_lookup Sample.world 10 Sample.ds_wms Sample.urn_4326
              ["water"; "land"; "water"] Sample.caller_vars Sample.st0 eq_refl)
    as (v' & Hrun & _ & Hin & _).
  exists v'. split; [exact Hrun|].
  apply (Hin "land"). apply list_elem_of_further, list_elem_of_here.
Defined.
